(** * notion-to-github: the converter, the Notion renderer and the GitHub writer

    A shallow embedding of [src/converter.ts], [src/notionService.ts] and
    [src/githubService.ts].

    - JavaScript strings are Rocq strings: a character stands for one code
      unit, restricted to U+0000..U+00FF.
    - A thrown exception is the right injection of [Result].
    - The two remote services are explicit state: every Octokit request is
      appended to a log, may be failed by a fault script, and otherwise acts
      on a small model of the repository. The model keeps the git data
      (refs, trees, commits) and the files that the contents interface
      serves apart: it says what a request does to its own part, and no
      statement below relates the two.
    - The renderer is modelled on typed blocks, for what it writes, and
      again in [Any] on blocks as they arrive, any JSON value, for where it
      raises; the two agree on typed blocks.
    - The libraries the code calls but does not contain ([Date] parsing and
      gray-matter) are the fields of the class [Runtime]. *)

From Stdlib Require Import Ascii String ZArith Lia Bool DecimalString.
From stdpp Require Import gmap strings list.

(** String concatenation computes on a literal prefix. *)
#[local] Arguments String.append !_ _ / : simpl nomatch.

(** ** JavaScript strings *)

Module Js.

Definition code (c : ascii) : nat := nat_of_ascii c.

Definition between (lo hi : nat) (c : ascii) : bool :=
  (lo <=? code c) && (code c <=? hi).

(** [[A-Z]] *)
Definition is_upper (c : ascii) : bool := between 65 90 c.
(** [[a-z]] *)
Definition is_lower (c : ascii) : bool := between 97 122 c.
(** [[0-9]] *)
Definition is_digit (c : ascii) : bool := between 48 57 c.
(** [-] *)
Definition is_hyphen (c : ascii) : bool := code c =? 45.
(** [\s], which is also the set [String.prototype.trim] removes: TAB, LF,
    VT, FF, CR, SPACE and NO-BREAK SPACE below U+0100. *)
Definition is_space (c : ascii) : bool :=
  between 9 13 c || (code c =? 32) || (code c =? 160).

(** Latin capital letters with a lower-case partner 32 code points above:
    A-Z, and U+00C0..U+00DE without the multiplication sign U+00D7. *)
Definition has_lower (c : ascii) : bool :=
  is_upper c || (between 192 222 c && negb (code c =? 215)).

Definition lower_unit (c : ascii) : ascii :=
  if has_lower c then ascii_of_nat (code c + 32) else c.

Fixpoint map_units (f : ascii -> ascii) (s : string) : string :=
  match s with
  | EmptyString => EmptyString
  | String c r => String (f c) (map_units f r)
  end.

(** [s.toLowerCase()] *)
Definition toLowerCase (s : string) : string := map_units lower_unit s.

Fixpoint filter_units (keep : ascii -> bool) (s : string) : string :=
  match s with
  | EmptyString => EmptyString
  | String c r =>
      if keep c then String c (filter_units keep r) else filter_units keep r
  end.

(** [s.replace(/X+/g, rep)] for a character class [X] and a one-character
    replacement: every maximal run of [X] becomes one [rep]. [in_run] tells
    that the previous character was in [X]. *)
Fixpoint replace_runs (X : ascii -> bool) (rep : ascii) (in_run : bool)
    (s : string) : string :=
  match s with
  | EmptyString => EmptyString
  | String c r =>
      if X c then
        if in_run then replace_runs X rep true r
        else String rep (replace_runs X rep true r)
      else String c (replace_runs X rep false r)
  end.

(** [s] without the characters of [X] it starts with. *)
Fixpoint drop_leading (X : ascii -> bool) (s : string) : string :=
  match s with
  | EmptyString => EmptyString
  | String c r => if X c then drop_leading X r else s
  end.

(** [s] without the characters of [X] it ends with. *)
Fixpoint drop_trailing (X : ascii -> bool) (s : string) : string :=
  match s with
  | EmptyString => EmptyString
  | String c r =>
      match drop_trailing X r with
      | EmptyString => if X c then EmptyString else String c EmptyString
      | r' => String c r'
      end
  end.

(** [s.trim()] *)
Definition trim (s : string) : string :=
  drop_trailing is_space (drop_leading is_space s).

(** [s.startsWith(p)] *)
Fixpoint startsWith (p s : string) : bool :=
  match p, s with
  | EmptyString, _ => true
  | String a p', String b s' => Ascii.eqb a b && startsWith p' s'
  | String _ _, EmptyString => false
  end.

(** [s.split(sep)[0]] for a non-empty separator: the text before the first
    occurrence of [sep], all of [s] when there is none. *)
Fixpoint split_head (sep s : string) : string :=
  if startsWith sep s then EmptyString
  else match s with
       | EmptyString => EmptyString
       | String c r => String c (split_head sep r)
       end.

(** [s.substring(0, n)] *)
Fixpoint substring0 (n : nat) (s : string) : string :=
  match n, s with
  | S n', String c r => String c (substring0 n' r)
  | _, _ => EmptyString
  end.

(** [c.repeat(n)] for a one-character string *)
Fixpoint repeat (c : ascii) (n : nat) : string :=
  match n with
  | O => EmptyString
  | S n' => String c (repeat c n')
  end.

(** Every code unit of [s] satisfies [P]. *)
Fixpoint all_units (P : ascii -> bool) (s : string) : bool :=
  match s with
  | EmptyString => true
  | String c r => P c && all_units P r
  end.

(** No two neighbours of [s] are both in [X]; with [prev] set, [s] does
    not start in [X] either. *)
Fixpoint run_free (X : ascii -> bool) (prev : bool) (s : string) : bool :=
  match s with
  | EmptyString => true
  | String c r =>
      if X c then negb prev && run_free X true r else run_free X false r
  end.

(** The number of line feeds [s] ends with. *)
Fixpoint trailing_newlines (s : string) : nat :=
  match s with
  | EmptyString => 0
  | String c r =>
      if all_units (Ascii.eqb (ascii_of_nat 10)) s then String.length s
      else trailing_newlines r
  end.

(** Truthiness of a string: only the empty string is falsy. *)
Definition truthy (s : string) : bool := negb (String.eqb s "").

(** [o || d] for a value that is a string or [undefined]/[null]. *)
Definition or_default (o : option string) (d : string) : string :=
  match o with
  | Some s => if truthy s then s else d
  | None => d
  end.

(** [`${v}`] of a value that is a string or [undefined]. *)
Definition interpolate (o : option string) : string :=
  match o with Some s => s | None => "undefined" end.

Definition digit (n : nat) : ascii := ascii_of_nat (48 + n mod 10).

(** Decimal digits of [n], at least [width] of them. *)
Fixpoint digits (width : nat) (n : nat) : string :=
  match width with
  | O => EmptyString
  | S w => digits w (n / 10) +:+ String (digit n) EmptyString
  end.

(** [String(n)] for a non-negative integer. *)
Definition of_nat (n : nat) : string :=
  NilEmpty.string_of_uint (Nat.to_uint n).

Definition LF : ascii := ascii_of_nat 10.
(** The double quote. *)
Definition quote : string := String (ascii_of_nat 34) EmptyString.
(** ['\n\n'] *)
Definition blank : string := String LF (String LF EmptyString).

End Js.

(** ** Errors *)

(** [err_status] is the [status] field Octokit's [RequestError] carries. *)
Record Error := mkError {
  err_name : string;
  err_message : string;
  err_status : option nat
}.

(** [`${error}`] *)
Definition error_toString (e : Error) : string :=
  err_name e +:+ ": " +:+ err_message e.

Definition Result (A : Type) : Type := A + Error.
Definition Ok {A} (a : A) : Result A := inl a.
Definition Throw {A} (e : Error) : Result A := inr e.

Definition TypeError (m : string) : Error := mkError "TypeError" m None.
Definition RangeError (m : string) : Error := mkError "RangeError" m None.
(** [new Error(m)] *)
Definition PlainError (m : string) : Error := mkError "Error" m None.
Definition RequestError (status : nat) : Error :=
  mkError "HttpError" ("request failed with status " +:+ Js.of_nat status)
    (Some status).

(** [error.status === n] *)
Definition status_is (e : Error) (n : nat) : bool :=
  match err_status e with
  | Some s => s =? n
  | None => false
  end.

(** Reading property [prop] of a value that may be [undefined]. *)
Definition read {A} (o : option A) (prop : string) : Result A :=
  match o with
  | Some a => Ok a
  | None =>
      Throw (TypeError
        ("Cannot read properties of undefined (reading '" +:+ prop +:+ "')"))
  end.

Definition rbind {A B} (r : Result A) (k : A -> Result B) : Result B :=
  match r with
  | inl a => k a
  | inr e => inr e
  end.

Declare Scope result_scope.
Delimit Scope result_scope with result.
Notation "'let!' x ':=' r 'in' k" := (rbind r (fun x => k))
  (at level 10, x name, r at level 100, k at level 200) : result_scope.

Open Scope result_scope.

(** ** The Notion renderer ([notionService.ts]) *)

Record Annotations := {
  bold : bool;
  italic : bool;
  strikethrough : bool;
  code : bool
}.

Record RichText := {
  plain_text : string;
  annotations : Annotations;
  href : option string
}.

Record FileRef := { url : option string }.

(** The object a block stores under its own type tag. Every field may be
    missing; [image_type] is the [type] field of an image. *)
Record Payload := {
  rich_text : option (list RichText);
  language : option string;
  caption : option (list RichText);
  image_type : option string;
  external : option FileRef;
  file : option FileRef
}.

(** A block is [any] in the source: [payload] is [block[type]], the only
    property of a block that the renderer reads besides [type]. *)
Record Block := { type : string; payload : option Payload }.

Definition renderSpan (text : RichText) : string :=
  let content := plain_text text in
  let content :=
    if bold (annotations text) then "**" +:+ content +:+ "**" else content in
  let content :=
    if italic (annotations text) then "*" +:+ content +:+ "*" else content in
  let content :=
    if strikethrough (annotations text) then "~~" +:+ content +:+ "~~"
    else content in
  let content :=
    if code (annotations text) then "`" +:+ content +:+ "`" else content in
  let content :=
    match href text with
    | Some h =>
        if Js.truthy h then "[" +:+ content +:+ "](" +:+ h +:+ ")" else content
    | None => content
    end in
  content.

Definition renderRichText (richText : list RichText) : string :=
  String.concat "" (map renderSpan richText).

(** [renderRichText(x.rich_text)] where [x] and its list may be missing. *)
Definition renderRichTextOf (x : option Payload) : Result string :=
  let! x := read x "rich_text" in
  let! richText := read (rich_text x) "map" in
  Ok (renderRichText richText).

Definition renderParagraph (paragraph : option Payload) : Result string :=
  renderRichTextOf paragraph.

Definition renderHeading (heading : option Payload) (level : nat)
    : Result string :=
  let prefix := Js.repeat "#" level in
  let! spans := renderRichTextOf heading in
  Ok (prefix +:+ " " +:+ spans).

Definition renderBulletedListItem (item : option Payload) : Result string :=
  let! spans := renderRichTextOf item in
  Ok ("- " +:+ spans).

Definition renderNumberedListItem (item : option Payload) : Result string :=
  let! spans := renderRichTextOf item in
  Ok ("1. " +:+ spans).

Definition renderCode (code : option Payload) : Result string :=
  let! c := read code "language" in
  let language := Js.or_default (language c) "" in
  let! content := renderRichTextOf code in
  Ok ("```" +:+ language +:+ String Js.LF content +:+ String Js.LF "```").

Definition renderQuote (quote : option Payload) : Result string :=
  let! content := renderRichTextOf quote in
  Ok ("> " +:+ content).

Definition renderImage (image : option Payload) : Result string :=
  let! i := read image "caption" in
  let caption :=
    match caption i with
    | Some spans => renderRichText spans
    | None => ""
    end in
  let! url :=
    if decide (image_type i = Some "external")
    then (let! e := read (external i) "url" in Ok (url e))
    else (let! f := read (file i) "url" in Ok (url f)) in
  Ok ("![" +:+ caption +:+ "](" +:+ Js.interpolate url +:+ ")").

(** The value of [content] when the [switch] of [convertBlockToMarkdown]
    is left. *)
Definition blockContent (block : Block) : Result string :=
  let type := type block in
  if String.eqb type "paragraph" then renderParagraph (payload block)
  else if String.eqb type "heading_1" then renderHeading (payload block) 1
  else if String.eqb type "heading_2" then renderHeading (payload block) 2
  else if String.eqb type "heading_3" then renderHeading (payload block) 3
  else if String.eqb type "bulleted_list_item"
    then renderBulletedListItem (payload block)
  else if String.eqb type "numbered_list_item"
    then renderNumberedListItem (payload block)
  else if String.eqb type "code" then renderCode (payload block)
  else if String.eqb type "quote" then renderQuote (payload block)
  else if String.eqb type "image" then renderImage (payload block)
  else if String.eqb type "divider"
    then Ok (String Js.LF "---" +:+ Js.blank)
  else
    Ok (renderRichText
          (match payload block with
           | Some p => match rich_text p with Some l => l | None => [] end
           | None => []
           end)).

Definition convertBlockToMarkdown (block : Block) : Result string :=
  let! content := blockContent block in
  Ok (content +:+ Js.blank).

(** The loop of [convertBlocksToMarkdown], entered with [markdown]. *)
Fixpoint convertBlocksFrom (markdown : string) (blocks : list Block)
    : Result string :=
  match blocks with
  | [] => Ok markdown
  | block :: rest =>
      let! s := convertBlockToMarkdown block in
      convertBlocksFrom (markdown +:+ s) rest
  end.

Definition convertBlocksToMarkdown (blocks : list Block) : Result string :=
  convertBlocksFrom "" blocks.

(** *** The rendering rules in the words of the specification *)

(** An optional wrap of [s] in a style marker. *)
Definition wrapped (marker : string) (on : bool) (s : string) : string :=
  if on then marker +:+ s +:+ marker else s.

(** The hyperlink wrap, applied when there is a non-empty target. *)
Definition linked (target : option string) (s : string) : string :=
  match target with
  | Some u => if Js.truthy u then "[" +:+ s +:+ "](" +:+ u +:+ ")" else s
  | None => s
  end.

(** Bold first, then italic, strikethrough, inline code, then the link. *)
Definition spec_span (text : RichText) : string :=
  linked (href text)
    (wrapped "`" (code (annotations text))
       (wrapped "~~" (strikethrough (annotations text))
          (wrapped "*" (italic (annotations text))
             (wrapped "**" (bold (annotations text)) (plain_text text))))).

(** Spans one after the other, nothing between them. *)
Fixpoint spec_spans (spans : list RichText) : string :=
  match spans with
  | [] => ""
  | text :: rest => spec_span text +:+ spec_spans rest
  end.

(** *** Blocks that carry what their renderer reads *)

Definition recognized (type : string) : bool :=
  existsb (String.eqb type)
    ["paragraph"; "heading_1"; "heading_2"; "heading_3";
     "bulleted_list_item"; "numbered_list_item"; "code"; "quote"; "image";
     "divider"].

Definition has_spans (x : option Payload) : bool :=
  match x with
  | Some p => match rich_text p with Some _ => true | None => false end
  | None => false
  end.

Definition has_source (x : option Payload) : bool :=
  match x with
  | Some p =>
      if decide (image_type p = Some "external")
      then match external p with Some _ => true | None => false end
      else match file p with Some _ => true | None => false end
  | None => false
  end.

(** A divider needs nothing, an image its source object, every other
    recognized block its rich-text list; an unrecognized block may be
    anything. *)
Definition well_formed (block : Block) : bool :=
  if String.eqb (type block) "divider" then true
  else if String.eqb (type block) "image" then has_source (payload block)
  else if recognized (type block) then has_spans (payload block)
  else true.

(** The rich-text list the [default] case falls back on. *)
Definition fallback_spans (block : Block) : list RichText :=
  match payload block with
  | Some p => match rich_text p with Some l => l | None => [] end
  | None => []
  end.

(** ** Dates *)

(** The UTC fields of a valid [Date]. *)
Record Instant := {
  year : Z;
  month : nat;
  day : nat;
  hours : nat;
  minutes : nat;
  seconds : nat;
  milliseconds : nat
}.

(** Four digits for the years 0..9999, else a sign and six digits. *)
Definition year_string (y : Z) : string :=
  if ((0 <=? y) && (y <=? 9999))%Z then Js.digits 4 (Z.to_nat y)
  else (if (y <? 0)%Z then "-" else "+") +:+ Js.digits 6 (Z.to_nat (Z.abs y)).

(** [YYYY-MM-DD] *)
Definition date_string (t : Instant) : string :=
  year_string (year t) +:+ "-" +:+ Js.digits 2 (month t) +:+ "-"
    +:+ Js.digits 2 (day t).

(** [d.toISOString()]: [YYYY-MM-DDTHH:mm:ss.sssZ] *)
Definition toISOString (t : Instant) : string :=
  date_string t +:+ "T" +:+ Js.digits 2 (hours t) +:+ ":"
    +:+ Js.digits 2 (minutes t) +:+ ":" +:+ Js.digits 2 (seconds t) +:+ "."
    +:+ Js.digits 3 (milliseconds t) +:+ "Z".

(** ** Objects with string keys *)

#[local] Set Warnings "-register-all".

(** The values of a front-matter field ([any] in the source). *)
Inductive Json :=
  | JNull
  | JBool (b : bool)
  | JNum (z : Z)
  | JStr (s : string)
  | JArr (l : list Json)
  | JObj (l : list (string * Json)).

(** An object keeps its keys in insertion order. *)
Abbreviation Object := (list (string * Json)).

(** [o[k]] *)
Fixpoint obj_get (k : string) (o : Object) : option Json :=
  match o with
  | [] => None
  | (k', v) :: r => if String.eqb k k' then Some v else obj_get k r
  end.

(** [o[k] = v]: an existing key keeps its place, a new one goes last. *)
Fixpoint obj_set (o : Object) (k : string) (v : Json) : Object :=
  match o with
  | [] => [(k, v)]
  | (k', v') :: r =>
      if String.eqb k k' then (k, v) :: r else (k', v') :: obj_set r k v
  end.

(** [{ ...o, ...extra }] *)
Definition obj_spread (o extra : Object) : Object :=
  fold_left (fun acc kv => obj_set acc (fst kv) (snd kv)) extra o.

(** ** What the code takes from its libraries *)

Class Runtime := {
  (** [new Date(s)]: the instant a string denotes; [None] is an invalid
      date, whose [toISOString] throws. *)
  Date_parse : string -> option Instant;
  (** [new Date()]: the clock, read as one instant during a run. *)
  Date_now : Instant;
  (** gray-matter's [matter.stringify(content, data)] *)
  matter_stringify : string -> Object -> string
}.

(** [new Date(s).toISOString()] *)
Definition Date_toISOString `{Runtime} (s : string) : Result string :=
  match Date_parse s with
  | Some t => Ok (toISOString t)
  | None => Throw (RangeError "Invalid time value")
  end.

(** ** Pages ([types.ts]) *)

(** A value of the property bag: its [type] and its [title] array. *)
Module Property.
Record t := { type : option string; title : option (list RichText) }.
End Property.
Abbreviation Properties := (list (string * Property.t)).

Module NotionPage.
Record t := {
  id : string;
  title : string;
  content : string;
  properties : Properties;
  lastEditedTime : string;
  url : string
}.
End NotionPage.
Abbreviation NotionPage := NotionPage.t.

(** The [summary] of [convertToMDX]. *)
Definition summarize (content : string) : string :=
  let firstParagraph := Js.split_head Js.blank content in
  if 150 <? String.length firstParagraph
  then Js.substring0 150 firstParagraph +:+ "..."
  else if Js.truthy firstParagraph then firstParagraph
       else "No summary available".

(** The object [defaultFrontMatter], given the date. *)
Definition defaultFrontMatter (page : NotionPage) (publishedDate : string)
    (frontMatter : option Object) : Object :=
  obj_spread
    [("title", JStr (NotionPage.title page));
     ("publishedAt", JStr publishedDate);
     ("summary", JStr (summarize (NotionPage.content page)))]
    (match frontMatter with Some o => o | None => [] end).

Definition convertToMDX `{Runtime} (page : NotionPage)
    (frontMatter : option Object) : Result string :=
  let! iso := Date_toISOString (NotionPage.lastEditedTime page) in
  let publishedDate := Js.split_head "T" iso in
  let frontMatterString :=
    matter_stringify "" (defaultFrontMatter page publishedDate frontMatter) in
  let content := NotionPage.content page in
  Ok (frontMatterString +:+ Js.blank +:+ content).



(** ** The hosting service *)

Module GitHubFile.
Record t := { path : string; content : string; message : string }.
End GitHubFile.
Abbreviation GitHubFile := GitHubFile.t.

Record ConversionConfig := {
  notionDatabaseId : string;
  githubRepoOwner : string;
  githubRepoName : string;
  githubBranch : string;
  outputPath : string
}.

Module TreeEntry.
Record t := {
  path : string;
  mode : string;
  type : string;
  content : string
}.
End TreeEntry.

Module Commit.
Record t := { message : string; tree : string; parents : list string }.
End Commit.

(** What [repos.getContent] finds at a path: a file, with its text (the
    transport's base64 layer is left out) and blob sha, or a directory
    listing, which has neither [content] nor [sha]. *)
Inductive Entry :=
  | File (text sha : string)
  | Dir.

(** The requests the code sends; [owner] and [repo], the same in every one
    of them, are left out. *)
Inductive Request :=
  | GetRef (ref : string)
  | CreateTree (tree : list TreeEntry.t) (base_tree : string)
  | CreateCommit (message tree : string) (parents : list string)
  | UpdateRef (ref sha : string)
  | GetContent (path ref : string)
  | CreateOrUpdateFileContents (path message content : string)
      (sha : option string) (branch : string)
  | ReposGet.

Record GitHub := mkGitHub {
  (** whether [repos.get] finds the repository *)
  accessible : bool;
  (** ref name, as in [heads/main], to commit sha *)
  refs : gmap string string;
  (** tree sha to its entries and the base it was layered on *)
  trees : gmap string (list TreeEntry.t * string);
  commits : gmap string Commit.t;
  (** branch and path to the entry there *)
  contents : gmap (string * string) Entry;
  (** objects created so far; names the next one *)
  created : nat;
  (** the failures to come: a request takes the head, and [Some status]
      fails it with that status before it has any effect *)
  faults : list (option nat);
  (** every request received, oldest first *)
  log : list Request
}.

Definition object_name (n : nat) : string := "obj" +:+ Js.of_nat n.

(** ** Code that talks to the hosting service *)

Definition M (A : Type) : Type := GitHub -> Result A * GitHub.

Definition ret {A} (a : A) : M A := fun g => (Ok a, g).
Definition throw {A} (e : Error) : M A := fun g => (Throw e, g).
Definition lift {A} (r : Result A) : M A := fun g => (r, g).

Definition bind {A B} (m : M A) (k : A -> M B) : M B :=
  fun g =>
    match m g with
    | (inl a, g') => k a g'
    | (inr e, g') => (inr e, g')
    end.

(** [try { m } catch (error) { handler }] *)
Definition try_catch {A} (m : M A) (handler : Error -> M A) : M A :=
  fun g =>
    match m g with
    | (inl a, g') => (inl a, g')
    | (inr e, g') => handler e g'
    end.

Declare Scope github_scope.
Delimit Scope github_scope with github.
Notation "'do!' x ':=' m 'in' k" := (bind m (fun x => k))
  (at level 10, x name, m at level 100, k at level 200) : github_scope.
Open Scope github_scope.

(** The code only adds requests to the log. *)
Definition grows {A} (m : M A) : Prop :=
  forall g, exists more, log (snd (m g)) = log g ++ more.


Module Octokit.

(** A request is logged, then failed by the fault script or served. *)
Definition request {A} (r : Request) (serve : GitHub -> Result A * GitHub)
    : M A :=
  fun g =>
    let logged fs :=
      mkGitHub (accessible g) (refs g) (trees g) (commits g) (contents g)
        (created g) fs (log g ++ [r]) in
    match faults g with
    | Some status :: rest => (Throw (RequestError status), logged rest)
    | None :: rest => serve (logged rest)
    | [] => serve (logged [])
    end.

(** [git.getRef]: the sha in [data.object.sha] *)
Definition getRef (ref : string) : M string :=
  request (GetRef ref) (fun g =>
    match refs g !! ref with
    | Some sha => (Ok sha, g)
    | None => (Throw (RequestError 404), g)
    end).

(** [git.createTree]: the sha in [data.sha] *)
Definition createTree (tree : list TreeEntry.t) (base_tree : string)
    : M string :=
  request (CreateTree tree base_tree) (fun g =>
    let sha := object_name (created g) in
    (Ok sha,
     mkGitHub (accessible g) (refs g) (<[sha := (tree, base_tree)]> (trees g))
       (commits g) (contents g) (S (created g)) (faults g) (log g))).

(** [git.createCommit]: the sha in [data.sha] *)
Definition createCommit (message tree : string) (parents : list string)
    : M string :=
  request (CreateCommit message tree parents) (fun g =>
    let sha := object_name (created g) in
    (Ok sha,
     mkGitHub (accessible g) (refs g) (trees g)
       (<[sha := Commit.Build_t message tree parents]> (commits g))
       (contents g) (S (created g)) (faults g) (log g))).

(** [git.updateRef]; what the contents interface serves on the branch
    afterwards is not modelled. *)
Definition updateRef (ref sha : string) : M unit :=
  request (UpdateRef ref sha) (fun g =>
    match refs g !! ref with
    | Some _ =>
        (Ok tt,
         mkGitHub (accessible g) (<[ref := sha]> (refs g)) (trees g)
           (commits g) (contents g) (created g) (faults g) (log g))
    | None => (Throw (RequestError 422), g)
    end).

(** [repos.getContent] *)
Definition getContent (path ref : string) : M Entry :=
  request (GetContent path ref) (fun g =>
    match contents g !! (ref, path) with
    | Some e => (Ok e, g)
    | None => (Throw (RequestError 404), g)
    end).

(** [repos.createOrUpdateFileContents]: a file that exists is replaced
    only when the request names its current blob sha. The commit that the
    service makes on the branch for the write is not modelled. *)
Definition createOrUpdateFileContents (path message content : string)
    (sha : option string) (branch : string) : M unit :=
  request (CreateOrUpdateFileContents path message content sha branch)
    (fun g =>
      let written :=
        mkGitHub (accessible g) (refs g) (trees g) (commits g)
          (<[(branch, path) := File content (object_name (created g))]>
             (contents g))
          (S (created g)) (faults g) (log g) in
      match contents g !! (branch, path) with
      | None => (Ok tt, written)
      | Some Dir => (Throw (RequestError 422), g)
      | Some (File _ current) =>
          match sha with
          | None => (Throw (RequestError 422), g)
          | Some given =>
              if String.eqb given current then (Ok tt, written)
              else (Throw (RequestError 409), g)
          end
      end).

(** [repos.get] *)
Definition get : M unit :=
  request ReposGet (fun g =>
    if accessible g then (Ok tt, g) else (Throw (RequestError 404), g)).

End Octokit.

(** ** [GitHubService] ([githubService.ts]) *)

Section GitHubService.
Context `{Runtime}.
Variable config : ConversionConfig.

Definition createTree (files : list GitHubFile) (baseTreeSha : string)
    : M string :=
  let tree :=
    map (fun file =>
           TreeEntry.Build_t (GitHubFile.path file) "100644" "blob"
             (GitHubFile.content file))
        files in
  Octokit.createTree tree baseTreeSha.

Definition pushFiles (files : list GitHubFile) : M unit :=
  try_catch
    (do! baseTreeSha := Octokit.getRef ("heads/" +:+ githubBranch config) in
     do! tree := createTree files baseTreeSha in
     do! commit :=
       Octokit.createCommit
         ("Update MDX files from Notion - " +:+ toISOString Date_now)
         tree [baseTreeSha] in
     do! _ := Octokit.updateRef ("heads/" +:+ githubBranch config) commit in
     ret tt)
    (fun error => throw (PlainError "Failed to push files to GitHub")).

Definition checkFileExists (filePath : string) : M bool :=
  try_catch
    (do! _ := Octokit.getContent filePath (githubBranch config) in
     ret true)
    (fun error =>
       if status_is error 404 then ret false
       else throw error).

(** The result is the decoded text, or [None] for [null]. *)
Definition getFileContent (filePath : string) : M (option string) :=
  try_catch
    (do! data := Octokit.getContent filePath (githubBranch config) in
     match data with
     | File text _ => ret (Some text)
     | Dir => ret None
     end)
    (fun error =>
       if status_is error 404 then ret None
       else throw error).

Definition getFileSha (filePath : string) : M string :=
  do! data := Octokit.getContent filePath (githubBranch config) in
  match data with
  | File _ sha => ret sha
  | Dir => throw (PlainError "Could not get file SHA")
  end.

Definition createOrUpdateFile (filePath content message : string) : M unit :=
  try_catch
    (do! existingFile := getFileContent filePath in
     if match existingFile with Some text => Js.truthy text | None => false end
     then
       do! sha := getFileSha filePath in
       Octokit.createOrUpdateFileContents filePath message content
         (Some sha) (githubBranch config)
     else
       Octokit.createOrUpdateFileContents filePath message content
         None (githubBranch config))
    (fun error =>
       throw (PlainError ("Failed to create/update file: " +:+ filePath))).

Definition validateRepository : M bool :=
  try_catch (do! _ := Octokit.get in ret true) (fun error => ret false).

End GitHubService.

(** ** [NotionService]: fetching ([notionService.ts]) *)

(** A result of [databases.query]; a partial page object has no
    [properties]. *)
Record QueryResult := {
  page_id : string;
  page_properties : option Properties;
  last_edited_time : option string;
  page_url : option string
}.

(** The content source: a missing key is a request that fails. *)
Record Notion := {
  databases : gmap string (list QueryResult);
  children : gmap string (list Block)
}.

Section NotionService.
Context `{Runtime}.
Variable notion : Notion.

Fixpoint extractTitle (properties : Properties) : string :=
  match properties with
  | [] => "Untitled"
  | (_, v) :: rest =>
      match Property.type v, Property.title v with
      | Some ty, Some (first :: _) =>
          if String.eqb ty "title" then plain_text first
          else extractTitle rest
      | _, _ => extractTitle rest
      end
  end.

Definition getPageContent (pageId : string) : string :=
  match children notion !! pageId with
  | Some blocks =>
      match convertBlocksToMarkdown blocks with
      | inl markdown => markdown
      | inr _ => ""
      end
  | None => ""
  end.

(** The loop of [getPagesFromDatabase] over [response.results]. *)
Fixpoint collectPages (results : list QueryResult) : list NotionPage :=
  match results with
  | [] => []
  | page :: rest =>
      match page_properties page with
      | Some properties =>
          let pageContent := getPageContent (page_id page) in
          let title := extractTitle properties in
          NotionPage.Build_t (page_id page) title pageContent properties
            (match last_edited_time page with
             | Some s => if Js.truthy s then s else toISOString Date_now
             | None => toISOString Date_now
             end)
            (Js.or_default (page_url page) "")
          :: collectPages rest
      | None => collectPages rest
      end
  end.

Definition getPagesFromDatabase (databaseId : string)
    : Result (list NotionPage) :=
  match databases notion !! databaseId with
  | Some results => Ok (collectPages results)
  | None => Throw (PlainError "Failed to fetch pages from Notion")
  end.

End NotionService.

(** ** [NotionToGitHubConverter] ([converter.ts]) *)

Record ConversionResult := {
  success : bool;
  message : string;
  filesProcessed : option nat;
  errors : option (list string)
}.

(** [/[^a-z0-9\s-]/] matches what this class does not keep. *)
Definition slug_keep (c : ascii) : bool :=
  Js.is_lower c || Js.is_digit c || Js.is_space c || Js.is_hyphen c.

(** [[a-z0-9-]] *)
Definition slug_unit (c : ascii) : bool :=
  Js.is_lower c || Js.is_digit c || Js.is_hyphen c.

Definition generateFileName (title : string) : string :=
  Js.trim
    (Js.replace_runs Js.is_hyphen "-" false
       (Js.replace_runs Js.is_space "-" false
          (Js.filter_units slug_keep
             (Js.toLowerCase title)))).

(** The chain of [generateFileName] before its [trim]. *)
Definition hyphenated (title : string) : string :=
  Js.replace_runs Js.is_hyphen "-" false
    (Js.replace_runs Js.is_space "-" false
       (Js.filter_units slug_keep (Js.toLowerCase title))).

(** The derivation in the words of the specification: the same chain,
    then leading and trailing hyphens trimmed. *)
Definition spec_fileName (title : string) : string :=
  Js.drop_trailing Js.is_hyphen
    (Js.drop_leading Js.is_hyphen (hyphenated title)).



Section Converter.
Context `{Runtime}.
Variable notion : Notion.
Variable config : ConversionConfig.

Definition filePathOf (title : string) : string :=
  outputPath config +:+ "/" +:+ generateFileName title +:+ ".mdx".

(** The [for] loop of [convertAndPush]: [files] and [errors] as they are
    when the loop ends, entered with the given ones. *)
Fixpoint convertPages (pages : list NotionPage) (files : list GitHubFile)
    (errors : list string) : list GitHubFile * list string :=
  match pages with
  | [] => (files, errors)
  | page :: rest =>
      match convertToMDX page None with
      | inl mdxContent =>
          let filePath := filePathOf (NotionPage.title page) in
          convertPages rest
            (files ++
             [GitHubFile.Build_t filePath mdxContent
                ("Update " +:+ NotionPage.title page +:+ " from Notion")])
            errors
      | inr error =>
          let errorMsg :=
            "Failed to convert page " +:+ Js.quote +:+ NotionPage.title page
              +:+ Js.quote +:+ ": " +:+ error_toString error in
          convertPages rest files (errors ++ [errorMsg])
      end
  end.

(** The timestamp of the page is one [Date] can read. *)
Definition datable (page : NotionPage) : bool :=
  match Date_parse (NotionPage.lastEditedTime page) with
  | Some _ => true
  | None => false
  end.

(** The file the loop pushes for a page that [convertToMDX] accepts. *)
Definition fileOf (page : NotionPage) : GitHubFile :=
  GitHubFile.Build_t (filePathOf (NotionPage.title page))
    (match convertToMDX page None with inl mdx => mdx | inr _ => "" end)
    ("Update " +:+ NotionPage.title page +:+ " from Notion").

Definition convertAndPush : M ConversionResult :=
  try_catch
    (do! isValidRepo := validateRepository in
     if negb isValidRepo then
       ret {| success := false;
              message := "Invalid GitHub repository configuration";
              filesProcessed := None;
              errors := Some ["Repository not found or access denied"] |}
     else
       do! pages :=
         lift (getPagesFromDatabase notion (notionDatabaseId config)) in
       if length pages =? 0 then
         ret {| success := false;
                message := "No pages found in the specified Notion database";
                filesProcessed := None;
                errors := Some ["Database is empty or access denied"] |}
       else
         let '(files, errors) := convertPages pages [] [] in
         if length files =? 0 then
           ret {| success := false;
                  message := "No files were successfully converted";
                  filesProcessed := None;
                  errors := Some errors |}
         else
           do! _ := pushFiles config files in
           ret {| success := true;
                  message :=
                    "Successfully converted and pushed "
                      +:+ Js.of_nat (length files) +:+ " pages to GitHub";
                  filesProcessed := Some (length files);
                  errors :=
                    if 0 <? length errors then Some errors else None |})
    (fun error =>
       ret {| success := false;
              message := "Conversion process failed";
              filesProcessed := None;
              errors := Some [err_message error] |}).

Definition convertSinglePage (pageId : string) : M ConversionResult :=
  try_catch
    (do! pages :=
       lift (getPagesFromDatabase notion (notionDatabaseId config)) in
     match
       find (fun page => String.eqb (NotionPage.id page) pageId) pages
     with
     | None =>
         ret {| success := false;
                message := "Page not found";
                filesProcessed := None;
                errors :=
                  Some ["Page with ID " +:+ pageId
                          +:+ " not found in database"] |}
     | Some targetPage =>
         do! mdxContent := lift (convertToMDX targetPage None) in
         let filePath := filePathOf (NotionPage.title targetPage) in
         do! _ :=
           createOrUpdateFile config filePath mdxContent
             ("Update " +:+ NotionPage.title targetPage +:+ " from Notion") in
         ret {| success := true;
                message :=
                  "Successfully converted and pushed " +:+ Js.quote
                    +:+ NotionPage.title targetPage +:+ Js.quote
                    +:+ " to GitHub";
                filesProcessed := Some 1;
                errors := None |}
     end)
    (fun error =>
       ret {| success := false;
              message := "Single page conversion failed";
              filesProcessed := None;
              errors := Some [err_message error] |}).

End Converter.

(** ** A sample runtime and sample worlds *)

Module Sample.

Definition digit_value (c : ascii) : option nat :=
  if Js.is_digit c then Some (Js.code c - 48) else None.

Definition two (a b : ascii) : option nat :=
  match digit_value a, digit_value b with
  | Some x, Some y => Some (10 * x + y)
  | _, _ => None
  end.

(** Reads UTC timestamps written [YYYY-MM-DDThh:mm:ss...]. *)
Definition parse_utc (s : string) : option Instant :=
  match s with
  | String y1 (String y2 (String y3 (String y4 (String "-"
      (String m1 (String m2 (String "-" (String d1 (String d2 (String "T"
        (String h1 (String h2 (String ":" (String i1 (String i2 (String ":"
          (String s1 (String s2 _)))))))))))))))))) =>
      match two y1 y2, two y3 y4, two m1 m2, two d1 d2,
            two h1 h2, two i1 i2, two s1 s2 with
      | Some yh, Some yl, Some mo, Some d, Some h, Some mi, Some se =>
          Some {| year := Z.of_nat (100 * yh + yl); month := mo; day := d;
                  hours := h; minutes := mi; seconds := se;
                  milliseconds := 0 |}
      | _, _, _, _, _, _, _ => None
      end
  | _ => None
  end.

(** A self-delimiting code for strings: every character after a [1], the
    end marked by a [0]. *)
Fixpoint enc (s : string) : string :=
  match s with
  | EmptyString => "0"
  | String c r => String "1" (String c (enc r))
  end.


Definition json_text (v : Json) : string :=
  match v with JStr s => s | _ => EmptyString end.

Fixpoint enc_fields (data : Object) : string :=
  match data with
  | [] => "0"
  | (k, v) :: r => String "1" (enc k +:+ enc (json_text v) +:+ enc_fields r)
  end.


(** A header between two [---] lines, then the content. *)
Definition stringify (content : string) (data : Object) : string :=
  "---" +:+ String Js.LF (enc_fields data) +:+ String Js.LF "---"
    +:+ String Js.LF content.


Definition runtime : Runtime := {|
  Date_parse := parse_utc;
  Date_now :=
    {| year := 2024; month := 3; day := 6; hours := 8; minutes := 30;
       seconds := 0; milliseconds := 0 |};
  matter_stringify := stringify
|}.

Definition config : ConversionConfig := {|
  notionDatabaseId := "db";
  githubRepoOwner := "owner";
  githubRepoName := "site";
  githubBranch := "main";
  outputPath := "content/posts"
|}.

Definition plain (t : string) : RichText := {|
  plain_text := t;
  annotations :=
    {| bold := false; italic := false; strikethrough := false;
       code := false |};
  href := None
|}.

Definition text_payload (spans : list RichText) : Payload := {|
  rich_text := Some spans;
  language := None;
  caption := None;
  image_type := None;
  external := None;
  file := None
|}.

Definition paragraph (t : string) : Block :=
  {| type := "paragraph"; payload := Some (text_payload [plain t]) |}.

Definition divider : Block := {| type := "divider"; payload := None |}.

(** A paragraph block without its [paragraph] property. *)
Definition hollow_paragraph : Block :=
  {| type := "paragraph"; payload := None |}.

Definition titled (t : string) : Properties :=
  [("Name", Property.Build_t (Some "title") (Some [plain t]))].

Definition listed (id title : string) : QueryResult := {|
  page_id := id;
  page_properties := Some (titled title);
  last_edited_time := Some "2024-03-05T10:00:00Z";
  page_url := Some ("https://notion.example/" +:+ id)
|}.

(** Three pages; the blocks of [p2] cannot be fetched. *)
Definition notion : Notion := {|
  databases :=
    {[ "db" := [listed "p1" "First"; listed "p2" "Second";
                listed "p3" "Third"] ]};
  children :=
    {[ "p1" := [paragraph "one"]; "p3" := [paragraph "three"] ]}
|}.

(** A repository whose branch [main] is at [c0]; it holds an empty file. *)
Definition github : GitHub := {|
  accessible := true;
  refs := {[ "heads/main" := "c0" ]};
  trees := ∅;
  commits := ∅;
  contents := {[ ("main", "content/posts/empty.mdx") := File "" "b0";
                 ("main", "content/posts/old.mdx") := File "old" "b1" ]};
  created := 0;
  faults := [];
  log := []
|}.

End Sample.

(** ** The rest of the converter ([converter.ts]) *)

Module Validation.
Record t := { isValid : bool; errors : list string }.
End Validation.

(** [errors.push(m)] when the field is falsy. *)
Definition required (field message : string) (errors : list string)
    : list string :=
  if negb (Js.truthy field) then errors ++ [message] else errors.

Definition validateConfiguration (config : ConversionConfig) : Validation.t :=
  let errors := [] in
  let errors :=
    required (notionDatabaseId config) "Notion database ID is required"
      errors in
  let errors :=
    required (githubRepoOwner config) "GitHub repository owner is required"
      errors in
  let errors :=
    required (githubRepoName config) "GitHub repository name is required"
      errors in
  let errors :=
    required (githubBranch config) "GitHub branch is required" errors in
  let errors :=
    required (outputPath config) "Output path is required" errors in
  {| Validation.isValid := length errors =? 0; Validation.errors := errors |}.

(** The entry the loop of [convertAndPush] pushes on [errors] for a page
    whose timestamp [Date] cannot read. *)
Definition conversionError (page : NotionPage) : string :=
  "Failed to convert page " +:+ Js.quote +:+ NotionPage.title page
    +:+ Js.quote +:+ ": " +:+ error_toString (RangeError "Invalid time value").

(** The title a property gives, if it is a title property with a run. *)
Definition titled_by (v : Property.t) : option string :=
  match Property.type v, Property.title v with
  | Some ty, Some (first :: _) =>
      if String.eqb ty "title" then Some (plain_text first) else None
  | _, _ => None
  end.

(** The character does not survive the first two steps of
    [generateFileName]. *)
Definition stripped (c : ascii) : bool := negb (slug_keep (Js.lower_unit c)).

(** ** Reading the hosting-service model *)

(** The status with which the next request fails, if it does. *)
Definition fault_of (g : GitHub) : option nat :=
  match faults g with
  | Some status :: _ => Some status
  | _ => None
  end.

(** The service after it has received [r] and done nothing else. *)
Definition received (r : Request) (g : GitHub) : GitHub :=
  mkGitHub (accessible g) (refs g) (trees g) (commits g) (contents g)
    (created g) (tail (faults g)) (log g ++ [r]).

(** Whether [repos.get] will answer that the repository is there. *)
Definition repo_reachable (g : GitHub) : bool :=
  match fault_of g with
  | Some _ => false
  | None => accessible g
  end.

(** Whether the fault script fails the [k]-th request to come, counted
    from zero. *)
Definition fails_at (g : GitHub) (k : nat) : bool :=
  match faults g !! k with
  | Some (Some _) => true
  | _ => false
  end.

(** The names the service has yet to hand out are in use nowhere: no tree
    and no commit goes by one of them, and no ref points to one. *)
Definition pristine (g : GitHub) : Prop :=
  forall n,
    created g <= n ->
    trees g !! object_name n = None /\
    commits g !! object_name n = None /\
    forall ref, refs g !! ref <> Some (object_name n).

(** A request to the contents interface. *)
Definition contents_request (r : Request) : bool :=
  match r with
  | GetContent _ _ => true
  | CreateOrUpdateFileContents _ _ _ _ _ => true
  | _ => false
  end.

(** The code returns, it does not throw. *)
Definition returns {A} (m : M A) : Prop :=
  forall g, exists a, fst (m g) = Ok a.

(** Whenever the code returns, what it returns satisfies [Q]. *)
Definition ensures {A} (Q : A -> Prop) (m : M A) : Prop :=
  forall g a g', m g = (Ok a, g') -> Q a.

(** A single-page result reports success with the count one, or failure
    with no count and exactly one error. *)
Definition single_shaped (r : ConversionResult) : Prop :=
  (success r = true /\ filesProcessed r = Some 1 /\ errors r = None) \/
  (success r = false /\ filesProcessed r = None /\
   exists e, errors r = Some [e]).

(** A result reports success with a count of at least one, or failure
    with no count and at least one error. *)
Definition well_shaped (r : ConversionResult) : Prop :=
  (success r = true /\ exists n, filesProcessed r = Some n /\ 0 < n) \/
  (success r = false /\ filesProcessed r = None /\
   exists e es, errors r = Some (e :: es)).

Section Reading.
Context `{Runtime}.
Variable notion : Notion.
Variable config : ConversionConfig.

(** The pages of the database that [convertToMDX] accepts; none when the
    query fails. *)
Definition convertible : list NotionPage :=
  match getPagesFromDatabase notion (notionDatabaseId config) with
  | inl pages => List.filter datable pages
  | inr _ => []
  end.

(** The pages of the database that [convertToMDX] refuses. *)
Definition inconvertible : list NotionPage :=
  match getPagesFromDatabase notion (notionDatabaseId config) with
  | inl pages => List.filter (fun page => negb (datable page)) pages
  | inr _ => []
  end.

(** The page a single-page sync works on; none when the query fails or
    no page has the id. *)
Definition targetOf (pageId : string) : option NotionPage :=
  match getPagesFromDatabase notion (notionDatabaseId config) with
  | inl pages =>
      find (fun page => String.eqb (NotionPage.id page) pageId) pages
  | inr _ => None
  end.

End Reading.

(** ** The webhook route of the server ([index.ts]) *)

Record Env := {
  NOTION_API_KEY : option string;
  GITHUB_TOKEN : option string;
  GITHUB_REPO_OWNER : option string;
  GITHUB_REPO_NAME : option string;
  GITHUB_BRANCH : option string;
  OUTPUT_PATH : option string;
  WEBHOOK_SECRET : option string
}.

Module Response.
Record t := { status : nat; body : ConversionResult }.
End Response.

(** The configuration of [buildConverterFromEnv]. *)
Definition buildConverterFromEnv (env : Env) : ConversionConfig := {|
  notionDatabaseId := "";
  githubRepoOwner := Js.or_default (GITHUB_REPO_OWNER env) "";
  githubRepoName := Js.or_default (GITHUB_REPO_NAME env) "";
  githubBranch := Js.or_default (GITHUB_BRANCH env) "main";
  outputPath := Js.or_default (OUTPUT_PATH env) "content/posts"
|}.

(** Truthiness of a JSON value. *)
Definition json_truthy (v : Json) : bool :=
  match v with
  | JNull => false
  | JBool b => b
  | JNum z => negb (z =? 0)%Z
  | JStr s => Js.truthy s
  | JArr _ => true
  | JObj _ => true
  end.

(** [v?.k] for the keys the route reads: a member of an object, and
    [undefined] on anything else. *)
Definition member (v : option Json) (k : string) : option Json :=
  match v with
  | Some (JObj fields) => obj_get k fields
  | _ => None
  end.

(** A value that is a non-empty string. *)
Definition truthy_string (v : option Json) : option string :=
  match v with
  | Some (JStr s) => if Js.truthy s then Some s else None
  | _ => None
  end.

(** The page id the route finds in the payload, before it is tested. *)
Definition webhookPageId (body : Json) : option string :=
  match member (Some body) "pageId" with
  | Some (JStr s) => Some s
  | _ =>
      match
        truthy_string
          (member (member (member (Some body) "event") "target") "id")
      with
      | Some s => Some s
      | None =>
          match member (Some body) "events" with
          | Some (JArr (first :: _)) =>
              truthy_string (member (member (Some first) "data") "id")
          | _ => None
          end
      end
  end.

Section Server.
Context `{Runtime}.
Variable notion : Notion.
Variable env : Env.

(** The handler of [POST /api/webhooks/notion], given the header
    [X-Webhook-Secret] and the parsed body. *)
Definition notionWebhook (header : option string) (reqBody : option Json)
    : M Response.t :=
  try_catch
    (let providedSecret := Js.or_default header "" in
     let expectedSecret := Js.or_default (WEBHOOK_SECRET env) "" in
     if negb (Js.truthy expectedSecret)
        || negb (String.eqb providedSecret expectedSecret)
     then
       ret {| Response.status := 401;
              Response.body :=
                {| success := false; message := "Unauthorized";
                   filesProcessed := None; errors := None |} |}
     else
       let config := buildConverterFromEnv env in
       let body :=
         match reqBody with
         | Some v => if json_truthy v then v else JObj []
         | None => JObj []
         end in
       let pageId := webhookPageId body in
       if match pageId with Some id => Js.truthy id | None => false end
       then
         do! result :=
           convertSinglePage notion config
             (match pageId with Some id => id | None => "" end) in
         let statusCode := if success result then 200 else 500 in
         ret {| Response.status := statusCode; Response.body := result |}
       else
         do! fullResult := convertAndPush notion config in
         let statusCode := if success fullResult then 200 else 500 in
         ret {| Response.status := statusCode; Response.body := fullResult |})
    (fun error =>
       ret {| Response.status := 500;
              Response.body :=
                {| success := false; message := "Webhook handling failed";
                   filesProcessed := None;
                   errors := Some [err_message error] |} |}).

End Server.

(** ** The renderer on blocks as they arrive ([notionService.ts])

    The renderer takes its blocks as [any]: whatever the content source
    answered, parsed from JSON. Here it is modelled on every such value. A
    number [JNum z] is an integer that JavaScript prints in full. *)

Module Any.

(** A value that may be [undefined]. *)
Definition Value : Type := option Json.

Definition truthy (v : Value) : bool :=
  match v with
  | Some j => json_truthy j
  | None => false
  end.

Definition number_toString (z : Z) : string :=
  if (z <? 0)%Z then "-" +:+ Js.of_nat (Z.to_nat (- z))
  else Js.of_nat (Z.to_nat z).

(** [String(v)], as a template literal applies it. An array joins its
    elements with commas, [null] counting as the empty text; an object
    prints as [[object Object]], unless a key [toString] of its own, which
    is no function, stands in the way. *)
Fixpoint toString (v : Json) : Result string :=
  match v with
  | JNull => Ok "null"
  | JBool b => Ok (if b then "true" else "false")
  | JNum z => Ok (number_toString z)
  | JStr s => Ok s
  | JArr l =>
      let fix elements (l : list Json) : Result (list string) :=
        match l with
        | [] => Ok []
        | x :: rest =>
            let! s := match x with JNull => Ok "" | _ => toString x end in
            let! more := elements rest in
            Ok (s :: more)
        end in
      let! parts := elements l in
      Ok (String.concat "," parts)
  | JObj fields =>
      match obj_get "toString" fields with
      | Some _ => Throw (TypeError "Cannot convert object to primitive value")
      | None => Ok "[object Object]"
      end
  end.

(** [`${v}`] *)
Definition interpolate (v : Value) : Result string :=
  match v with
  | Some j => toString j
  | None => Ok "undefined"
  end.

(** [v.k], for the keys the renderer names, none of which a prototype
    defines but [bold] on a string and [map] on an array, which are read
    by [test] and by [renderRichText]: the property of an object, and
    [undefined] on any other value but [null] and [undefined], on which
    the read raises. *)
Definition get (v : Value) (k : string) : Result Value :=
  match v with
  | None =>
      Throw (TypeError
        ("Cannot read properties of undefined (reading '" +:+ k +:+ "')"))
  | Some JNull =>
      Throw (TypeError
        ("Cannot read properties of null (reading '" +:+ k +:+ "')"))
  | Some (JObj fields) => Ok (obj_get k fields)
  | Some _ => Ok None
  end.

(** [if (v.k)]: a string has a method [bold], which is truthy. *)
Definition test (v : Value) (k : string) : Result bool :=
  match v with
  | Some (JStr _) => Ok (String.eqb k "bold")
  | _ => let! x := get v k in Ok (truthy x)
  end.

(** [v === s] *)
Definition is_string (v : Value) (s : string) : bool :=
  match v with
  | Some (JStr t) => String.eqb t s
  | _ => false
  end.

(** [if (on) content = `${l}${content}${r}`] *)
Definition wrap (on : bool) (l r : string) (content : Value) : Result Value :=
  if on then
    let! s := interpolate content in
    Ok (Some (JStr (l +:+ s +:+ r)))
  else Ok content.

(** The callback of [richText.map]. *)
Definition renderSpan (text : Json) : Result Value :=
  let! content := get (Some text) "plain_text" in
  let! annotations := get (Some text) "annotations" in
  let! bold := test annotations "bold" in
  let! content := wrap bold "**" "**" content in
  let! italic := test annotations "italic" in
  let! content := wrap italic "*" "*" content in
  let! strikethrough := test annotations "strikethrough" in
  let! content := wrap strikethrough "~~" "~~" content in
  let! code := test annotations "code" in
  let! content := wrap code "`" "`" content in
  let! href := get (Some text) "href" in
  if truthy href then
    let! s := interpolate content in
    let! h := interpolate href in
    Ok (Some (JStr ("[" +:+ s +:+ "](" +:+ h +:+ ")")))
  else Ok content.

(** [array.map(f)], where [f] may raise. *)
Fixpoint traverse {A B} (f : A -> Result B) (l : list A) : Result (list B) :=
  match l with
  | [] => Ok []
  | x :: rest =>
      let! y := f x in
      let! more := traverse f rest in
      Ok (y :: more)
  end.

(** [array.join('')]: [undefined] and [null] count as the empty text. *)
Fixpoint join (parts : list Value) : Result string :=
  match parts with
  | [] => Ok ""
  | part :: rest =>
      let! s :=
        match part with
        | None => Ok ""
        | Some JNull => Ok ""
        | Some j => toString j
        end in
      let! more := join rest in
      Ok (s +:+ more)
  end.

(** Only an array has the method [map]. *)
Definition renderRichText (richText : Value) : Result string :=
  match richText with
  | Some (JArr spans) =>
      let! parts := traverse renderSpan spans in
      join parts
  | None =>
      Throw (TypeError "Cannot read properties of undefined (reading 'map')")
  | Some JNull =>
      Throw (TypeError "Cannot read properties of null (reading 'map')")
  | Some _ => Throw (TypeError "richText.map is not a function")
  end.

Definition renderParagraph (paragraph : Value) : Result string :=
  let! richText := get paragraph "rich_text" in
  renderRichText richText.

Definition renderHeading (heading : Value) (level : nat) : Result string :=
  let prefix := Js.repeat "#" level in
  let! richText := get heading "rich_text" in
  let! spans := renderRichText richText in
  Ok (prefix +:+ " " +:+ spans).

Definition renderBulletedListItem (item : Value) : Result string :=
  let! richText := get item "rich_text" in
  let! spans := renderRichText richText in
  Ok ("- " +:+ spans).

Definition renderNumberedListItem (item : Value) : Result string :=
  let! richText := get item "rich_text" in
  let! spans := renderRichText richText in
  Ok ("1. " +:+ spans).

Definition renderCode (code : Value) : Result string :=
  let! given := get code "language" in
  let language := if truthy given then given else Some (JStr "") in
  let! richText := get code "rich_text" in
  let! content := renderRichText richText in
  let! l := interpolate language in
  Ok ("```" +:+ l +:+ String Js.LF content +:+ String Js.LF "```").

Definition renderQuote (quote : Value) : Result string :=
  let! richText := get quote "rich_text" in
  let! content := renderRichText richText in
  Ok ("> " +:+ content).

Definition renderImage (image : Value) : Result string :=
  let! given := get image "caption" in
  let! caption := if truthy given then renderRichText given else Ok "" in
  let! type := get image "type" in
  let! url :=
    if is_string type "external"
    then (let! external := get image "external" in get external "url")
    else (let! file := get image "file" in get file "url") in
  let! u := interpolate url in
  Ok ("![" +:+ caption +:+ "](" +:+ u +:+ ")").

(** The value of [content] when the [switch] is left. In the [default]
    case the key [type] is turned into a string; a member that the block
    inherits has no [rich_text], as a missing one. *)
Definition blockContent (block : Json) : Result string :=
  let! type := get (Some block) "type" in
  let case := is_string type in
  if case "paragraph" then
    let! x := get (Some block) "paragraph" in renderParagraph x
  else if case "heading_1" then
    let! x := get (Some block) "heading_1" in renderHeading x 1
  else if case "heading_2" then
    let! x := get (Some block) "heading_2" in renderHeading x 2
  else if case "heading_3" then
    let! x := get (Some block) "heading_3" in renderHeading x 3
  else if case "bulleted_list_item" then
    let! x := get (Some block) "bulleted_list_item" in
    renderBulletedListItem x
  else if case "numbered_list_item" then
    let! x := get (Some block) "numbered_list_item" in
    renderNumberedListItem x
  else if case "code" then
    let! x := get (Some block) "code" in renderCode x
  else if case "quote" then
    let! x := get (Some block) "quote" in renderQuote x
  else if case "image" then
    let! x := get (Some block) "image" in renderImage x
  else if case "divider" then Ok (String Js.LF "---" +:+ Js.blank)
  else
    let! key := interpolate type in
    let! x := get (Some block) key in
    let! given :=
      match x with
      | None => Ok None
      | Some JNull => Ok None
      | Some _ => get x "rich_text"
      end in
    renderRichText (if truthy given then given else Some (JArr [])).

(** The [default] case on what an unrecognized block has under its type. *)
Definition fallback (x : Value) : Result string :=
  let! given :=
    match x with
    | None => Ok None
    | Some JNull => Ok None
    | Some _ => get x "rich_text"
    end in
  renderRichText (if truthy given then given else Some (JArr [])).

Definition convertBlockToMarkdown (block : Json) : Result string :=
  let! content := blockContent block in
  Ok (content +:+ Js.blank).

Fixpoint convertBlocksFrom (markdown : string) (blocks : list Json)
    : Result string :=
  match blocks with
  | [] => Ok markdown
  | block :: rest =>
      let! s := convertBlockToMarkdown block in
      convertBlocksFrom (markdown +:+ s) rest
  end.

Definition convertBlocksToMarkdown (blocks : list Json) : Result string :=
  convertBlocksFrom "" blocks.

(** *** Blocks that carry what their renderer reads *)

(** A span: an object with a string [plain_text], an [annotations] object
    and an [href] that is absent, [null] or a string. *)
Definition span_ok (text : Json) : bool :=
  match text with
  | JObj fields =>
      match obj_get "plain_text" fields, obj_get "annotations" fields with
      | Some (JStr _), Some (JObj _) =>
          match obj_get "href" fields with
          | None => true
          | Some JNull => true
          | Some (JStr _) => true
          | Some _ => false
          end
      | _, _ => false
      end
  | _ => false
  end.

(** An array of spans. *)
Definition spans_ok (v : Value) : bool :=
  match v with
  | Some (JArr spans) => forallb span_ok spans
  | _ => false
  end.

(** A text that is absent, [null] or a string. *)
Definition text_ok (v : Value) : bool :=
  match v with
  | None => true
  | Some JNull => true
  | Some (JStr _) => true
  | Some _ => false
  end.

(** The payload of an image: a caption that is falsy or an array of spans,
    and the source object its [type] names, with a [url] that is a text. *)
Definition image_ok (image : Value) : bool :=
  match image with
  | Some (JObj fields) =>
      (negb (truthy (obj_get "caption" fields))
       || spans_ok (obj_get "caption" fields))
      && match
           if is_string (obj_get "type" fields) "external"
           then obj_get "external" fields
           else obj_get "file" fields
         with
         | Some (JObj source) => text_ok (obj_get "url" source)
         | _ => false
         end
  | _ => false
  end.

(** The payload of a block that renders its [rich_text]. *)
Definition payload_ok (payload : Value) : bool :=
  match payload with
  | Some (JObj fields) => spans_ok (obj_get "rich_text" fields)
  | _ => false
  end.

(** The payload of a code block has a [language] as well, a text. *)
Definition code_ok (code : Value) : bool :=
  match code with
  | Some (JObj fields) =>
      spans_ok (obj_get "rich_text" fields)
      && text_ok (obj_get "language" fields)
  | _ => false
  end.

(** What a block of an unrecognized type has under its type: a rich-text
    list that is an array of spans, or none at all. *)
Definition fallback_ok (x : Value) : bool :=
  match x with
  | Some (JObj fields) =>
      negb (truthy (obj_get "rich_text" fields))
      || spans_ok (obj_get "rich_text" fields)
  | _ => true
  end.

(** A span whose [annotations] cannot be read. *)
Definition lacks_annotations (text : Json) : bool :=
  match text with
  | JObj fields =>
      match obj_get "annotations" fields with
      | None => true
      | Some JNull => true
      | Some _ => false
      end
  | _ => true
  end.

(** A block is an object whose [type] is a string; a divider needs nothing
    more, an image its source object, every other recognized block its
    payload, an unrecognized block a rich-text array or none. A span that
    has no [annotations], or a rich-text list that is no array, is
    nowhere allowed. *)
Definition well_formed (block : Json) : bool :=
  match block with
  | JObj fields =>
      match obj_get "type" fields with
      | Some (JStr t) =>
          if String.eqb t "divider" then true
          else if String.eqb t "image" then image_ok (obj_get t fields)
          else if String.eqb t "code" then code_ok (obj_get t fields)
          else if recognized t then payload_ok (obj_get t fields)
          else fallback_ok (obj_get t fields)
      | _ => false
      end
  | _ => false
  end.

(** The parts of well-formed spans are texts. *)
Definition texts (parts : list Value) : Prop :=
  Forall (fun part => exists s, part = Some (JStr s)) parts.

(** *** Typed blocks as JSON *)

Definition span_json (text : RichText) : Json :=
  JObj
    [("plain_text", JStr (plain_text text));
     ("annotations",
      JObj [("bold", JBool (bold (annotations text)));
            ("italic", JBool (italic (annotations text)));
            ("strikethrough", JBool (strikethrough (annotations text)));
            ("code", JBool (code (annotations text)))]);
     ("href", match href text with Some h => JStr h | None => JNull end)].

Definition optional (k : string) {A} (f : A -> Json) (o : option A)
    : Object :=
  match o with
  | Some a => [(k, f a)]
  | None => []
  end.

Definition fileRef_json (r : FileRef) : Json :=
  JObj (optional "url" JStr (url r)).

Definition payload_json (p : Payload) : Json :=
  JObj
    (optional "rich_text" (fun l => JArr (map span_json l)) (rich_text p)
     ++ optional "language" JStr (language p)
     ++ optional "caption" (fun l => JArr (map span_json l)) (caption p)
     ++ optional "type" JStr (image_type p)
     ++ optional "external" fileRef_json (external p)
     ++ optional "file" fileRef_json (file p)).

(** The object with the block's [type] and, under that type, its
    payload. *)
Definition block_json (b : Block) : Json :=
  JObj (("type", JStr (type b))
          :: optional (type b) payload_json (payload b)).

End Any.

(** ** More sample worlds *)

Module Fixture.

(** A listed page whose timestamp is not one the sample runtime reads. *)
Definition undated (id title : string) : QueryResult := {|
  page_id := id;
  page_properties := Some (Sample.titled title);
  last_edited_time := Some "last Tuesday";
  page_url := None
|}.

(** Three pages, the second with an unreadable timestamp. *)
Definition notion : Notion := {|
  databases :=
    {[ "db" := [Sample.listed "p1" "First"; undated "p2" "Second";
                Sample.listed "p3" "Third"] ]};
  children :=
    {[ "p1" := [Sample.paragraph "one"]; "p2" := [Sample.paragraph "two"];
       "p3" := [Sample.paragraph "three"] ]}
|}.

Definition env : Env := {|
  NOTION_API_KEY := Some "secret-notion";
  GITHUB_TOKEN := Some "secret-github";
  GITHUB_REPO_OWNER := Some "owner";
  GITHUB_REPO_NAME := Some "site";
  GITHUB_BRANCH := None;
  OUTPUT_PATH := None;
  WEBHOOK_SECRET := Some "s3cret"
|}.

(** A page one of whose blocks is a paragraph without its payload. *)
Definition broken : Notion := {|
  databases := {[ "db" := [Sample.listed "p1" "First"] ]};
  children :=
    {[ "p1" := [Sample.paragraph "one"; Sample.hollow_paragraph;
                Sample.paragraph "three"] ]}
|}.

(** A repository without the branch [main]. *)
Definition branchless : GitHub := {|
  accessible := true;
  refs := ∅;
  trees := ∅;
  commits := ∅;
  contents := ∅;
  created := 0;
  faults := [];
  log := []
|}.

(** A repository whose fourth request to come fails. *)
Definition flaky : GitHub := {|
  accessible := true;
  refs := {[ "heads/main" := "c0" ]};
  trees := ∅;
  commits := ∅;
  contents := ∅;
  created := 0;
  faults := [None; None; None; Some 500];
  log := []
|}.

(** A repository that [repos.get] does not find. *)
Definition hidden : GitHub := {|
  accessible := false;
  refs := {[ "heads/main" := "c0" ]};
  trees := ∅;
  commits := ∅;
  contents := ∅;
  created := 0;
  faults := [];
  log := []
|}.

(** A block of a type the renderer does not know, with its spans. *)
Definition callout (spans : list Json) : Json :=
  JObj [("type", JStr "callout");
        ("callout", JObj [("rich_text", JArr spans)])].

(** A span that has no [annotations]. *)
Definition bare_span : Json := JObj [("plain_text", JStr "x")].

(** A paragraph, a divider, and two blocks of an unknown type, one with
    nothing under its type. *)
Definition blocks : list Json :=
  [Any.block_json (Sample.paragraph "one"); Any.block_json Sample.divider;
   JObj [("type", JStr "callout")];
   callout [Any.span_json (Sample.plain "x")]].

End Fixture.

(** * Facts about strings *)

Section StringFacts.

Lemma all_units_filter (P : ascii -> bool) (s : string) :
  Js.all_units P (Js.filter_units P s) = true.
Proof.
  induction s as [|c r IH]; simpl; [reflexivity|].
  destruct (P c) eqn:E; simpl; [rewrite E|]; exact IH.
Qed.

Lemma all_units_weaken (P Q : ascii -> bool) (s : string) :
  (forall c, P c = true -> Q c = true) ->
  Js.all_units P s = true -> Js.all_units Q s = true.
Proof.
  intros PQ. induction s as [|c r IH]; simpl; [reflexivity|].
  intros [Hc Hr]%andb_prop. rewrite (PQ c Hc), (IH Hr). reflexivity.
Qed.

Lemma filter_units_id (P : ascii -> bool) (s : string) :
  Js.all_units P s = true -> Js.filter_units P s = s.
Proof.
  induction s as [|c r IH]; simpl; [reflexivity|].
  intros [Hc Hr]%andb_prop. rewrite Hc, (IH Hr). reflexivity.
Qed.

Lemma map_units_id (f : ascii -> ascii) (P : ascii -> bool) (s : string) :
  (forall c, P c = true -> f c = c) ->
  Js.all_units P s = true -> Js.map_units f s = s.
Proof.
  intros Hf. induction s as [|c r IH]; simpl; [reflexivity|].
  intros [Hc Hr]%andb_prop. rewrite (Hf c Hc), (IH Hr). reflexivity.
Qed.

(** After [replace(/X+/g, rep)] with [rep] itself in [X], no two
    neighbours are in [X]. *)
Lemma run_free_replace_runs (X : ascii -> bool) (rep : ascii) :
  X rep = true ->
  forall s b, Js.run_free X b (Js.replace_runs X rep b s) = true.
Proof.
  intros Hrep. induction s as [|c r IH]; intros b; simpl; [reflexivity|].
  destruct (X c) eqn:Hc.
  - destruct b; simpl; [apply IH|]. rewrite Hrep. simpl. apply IH.
  - simpl. rewrite Hc. apply IH.
Qed.

(** Runs of length one, each already the replacement, are left alone. *)
Lemma replace_runs_id (X : ascii -> bool) (rep : ascii) :
  forall s b,
    Js.run_free X b s = true ->
    Js.all_units (fun c => implb (X c) (Ascii.eqb c rep)) s = true ->
    Js.replace_runs X rep b s = s.
Proof.
  induction s as [|c r IH]; intros b; simpl; [reflexivity|].
  intros Hfree [Hc Hr]%andb_prop.
  destruct (X c) eqn:E; simpl in Hc.
  - apply Ascii.eqb_eq in Hc. subst c.
    apply andb_prop in Hfree as [Hb Hfree].
    destruct b; [discriminate|]. rewrite (IH true Hfree Hr). reflexivity.
  - rewrite (IH false Hfree Hr). reflexivity.
Qed.

(** What [replace(/X+/g, rep)] leaves is [rep] or was there and outside
    [X]. *)
Lemma all_units_replace_runs (X P : ascii -> bool) (rep : ascii) :
  P rep = true ->
  forall s b,
    Js.all_units (fun c => X c || P c) s = true ->
    Js.all_units P (Js.replace_runs X rep b s) = true.
Proof.
  intros Hrep. induction s as [|c r IH]; intros b; simpl; [reflexivity|].
  intros [Hc Hr]%andb_prop.
  destruct (X c) eqn:E; simpl in Hc.
  - destruct b; simpl; [|rewrite Hrep]; apply IH, Hr.
  - simpl. rewrite Hc. apply IH, Hr.
Qed.

Lemma drop_leading_id (X : ascii -> bool) (s : string) :
  Js.all_units (fun c => negb (X c)) s = true -> Js.drop_leading X s = s.
Proof.
  destruct s as [|c r]; simpl; [reflexivity|].
  intros [Hc _]%andb_prop. apply negb_true_iff in Hc. rewrite Hc. reflexivity.
Qed.

Lemma drop_trailing_id (X : ascii -> bool) (s : string) :
  Js.all_units (fun c => negb (X c)) s = true -> Js.drop_trailing X s = s.
Proof.
  induction s as [|c r IH]; simpl; [reflexivity|].
  intros [Hc Hr]%andb_prop. apply negb_true_iff in Hc.
  rewrite (IH Hr), Hc. destruct r; reflexivity.
Qed.

(** [trim] finds nothing to remove in a string without white space. *)
Lemma trim_id (s : string) :
  Js.all_units (fun c => negb (Js.is_space c)) s = true -> Js.trim s = s.
Proof.
  intros Hs. unfold Js.trim. rewrite (drop_leading_id _ s Hs).
  apply drop_trailing_id, Hs.
Qed.






End StringFacts.

(** * Facts about the filename derivation *)

Section SlugFacts.

Ltac by_cases c :=
  destruct c as [[] [] [] [] [] [] [] []]; vm_compute; congruence.

Lemma slug_unit_lower (c : ascii) : slug_unit c = true -> Js.lower_unit c = c.
Proof. by_cases c. Qed.

Lemma slug_unit_keep (c : ascii) : slug_unit c = true -> slug_keep c = true.
Proof. by_cases c. Qed.

Lemma slug_unit_not_space (c : ascii) :
  slug_unit c = true -> negb (Js.is_space c) = true.
Proof. by_cases c. Qed.

Lemma slug_keep_split (c : ascii) :
  slug_keep c = true -> Js.is_space c || slug_unit c = true.
Proof. by_cases c. Qed.

Lemma slug_unit_split (c : ascii) :
  slug_unit c = true -> Js.is_hyphen c || slug_unit c = true.
Proof. by_cases c. Qed.

Lemma slug_unit_hyphen (c : ascii) :
  slug_unit c = true -> implb (Js.is_hyphen c) (Ascii.eqb c "-") = true.
Proof. by_cases c. Qed.

Lemma slug_unit_space (c : ascii) :
  slug_unit c = true -> implb (Js.is_space c) (Ascii.eqb c "-") = true.
Proof. by_cases c. Qed.

Lemma hyphenated_units (title : string) :
  Js.all_units slug_unit (hyphenated title) = true.
Proof.
  unfold hyphenated.
  apply all_units_replace_runs; [reflexivity|].
  apply all_units_weaken with (P := slug_unit); [apply slug_unit_split|].
  apply all_units_replace_runs; [reflexivity|].
  apply all_units_weaken with (P := slug_keep); [apply slug_keep_split|].
  apply all_units_filter.
Qed.

Lemma hyphenated_run_free (title : string) :
  Js.run_free Js.is_hyphen false (hyphenated title) = true.
Proof. unfold hyphenated. apply run_free_replace_runs. reflexivity. Qed.

(** The final [trim] of [generateFileName] never removes anything: by then
    all white space has become hyphens. *)
Lemma generateFileName_trim_idle (title : string) :
  generateFileName title = hyphenated title.
Proof.
  unfold generateFileName. fold (hyphenated title). apply trim_id.
  apply all_units_weaken with (P := slug_unit); [apply slug_unit_not_space|].
  apply hyphenated_units.
Qed.

Lemma run_free_no_X (X : ascii -> bool) (s : string) (b : bool) :
  Js.all_units (fun c => negb (X c)) s = true -> Js.run_free X b s = true.
Proof.
  revert b. induction s as [|c r IH]; intros b; simpl; [reflexivity|].
  intros [Hc Hr]%andb_prop. apply negb_true_iff in Hc. rewrite Hc.
  apply IH, Hr.
Qed.

(** A string of [[a-z0-9-]] without a doubled hyphen is its own slug. *)
Lemma generateFileName_fixed (s : string) :
  Js.all_units slug_unit s = true ->
  Js.run_free Js.is_hyphen false s = true ->
  generateFileName s = s.
Proof.
  intros Hunits Hfree. rewrite generateFileName_trim_idle. unfold hyphenated.
  unfold Js.toLowerCase.
  rewrite (map_units_id _ slug_unit s slug_unit_lower Hunits).
  rewrite filter_units_id
    by (apply all_units_weaken with (P := slug_unit);
        [apply slug_unit_keep | exact Hunits]).
  rewrite (replace_runs_id Js.is_space "-" s false).
  - apply replace_runs_id; [exact Hfree|].
    apply all_units_weaken with (P := slug_unit);
      [apply slug_unit_hyphen | exact Hunits].
  - apply run_free_no_X.
    apply all_units_weaken with (P := slug_unit);
      [apply slug_unit_not_space | exact Hunits].
  - apply all_units_weaken with (P := slug_unit);
      [apply slug_unit_space | exact Hunits].
Qed.








(** What the chain of [generateFileName] gives: the title lowercased,
    without the characters outside the kept class, with every run of white
    space turned into one hyphen and every run of hyphens into one hyphen.
    It is made of lower-case letters, digits and hyphens, no two hyphens
    side by side. *)
Lemma generateFileName_chain (title : string) :
  generateFileName title
    = Js.replace_runs Js.is_hyphen "-" false
        (Js.replace_runs Js.is_space "-" false
           (Js.filter_units slug_keep (Js.toLowerCase title))) /\
  Js.all_units slug_unit (generateFileName title) = true /\
  Js.run_free Js.is_hyphen false (generateFileName title) = true.
Proof.
  rewrite generateFileName_trim_idle.
  split; [reflexivity|]. split; [apply hyphenated_units|].
  apply hyphenated_run_free.
Qed.

(** The derivation of the specification differs from the code's by the
    hyphens at the two ends only. *)
Lemma spec_fileName_generateFileName (title : string) :
  spec_fileName title
    = Js.drop_trailing Js.is_hyphen
        (Js.drop_leading Js.is_hyphen (generateFileName title)).
Proof. rewrite generateFileName_trim_idle. reflexivity. Qed.

(** C5 at titles with white space at an end of what is kept. The title
    [Hello, World!] is derived to [hello-world], as the claim says. The
    title [Hello World !] is derived to [hello-world-] and the title
    [ Hello] to [-hello]: the hyphen that the white space has become is
    still there after the final [trim], where the claim has the leading
    and trailing hyphens trimmed. *)
Theorem generateFileName_keeps_outer_hyphens :
  generateFileName "Hello, World!" = "hello-world" /\
  generateFileName "Hello World !" = "hello-world-" /\
  spec_fileName "Hello World !" = "hello-world" /\
  generateFileName " Hello" = "-hello" /\
  spec_fileName " Hello" = "hello".
Proof. vm_compute. repeat split; reflexivity. Qed.

(** C6. Filename derivation is idempotent: deriving the filename of an
    already derived filename gives that filename back, for every title. *)
Theorem generateFileName_idempotent (title : string) :
  generateFileName (generateFileName title) = generateFileName title.
Proof.
  apply generateFileName_fixed; rewrite generateFileName_trim_idle.
  - apply hyphenated_units.
  - apply hyphenated_run_free.
Qed.

End SlugFacts.

(** * Facts about the renderer *)

Section RendererFacts.

Lemma append_nil_r (s : string) : s +:+ "" = s.
Proof. induction s as [|c r IH]; simpl; [|rewrite IH]; reflexivity. Qed.

Lemma append_assoc (a b c : string) : (a +:+ b) +:+ c = a +:+ (b +:+ c).
Proof. induction a as [|x r IH]; simpl; [|rewrite IH]; reflexivity. Qed.

Lemma length_append (a b : string) :
  String.length (a +:+ b) = String.length a + String.length b.
Proof. induction a as [|x r IH]; simpl; [|rewrite IH]; reflexivity. Qed.

Lemma all_units_append (P : ascii -> bool) (a b : string) :
  Js.all_units P (a +:+ b) = Js.all_units P a && Js.all_units P b.
Proof.
  induction a as [|x r IH]; simpl; [reflexivity|].
  rewrite IH, andb_assoc. reflexivity.
Qed.

Lemma renderSpan_spec (text : RichText) : renderSpan text = spec_span text.
Proof. reflexivity. Qed.

Lemma renderRichText_cons (text : RichText) (rest : list RichText) :
  renderRichText (text :: rest) = renderSpan text +:+ renderRichText rest.
Proof.
  unfold renderRichText. simpl. destruct (map renderSpan rest) eqn:E.
  - simpl. symmetry. apply append_nil_r.
  - reflexivity.
Qed.

Lemma renderRichText_spec (spans : list RichText) :
  renderRichText spans = spec_spans spans.
Proof.
  induction spans as [|text rest IH]; [reflexivity|].
  rewrite renderRichText_cons, IH, renderSpan_spec. reflexivity.
Qed.

(** C2. A span is rendered by wrapping its text in the bold marker, then
    the italic, strikethrough and inline-code markers, then in the link when
    it has a target; the spans of a block are concatenated with nothing
    between them; a span that is bold, italic and inline code (and nothing
    else) is rendered as a backtick, three stars, the text, three stars, a
    backtick. *)
Theorem renderRichText_fixed_order :
  (forall spans, renderRichText spans = spec_spans spans) /\
  (forall a b, renderRichText (a ++ b) = renderRichText a +:+ renderRichText b) /\
  (forall t,
     renderRichText
       [{| plain_text := t;
           annotations := {| bold := true; italic := true;
                             strikethrough := false; code := true |};
           href := None |}]
     = "`***" +:+ t +:+ "***`").
Proof.
  split; [exact renderRichText_spec|]. split.
  - intros a b. rewrite !renderRichText_spec.
    induction a as [|text rest IH]; simpl; [reflexivity|].
    rewrite IH, append_assoc. reflexivity.
  - intros t. unfold renderRichText. simpl. unfold renderSpan. simpl.
    rewrite !append_assoc. reflexivity.
Qed.

Lemma trailing_newlines_blank (c : string) :
  Js.trailing_newlines (c +:+ Js.blank) = Js.trailing_newlines c + 2.
Proof.
  induction c as [|x r IH]; [reflexivity|].
  assert (Hall : Js.all_units (Ascii.eqb (ascii_of_nat 10))
                   (String x r +:+ Js.blank)
                 = Js.all_units (Ascii.eqb (ascii_of_nat 10)) (String x r))
    by (rewrite all_units_append; apply andb_true_r).
  change (String x r +:+ Js.blank) with (String x (r +:+ Js.blank)) in *.
  cbn [Js.trailing_newlines]. rewrite Hall.
  destruct (Js.all_units _ (String x r)); [|exact IH].
  cbn [String.length]. rewrite length_append. reflexivity.
Qed.

(** C3, as the code has it. When the [switch] of [convertBlockToMarkdown]
    leaves the content [c], the block's output is [c] followed by two line
    feeds: it ends with two line feeds more than [c] does, so with exactly
    two when [c] does not end with one. The content of a divider ends with
    two line feeds of its own, and its output with four. *)
Theorem convertBlockToMarkdown_terminator (block : Block) (c : string) :
  blockContent block = Ok c ->
  convertBlockToMarkdown block = Ok (c +:+ Js.blank) /\
  Js.trailing_newlines (c +:+ Js.blank) = Js.trailing_newlines c + 2 /\
  (Js.trailing_newlines c = 0 -> Js.trailing_newlines (c +:+ Js.blank) = 2) /\
  (type block = "divider" -> Js.trailing_newlines (c +:+ Js.blank) = 4).
Proof.
  intros Hc. unfold convertBlockToMarkdown. rewrite Hc.
  split; [reflexivity|]. split; [apply trailing_newlines_blank|]. split.
  - intros H0. rewrite trailing_newlines_blank, H0. reflexivity.
  - intros Hd. unfold blockContent in Hc. rewrite Hd in Hc. simpl in Hc.
    injection Hc as <-. reflexivity.
Qed.

Lemma convertBlockToMarkdown_terminator_witness :
  convertBlockToMarkdown (Sample.paragraph "one")
    = Ok ("one" +:+ Js.blank) /\
  Js.trailing_newlines ("one" +:+ Js.blank) = Js.trailing_newlines "one" + 2 /\
  (Js.trailing_newlines "one" = 0 ->
   Js.trailing_newlines ("one" +:+ Js.blank) = 2) /\
  (type (Sample.paragraph "one") = "divider" ->
   Js.trailing_newlines ("one" +:+ Js.blank) = 4).
Proof.
  apply (convertBlockToMarkdown_terminator (Sample.paragraph "one") "one").
  reflexivity.
Defined.

(** C3 fails as stated on a divider: its output ends with four line feeds,
    not with exactly two. *)
Lemma divider_four_newlines :
  convertBlockToMarkdown Sample.divider
    = Ok (String Js.LF "---" +:+ Js.blank +:+ Js.blank) /\
  forall out, convertBlockToMarkdown Sample.divider = Ok out ->
              Js.trailing_newlines out <> 2.
Proof.
  split; [reflexivity|]. intros out Hout. vm_compute in Hout.
  injection Hout as <-. vm_compute. discriminate.
Qed.

Lemma renderRichTextOf_ok (x : option Payload) :
  has_spans x = true -> exists s, renderRichTextOf x = Ok s.
Proof.
  destruct x as [p|]; simpl; [|discriminate].
  unfold renderRichTextOf. simpl. destruct (rich_text p); [|discriminate].
  intros _. eexists. reflexivity.
Qed.

Lemma blockContent_unrecognized (block : Block) :
  recognized (type block) = false ->
  blockContent block = Ok (renderRichText (fallback_spans block)).
Proof.
  unfold recognized, blockContent. cbn [existsb].
  intros Hr. repeat (apply orb_false_elim in Hr as [-> Hr]). reflexivity.
Qed.

Lemma renderCode_ok (x : option Payload) :
  has_spans x = true -> exists s, renderCode x = Ok s.
Proof.
  intros Hx. destruct (renderRichTextOf_ok x Hx) as [s Hs].
  unfold renderCode. rewrite Hs. destruct x; [|discriminate].
  eexists. reflexivity.
Qed.

Lemma renderImage_ok (x : option Payload) :
  has_source x = true -> exists s, renderImage x = Ok s.
Proof.
  destruct x as [p|]; simpl; [|discriminate]. unfold renderImage. simpl.
  destruct (decide (image_type p = Some "external")).
  - destruct (external p); [|discriminate]. intros _. eexists. reflexivity.
  - destruct (file p); [|discriminate]. intros _. eexists. reflexivity.
Qed.

Lemma blockContent_well_formed (block : Block) :
  well_formed block = true -> exists c, blockContent block = Ok c.
Proof.
  unfold well_formed, blockContent, renderParagraph, renderHeading,
    renderBulletedListItem, renderNumberedListItem, renderQuote.
  intros Hwf.
  repeat match goal with
    | |- context [String.eqb (type block) ?k] =>
        destruct (String.eqb_spec (type block) k) as [E|_];
        [ try rewrite E in Hwf; simpl in Hwf;
          first
            [ destruct (renderRichTextOf_ok _ Hwf) as [s ->]
            | destruct (renderCode_ok _ Hwf) as [s ->]
            | destruct (renderImage_ok _ Hwf) as [s ->]
            | idtac ];
          eexists; reflexivity
        | ]
    end.
  eexists. reflexivity.
Qed.

Lemma convertBlocksFrom_well_formed (blocks : list Block) :
  forallb well_formed blocks = true ->
  forall markdown, exists out, convertBlocksFrom markdown blocks = Ok out.
Proof.
  induction blocks as [|block rest IH]; simpl; intros Hwf markdown.
  - eexists. reflexivity.
  - apply andb_prop in Hwf as [Hb Hrest].
    destruct (blockContent_well_formed block Hb) as [c Hc].
    unfold convertBlockToMarkdown. rewrite Hc. simpl. apply IH, Hrest.
Qed.

End RendererFacts.

(** * Facts about the renderer on blocks as they arrive *)

Section AnyFacts.

Lemma wrap_text (on : bool) (marker s : string) :
  Any.wrap on marker marker (Some (JStr s))
    = Ok (Some (JStr (wrapped marker on s))).
Proof. destruct on; reflexivity. Qed.

(** On a typed span the callback gives the text of [renderSpan]. *)
Lemma renderSpan_json (text : RichText) :
  Any.renderSpan (Any.span_json text) = Ok (Some (JStr (renderSpan text))).
Proof.
  destruct text as [content [b i s c] target].
  destruct b, i, s, c, target as [h|]; cbn;
    try destruct (Js.truthy h); reflexivity.
Qed.

Lemma renderSpan_ok (text : Json) :
  Any.span_ok text = true ->
  exists s, Any.renderSpan text = Ok (Some (JStr s)).
Proof.
  destruct text as [| | | | |fields]; try discriminate.
  unfold Any.span_ok, Any.renderSpan, Any.get.
  destruct (obj_get "plain_text" fields) as [[| | |content| |]|];
    try discriminate.
  destruct (obj_get "annotations" fields) as [[| | | | |a]|];
    try discriminate.
  intros Hhref. cbn -[Any.wrap obj_get].
  rewrite !wrap_text. cbn -[obj_get wrapped].
  rewrite !wrap_text. cbn -[obj_get wrapped].
  rewrite !wrap_text. cbn -[obj_get wrapped].
  rewrite !wrap_text. cbn -[obj_get wrapped].
  destruct (obj_get "href" fields) as [[| | |h| |]|];
    try discriminate; cbn -[wrapped]; try destruct (Js.truthy h);
    eexists; reflexivity.
Qed.

Lemma traverse_ok (spans : list Json) :
  forallb Any.span_ok spans = true ->
  exists parts, Any.traverse Any.renderSpan spans = Ok parts /\ Any.texts parts.
Proof.
  induction spans as [|text rest IH]; cbn [forallb Any.traverse].
  - exists []. split; [reflexivity|constructor].
  - intros [Ht Hr]%andb_prop. destruct (renderSpan_ok text Ht) as [s ->].
    destruct (IH Hr) as (parts & -> & Hparts).
    eexists. split; [reflexivity|]. constructor; eauto.
Qed.

Lemma join_ok (parts : list Any.Value) :
  Any.texts parts -> exists s, Any.join parts = Ok s.
Proof.
  induction 1 as [|part rest [s ->] _ [more IH]]; cbn [Any.join].
  - eexists. reflexivity.
  - rewrite IH. eexists. reflexivity.
Qed.

Lemma renderRichText_ok (richText : Any.Value) :
  Any.spans_ok richText = true ->
  exists s, Any.renderRichText richText = Ok s.
Proof.
  destruct richText as [[| | | |spans|]|]; try discriminate.
  cbn [Any.spans_ok Any.renderRichText]. intros Hs.
  destruct (traverse_ok spans Hs) as (parts & -> & Hparts).
  apply join_ok, Hparts.
Qed.

Lemma traverse_json (spans : list RichText) :
  Any.traverse Any.renderSpan (map Any.span_json spans)
    = Ok (map (fun text => Some (JStr (renderSpan text))) spans).
Proof.
  induction spans as [|text rest IH]; [reflexivity|].
  cbn [map Any.traverse]. rewrite renderSpan_json, IH. reflexivity.
Qed.

Lemma join_json (spans : list RichText) :
  Any.join (map (fun text => Some (JStr (renderSpan text))) spans)
    = Ok (renderRichText spans).
Proof.
  induction spans as [|text rest IH]; [reflexivity|].
  cbn [map Any.join Any.toString]. rewrite IH, renderRichText_cons.
  reflexivity.
Qed.

(** On typed spans the untyped renderer gives the text of the typed one. *)
Lemma renderRichText_json (spans : list RichText) :
  Any.renderRichText (Some (JArr (map Any.span_json spans)))
    = Ok (renderRichText spans).
Proof.
  cbn [Any.renderRichText]. rewrite traverse_json. apply join_json.
Qed.

(** One element on which the callback raises makes [map] raise. *)
Lemma traverse_raises {A B} (f : A -> Result B) (l : list A) :
  Exists (fun x => exists e, f x = Throw e) l ->
  exists e, Any.traverse f l = Throw e.
Proof.
  induction 1 as [x rest [e He]|x rest _ [e IH]]; cbn [Any.traverse].
  - rewrite He. eexists. reflexivity.
  - destruct (f x) as [y|e']; [|eexists; reflexivity].
    rewrite IH. eexists. reflexivity.
Qed.

Lemma renderSpan_lacks_annotations (text : Json) :
  Any.lacks_annotations text = true ->
  exists e, Any.renderSpan text = Throw e.
Proof.
  unfold Any.lacks_annotations, Any.renderSpan.
  destruct text as [| | | | |fields]; try (eexists; reflexivity).
  cbn [Any.get]. unfold Ok at 1. cbv beta iota.
  destruct (obj_get "annotations" fields) as [[| | | | |]|];
    try discriminate; eexists; reflexivity.
Qed.

Lemma renderRichText_raises (v : Json) :
  json_truthy v = true ->
  match v with
  | JArr spans => existsb Any.lacks_annotations spans = true
  | _ => True
  end ->
  exists e, Any.renderRichText (Some v) = Throw e.
Proof.
  destruct v as [| | | |spans|]; try (eexists; reflexivity).
  intros _ Hbad. cbn [Any.renderRichText].
  destruct (traverse_raises Any.renderSpan spans) as [e ->];
    [|eexists; reflexivity].
  apply Exists_exists. apply existsb_exists in Hbad as (text & Hin & Hl).
  exists text. split; [apply list_elem_of_In, Hin|].
  apply renderSpan_lacks_annotations, Hl.
Qed.

(** A payload with an array of spans renders. *)
Lemma payload_renders (x : Any.Value) :
  Any.payload_ok x = true ->
  exists s,
    (let! richText := Any.get x "rich_text" in Any.renderRichText richText)
      = Ok s.
Proof.
  destruct x as [[| | | | |fields]|]; try discriminate.
  cbn [Any.payload_ok Any.get]. apply renderRichText_ok.
Qed.

Ltac by_payload Hwf :=
  cbn in Hwf; destruct (payload_renders _ Hwf) as [s Hs];
  unfold Any.renderParagraph, Any.renderHeading,
    Any.renderBulletedListItem, Any.renderNumberedListItem,
    Any.renderQuote;
  match type of Hs with
  | context [Any.get ?x _] =>
      destruct (Any.get x "rich_text") as [richText|e];
      [|discriminate Hs]
  end;
  cbn [rbind] in Hs |- *; rewrite Hs; cbn [rbind Ok]; eexists;
  reflexivity.

Lemma code_renders (x : Any.Value) :
  Any.code_ok x = true -> exists s, Any.renderCode x = Ok s.
Proof.
  destruct x as [[| | | | |fields]|]; try discriminate.
  cbn [Any.code_ok]. intros [Hs Hl]%andb_prop.
  unfold Any.renderCode. cbn [Any.get rbind Ok].
  destruct (renderRichText_ok _ Hs) as [content ->]. cbn [rbind Ok].
  destruct (obj_get "language" fields) as [[| | |l| |]|];
    try discriminate; cbn; try destruct (Js.truthy l); eexists;
    reflexivity.
Qed.

Lemma image_renders (x : Any.Value) :
  Any.image_ok x = true -> exists s, Any.renderImage x = Ok s.
Proof.
  destruct x as [[| | | | |fields]|]; try discriminate.
  cbn [Any.image_ok]. intros [Hc Hsrc]%andb_prop.
  unfold Any.renderImage. cbn [Any.get rbind Ok].
  assert (exists caption,
            (if Any.truthy (obj_get "caption" fields)
             then Any.renderRichText (obj_get "caption" fields)
             else Ok "") = Ok caption) as [caption ->].
  { destruct (Any.truthy (obj_get "caption" fields));
      [|eexists; reflexivity].
    apply renderRichText_ok. exact Hc. }
  cbn [rbind Ok].
  destruct (Any.is_string (obj_get "type" fields) "external").
  - destruct (obj_get "external" fields) as [[| | | | |source]|];
      try discriminate. cbn [Any.get rbind Ok].
    destruct (obj_get "url" source) as [[| | |u| |]|]; try discriminate;
      eexists; reflexivity.
  - destruct (obj_get "file" fields) as [[| | | | |source]|];
      try discriminate. cbn [Any.get rbind Ok].
    destruct (obj_get "url" source) as [[| | |u| |]|]; try discriminate;
      eexists; reflexivity.
Qed.

Lemma blockContent_default (fields : Object) (t : string) :
  obj_get "type" fields = Some (JStr t) ->
  recognized t = false ->
  Any.blockContent (JObj fields) = Any.fallback (obj_get t fields).
Proof.
  intros Ht. unfold recognized, Any.blockContent. cbn [existsb Any.get].
  rewrite Ht. cbn [rbind Ok]. unfold Any.is_string.
  intros Hr. repeat (apply orb_false_elim in Hr as [-> Hr]). reflexivity.
Qed.

Lemma fallback_renders (x : Any.Value) :
  Any.fallback_ok x = true -> exists s, Any.fallback x = Ok s.
Proof.
  unfold Any.fallback.
  destruct x as [[| | | | |fields]|]; try (eexists; reflexivity).
  cbn [Any.fallback_ok Any.get rbind Ok].
  destruct (Any.truthy (obj_get "rich_text" fields)); cbn [negb orb].
  - apply renderRichText_ok.
  - intros _. eexists. reflexivity.
Qed.

Lemma blockContent_ok (block : Json) :
  Any.well_formed block = true ->
  exists s, Any.blockContent block = Ok s.
Proof.
  unfold Any.well_formed.
  destruct block as [| | | | |fields]; try discriminate.
  destruct (obj_get "type" fields) as [[| | |t| |]|] eqn:Ht;
    try discriminate.
  destruct (recognized t) eqn:Hr.
  2:{ rewrite (blockContent_default fields t Ht Hr).
      unfold recognized in Hr. cbn [existsb] in Hr.
      repeat (apply orb_false_elim in Hr as [? Hr]).
      repeat match goal with E : String.eqb _ _ = false |- _ =>
               rewrite E; clear E end.
      apply fallback_renders. }
  unfold Any.blockContent. cbn [Any.get]. rewrite Ht.
  cbn [rbind Ok]. unfold Any.is_string.
  unfold recognized in Hr. cbn [existsb] in Hr. clear Ht.
  repeat match type of Hr with
         | (String.eqb t ?name || _) = true =>
             destruct (String.eqb t name) eqn:E;
             [apply String.eqb_eq in E; subst t; clear Hr; intros Hwf
             |clear E; cbn [orb] in Hr]
         end.
  all: try (by_payload Hwf).
  - cbn in Hwf. cbn [Any.get rbind Ok].
    apply code_renders, Hwf.
  - cbn in Hwf. cbn [Any.get rbind Ok].
    apply image_renders, Hwf.
  - eexists. reflexivity.
  - discriminate.
Qed.

Lemma convertBlocksFrom_ok (blocks : list Json) (markdown : string) :
  forallb Any.well_formed blocks = true ->
  exists out, Any.convertBlocksFrom markdown blocks = Ok out.
Proof.
  revert markdown.
  induction blocks as [|block rest IH]; intros markdown;
    cbn [forallb Any.convertBlocksFrom].
  - eexists. reflexivity.
  - intros [Hb Hr]%andb_prop. unfold Any.convertBlockToMarkdown.
    destruct (blockContent_ok block Hb) as [s ->]. cbn [rbind Ok].
    apply IH, Hr.
Qed.

Lemma span_json_ok (text : RichText) :
  Any.span_ok (Any.span_json text) = true.
Proof. destruct text as [content a [h|]]; reflexivity. Qed.

Lemma spans_json_ok (spans : list RichText) :
  forallb Any.span_ok (map Any.span_json spans) = true.
Proof.
  induction spans as [|text rest IH]; [reflexivity|].
  cbn [map forallb]. rewrite span_json_ok, IH. reflexivity.
Qed.

Lemma lacks_annotations_not_ok (spans : list Json) :
  existsb Any.lacks_annotations spans = true ->
  forallb Any.span_ok spans = false.
Proof.
  induction spans as [|text rest IH]; [discriminate|].
  cbn [existsb forallb]. intros [Hl|Hr]%orb_prop.
  - assert (Any.span_ok text = false) as ->; [|reflexivity].
    unfold Any.lacks_annotations in Hl. unfold Any.span_ok.
    destruct text as [| | | | |fields]; try reflexivity.
    destruct (obj_get "plain_text" fields) as [[| | | | |]|];
      try reflexivity.
    destruct (obj_get "annotations" fields) as [[| | | | |]|];
      try reflexivity; discriminate.
  - rewrite (IH Hr). apply andb_false_r.
Qed.

(** Under an unrecognized type the test of well-formedness is that of the
    fallback. *)
Lemma well_formed_unrecognized (fields : Object) (t : string) :
  obj_get "type" fields = Some (JStr t) ->
  recognized t = false ->
  Any.well_formed (JObj fields) = Any.fallback_ok (obj_get t fields).
Proof.
  intros Ht Hr. unfold Any.well_formed. rewrite Ht, Hr.
  unfold recognized in Hr. cbn [existsb] in Hr.
  repeat (apply orb_false_elim in Hr as [? Hr]).
  repeat match goal with E : String.eqb _ _ = false |- _ =>
           rewrite E; clear E end.
  reflexivity.
Qed.

(** A block of a recognized type other than a divider that has nothing
    under its type is not well formed, and rendering it raises. *)
Lemma recognized_hollow (fields : Object) (t : string) :
  obj_get "type" fields = Some (JStr t) ->
  recognized t = true ->
  t <> "divider" ->
  obj_get t fields = None ->
  Any.well_formed (JObj fields) = false /\
  exists m, Any.convertBlockToMarkdown (JObj fields) = Throw (TypeError m).
Proof.
  intros Ht Hr Hd Hx.
  unfold Any.well_formed, Any.convertBlockToMarkdown, Any.blockContent.
  cbn [Any.get]. rewrite Ht, Hr. cbn [rbind Ok]. unfold Any.is_string.
  unfold recognized in Hr. cbn [existsb] in Hr. clear Ht.
  repeat match type of Hr with
         | (String.eqb t ?name || _) = true =>
             destruct (String.eqb t name) eqn:E;
             [apply String.eqb_eq in E; subst t; clear Hr
             |clear E; cbn [orb] in Hr]
         end.
  all: try (rewrite Hx; cbn; split; [reflexivity|eexists; reflexivity]).
  - contradiction Hd. reflexivity.
  - discriminate.
Qed.

(** C9, as the code has it. Rendering never raises on a sequence of blocks
    each of which carries what the renderer of its type reads. A block of
    an unrecognized type is rendered as the concatenation of its rich-text
    spans, and as the empty text when it has no rich-text list, followed by
    the two line feeds that end every block. Rendering raises on a block of
    an unrecognized type whose rich-text list is no array or holds a span
    without annotations, and raises a [TypeError] on a block of a
    recognized type, other than a divider, that has nothing under its
    type; none of these is well formed. *)
Theorem render_total_on_well_formed (blocks : list Json) :
  forallb Any.well_formed blocks = true ->
  (exists out, Any.convertBlocksToMarkdown blocks = Ok out) /\
  (forall fields t,
     obj_get "type" fields = Some (JStr t) ->
     recognized t = false ->
     (forall payload spans,
        obj_get t fields = Some (JObj payload) ->
        obj_get "rich_text" payload
          = Some (JArr (map Any.span_json spans)) ->
        Any.well_formed (JObj fields) = true /\
        Any.convertBlockToMarkdown (JObj fields)
          = Ok (spec_spans spans +:+ Js.blank)) /\
     ((forall payload,
         obj_get t fields = Some (JObj payload) ->
         Any.truthy (obj_get "rich_text" payload) = false) ->
      Any.well_formed (JObj fields) = true /\
      Any.convertBlockToMarkdown (JObj fields) = Ok Js.blank) /\
     (forall payload v,
        obj_get t fields = Some (JObj payload) ->
        obj_get "rich_text" payload = Some v ->
        json_truthy v = true ->
        match v with
        | JArr spans => existsb Any.lacks_annotations spans = true
        | _ => True
        end ->
        Any.well_formed (JObj fields) = false /\
        exists e, Any.convertBlockToMarkdown (JObj fields) = Throw e)) /\
  (forall fields t,
     obj_get "type" fields = Some (JStr t) ->
     recognized t = true ->
     t <> "divider" ->
     obj_get t fields = None ->
     Any.well_formed (JObj fields) = false /\
     exists m,
       Any.convertBlockToMarkdown (JObj fields) = Throw (TypeError m)).
Proof.
  intros Hwf. split; [apply convertBlocksFrom_ok, Hwf|].
  split; [|apply recognized_hollow]. clear blocks Hwf.
  intros fields t Ht Hr. unfold Any.convertBlockToMarkdown.
  rewrite (well_formed_unrecognized fields t Ht Hr),
    (blockContent_default fields t Ht Hr).
  unfold Any.fallback. split; [|split].
  - intros payload spans -> Hspans. cbn [Any.fallback_ok Any.get rbind Ok].
    rewrite Hspans. cbn [Any.truthy json_truthy Any.spans_ok negb orb].
    rewrite spans_json_ok, renderRichText_json, renderRichText_spec.
    split; reflexivity.
  - intros Hnone.
    destruct (obj_get t fields) as [[| | | | |payload]|];
      try (split; reflexivity).
    cbn [Any.fallback_ok Any.get rbind Ok].
    rewrite (Hnone payload eq_refl). split; reflexivity.
  - intros payload v -> Hv Htruthy Hbad.
    cbn [Any.fallback_ok Any.get rbind Ok]. rewrite Hv.
    cbn [Any.truthy]. rewrite Htruthy. cbn [negb orb].
    destruct (renderRichText_raises v Htruthy Hbad) as [e ->].
    split; [|eexists; reflexivity].
    destruct v as [| | | |spans|]; try reflexivity.
    apply lacks_annotations_not_ok, Hbad.
Qed.

Lemma payload_rich_text (p : Payload) :
  obj_get "rich_text" (match Any.payload_json p with JObj f => f | _ => [] end)
    = option_map (fun l => JArr (map Any.span_json l)) (rich_text p).
Proof.
  destruct p as [[l|] [lang|] [c|] [ty|] [e|] [f|]]; reflexivity.
Qed.

(** On a typed block whose payload renders its rich text, the two
    renderers agree. *)
Lemma renderRichTextOf_json (x : option Payload) :
  (let! richText := Any.get (option_map Any.payload_json x) "rich_text" in
   Any.renderRichText richText)
    = renderRichTextOf x.
Proof.
  destruct x as [p|]; [|reflexivity].
  unfold renderRichTextOf. cbn [option_map read rbind Ok].
  unfold Any.payload_json. cbn [Any.get rbind Ok].
  pose proof (payload_rich_text p) as Hp. unfold Any.payload_json in Hp.
  cbv beta iota in Hp. rewrite Hp.
  destruct (rich_text p) as [l|]; cbn [option_map read rbind Ok];
    [apply renderRichText_json|reflexivity].
Qed.

Lemma renderCode_json (x : option Payload) :
  Any.renderCode (option_map Any.payload_json x) = renderCode x.
Proof.
  destruct x as [p|]; [|reflexivity].
  unfold renderCode, Any.renderCode. cbn [option_map read rbind Ok].
  pose proof (renderRichTextOf_json (Some p)) as Hr.
  cbn [option_map] in Hr.
  destruct (Any.get (Some (Any.payload_json p)) "rich_text")
    as [richText|e] eqn:Hg; [|discriminate Hg].
  cbn [rbind] in Hr.
  assert (Hl : Any.get (Some (Any.payload_json p)) "language"
               = Ok (option_map JStr (language p))).
  { destruct p as [[l|] [lang|] [c|] [ty|] [ex|] [f|]]; reflexivity. }
  rewrite Hl. cbn [rbind Ok]. rewrite Hr.
  destruct (renderRichTextOf (Some p)) as [content|e]; [|reflexivity].
  cbn [rbind]. destruct (language p) as [lang|]; cbn;
    [destruct (Js.truthy lang)|]; reflexivity.
Qed.

Lemma renderImage_json (x : option Payload) :
  Any.renderImage (option_map Any.payload_json x) = renderImage x.
Proof.
  destruct x as [p|]; [|reflexivity].
  unfold renderImage, Any.renderImage. cbn [option_map read rbind Ok].
  assert (Hc : Any.get (Some (Any.payload_json p)) "caption"
               = Ok (option_map (fun l => JArr (map Any.span_json l))
                       (caption p)))
    by (destruct p as [[l|] [lang|] [c|] [ty|] [ex|] [f|]]; reflexivity).
  assert (Ht : Any.get (Some (Any.payload_json p)) "type"
               = Ok (option_map JStr (image_type p)))
    by (destruct p as [[l|] [lang|] [c|] [ty|] [ex|] [f|]]; reflexivity).
  assert (He : Any.get (Some (Any.payload_json p)) "external"
               = Ok (option_map Any.fileRef_json (external p)))
    by (destruct p as [[l|] [lang|] [c|] [ty|] [ex|] [f|]]; reflexivity).
  assert (Hf : Any.get (Some (Any.payload_json p)) "file"
               = Ok (option_map Any.fileRef_json (file p)))
    by (destruct p as [[l|] [lang|] [c|] [ty|] [ex|] [f|]]; reflexivity).
  rewrite Hc, Ht, He, Hf. cbn [rbind Ok]. clear Hc Ht He Hf.
  assert (Hcap : (if Any.truthy
                       (option_map (fun l => JArr (map Any.span_json l))
                          (caption p))
                  then Any.renderRichText
                         (option_map (fun l => JArr (map Any.span_json l))
                            (caption p))
                  else Ok "")
                 = Ok (match caption p with
                       | Some spans => renderRichText spans
                       | None => ""
                       end)).
  { destruct (caption p) as [spans|]; [|reflexivity].
    cbn [option_map Any.truthy json_truthy]. apply renderRichText_json. }
  rewrite Hcap. cbn [rbind Ok]. clear Hcap.
  assert (Hty : Any.is_string (option_map JStr (image_type p)) "external"
                = bool_decide (image_type p = Some "external")).
  { destruct (image_type p) as [ty|]; [|reflexivity].
    cbn [option_map Any.is_string].
    destruct (String.eqb_spec ty "external") as [->|Hne].
    - rewrite bool_decide_eq_true_2; reflexivity.
    - rewrite bool_decide_eq_false_2; [reflexivity|congruence]. }
  rewrite Hty. clear Hty.
  destruct (decide (image_type p = Some "external")) as [Hd|Hd].
  - rewrite bool_decide_eq_true_2 by exact Hd.
    destruct (external p) as [[[u|]]|]; reflexivity.
  - rewrite bool_decide_eq_false_2 by exact Hd.
    destruct (file p) as [[[u|]]|]; reflexivity.
Qed.

(** The two renderers agree on every typed block, when its type is not
    the word [type], under which an object cannot hold a payload as
    well. *)
Lemma convertBlockToMarkdown_json (b : Block) :
  type b <> "type" ->
  Any.convertBlockToMarkdown (Any.block_json b) = convertBlockToMarkdown b.
Proof.
  destruct b as [t x]. cbn [type]. intros Ht.
  unfold Any.convertBlockToMarkdown, convertBlockToMarkdown. f_equal.
  unfold Any.block_json. cbn [type payload].
  assert (Hx : obj_get t (("type", JStr t)
                            :: Any.optional t Any.payload_json x)
               = option_map Any.payload_json x).
  { cbn [obj_get]. apply String.eqb_neq in Ht. rewrite Ht.
    destruct x as [p|]; [|reflexivity].
    cbn [Any.optional obj_get option_map]. rewrite String.eqb_refl.
    reflexivity. }
  destruct (recognized t) eqn:Hr.
  2:{ rewrite (blockContent_default
                 (("type", JStr t) :: Any.optional t Any.payload_json x)
                 t eq_refl Hr), Hx.
      rewrite (blockContent_unrecognized {| type := t; payload := x |} Hr).
      unfold Any.fallback, fallback_spans. cbn [payload].
      destruct x as [p|]; [|reflexivity].
      cbn [option_map]. unfold Any.payload_json. cbn [Any.get rbind Ok].
      pose proof (payload_rich_text p) as Hp. unfold Any.payload_json in Hp.
      cbv beta iota in Hp. rewrite Hp.
      destruct (rich_text p) as [l|]; [|reflexivity].
      cbn [option_map Any.truthy json_truthy]. apply renderRichText_json. }
  unfold Any.blockContent, blockContent. cbn [Any.get obj_get type payload].
  cbn [rbind Ok]. unfold Any.is_string.
  unfold recognized in Hr. cbn [existsb] in Hr.
  repeat match type of Hr with
         | (String.eqb t ?name || _) = true =>
             destruct (String.eqb t name) eqn:E;
             [apply String.eqb_eq in E; subst t; clear Hr
             |clear E; cbn [orb] in Hr]
         end.
  all: try discriminate Hr.
  all: try (cbn [obj_get String.eqb Ascii.eqb Bool.eqb] in Hx |- *).
  all: try rewrite Hx.
  all: unfold Any.renderParagraph, Any.renderHeading,
         Any.renderBulletedListItem, Any.renderNumberedListItem,
         Any.renderQuote, renderParagraph, renderHeading,
         renderBulletedListItem, renderNumberedListItem, renderQuote.
  all: try apply renderRichTextOf_json.
  all: try apply renderCode_json.
  all: try apply renderImage_json.
  all: try reflexivity.
  all: rewrite <- (renderRichTextOf_json x);
    destruct (Any.get (option_map Any.payload_json x) "rich_text")
      as [richText|e]; [|reflexivity]; cbn [rbind];
    destruct (Any.renderRichText richText); reflexivity.
Qed.

(** The agreement, on whole lists. *)
Lemma convertBlocksToMarkdown_json (blocks : list Block) :
  Forall (fun b => type b <> "type") blocks ->
  Any.convertBlocksToMarkdown (map Any.block_json blocks)
    = convertBlocksToMarkdown blocks.
Proof.
  unfold Any.convertBlocksToMarkdown, convertBlocksToMarkdown.
  intros Hb. generalize "".
  induction Hb as [|b rest Hb _ IH]; intros markdown; [reflexivity|].
  cbn [map Any.convertBlocksFrom convertBlocksFrom].
  rewrite (convertBlockToMarkdown_json b Hb).
  destruct (convertBlockToMarkdown b); [apply IH|reflexivity].
Qed.

End AnyFacts.

Lemma render_total_on_well_formed_witness :
  forallb Any.well_formed Fixture.blocks = true /\
  exists out, Any.convertBlocksToMarkdown Fixture.blocks = Ok out.
Proof.
  split; [reflexivity|].
  exact (proj1 (render_total_on_well_formed Fixture.blocks eq_refl)).
Defined.

(** C9 fails as stated on a paragraph block that lacks its [paragraph]
    property, and on a block of an unknown type one of whose spans has no
    annotations: rendering raises a [TypeError]. *)
Lemma hollow_paragraph_raises :
  Any.convertBlocksToMarkdown [JObj [("type", JStr "paragraph")]]
    = Throw (TypeError
               "Cannot read properties of undefined (reading 'rich_text')") /\
  Any.convertBlocksToMarkdown [Fixture.callout [Fixture.bare_span]]
    = Throw (TypeError
               "Cannot read properties of undefined (reading 'bold')").
Proof. split; reflexivity. Qed.

(** * Facts about the hosting-service code *)

Section GitHubFacts.
Context `{Runtime}.
Variable config : ConversionConfig.

Ltac run_requests :=
  unfold pushFiles, createOrUpdateFile, getFileContent, getFileSha,
    validateRepository, createTree, try_catch, bind, ret, throw,
    Octokit.getRef, Octokit.createTree, Octokit.createCommit,
    Octokit.updateRef, Octokit.getContent,
    Octokit.createOrUpdateFileContents, Octokit.get, Octokit.request;
  cbn -[object_name toISOString String.append].

(** C1. [pushFiles] sends its four requests in the order get-ref,
    create-tree, create-commit, update-ref, each built from the answers to
    those before it, and stops at the first that fails. It throws exactly
    when one of them fails, be it failed by the service or, for get-ref,
    because the branch is missing; the refs are then exactly as they were
    found. When none fails all four are sent and the repository has gained
    one tree, which holds an entry for every input file and is layered on
    the commit the branch was at, and one commit, whose tree is that tree
    and whose only parent is that commit, and the branch points to it. *)
Theorem pushFiles_all_or_nothing (files : list GitHubFile) (g : GitHub) :
  let ref := "heads/" +:+ githubBranch config in
  let tree :=
    map (fun file =>
           TreeEntry.Build_t (GitHubFile.path file) "100644" "blob"
             (GitHubFile.content file)) files in
  let message :=
    "Update MDX files from Notion - " +:+ toISOString Date_now in
  let t := object_name (created g) in
  let c := object_name (S (created g)) in
  let steps base :=
    [GetRef ref; CreateTree tree base; CreateCommit message t [base];
     UpdateRef ref c] in
  match pushFiles config files g with
  | (inl _, g') =>
      exists base,
        refs g !! ref = Some base /\
        (forall k, k < 4 -> fails_at g k = false) /\
        log g' = log g ++ steps base /\
        trees g' = <[t := (tree, base)]> (trees g) /\
        commits g' = <[c := Commit.Build_t message t [base]]> (commits g) /\
        refs g' = <[ref := c]> (refs g)
  | (inr e, g') =>
      e = PlainError "Failed to push files to GitHub" /\
      refs g' = refs g /\
      exists n base,
        1 <= n <= 4 /\
        (forall k, k < n - 1 -> fails_at g k = false) /\
        (fails_at g (n - 1) = true \/ n = 1 /\ refs g !! ref = None) /\
        (n = 1 \/ refs g !! ref = Some base) /\
        log g' = log g ++ take n (steps base)
  end.
Proof.
  intros ref tree message t c steps. unfold fails_at. run_requests.
  fold ref tree message. subst t c steps. cbv beta.
  clearbody ref tree message.
  assert (Hk : forall (P : nat -> Prop) n,
             (forall k, k < n -> P k) <->
             match n with
             | 0 => True
             | 1 => P 0
             | 2 => P 0 /\ P 1
             | 3 => P 0 /\ P 1 /\ P 2
             | 4 => P 0 /\ P 1 /\ P 2 /\ P 3
             | _ => forall k, k < n -> P k
             end).
  { intros P n. do 5 (destruct n as [|n]; [split;
      [intros HP; repeat split; apply HP; lia
      |intros HP k Hlt;
       repeat (destruct k as [|k]; [tauto|]); lia]|]).
    reflexivity. }
  destruct (refs g !! ref) as [base|] eqn:Hb.
  2:{ destruct (faults g) as [|[st|] fs];
        cbn -[object_name String.append]; rewrite ?Hb;
        (split; [reflexivity|]); (split; [reflexivity|]);
        exists 1, ""; (split; [lia|]); (split; [intros k Hlt; lia|]);
        (split; [auto|]); (split; [auto|reflexivity]). }
  destruct (faults g) as [|[s1|] [|[s2|] [|[s3|] [|[s4|] fs]]]];
    cbn -[object_name String.append]; rewrite ?Hb;
    cbn -[object_name String.append]; rewrite ?Hb;
    cbn -[object_name String.append].
  all: try (exists base; split; [reflexivity|]; split;
            [apply (Hk (fun k => _ = false) 4); cbn; auto|];
            rewrite <- ?app_assoc; repeat split; reflexivity).
  all: split; [reflexivity|]; split; [reflexivity|].
  all: first
    [ exists 1, base; split; [lia|]; split; [intros k Hlt; lia|];
      split; [left; reflexivity|]; split; [auto|];
      rewrite <- ?app_assoc; reflexivity
    | exists 2, base; split; [lia|]; split;
      [apply (Hk (fun k => _ = false) 1); reflexivity|];
      split; [left; reflexivity|]; split; [auto|];
      rewrite <- ?app_assoc; reflexivity
    | exists 3, base; split; [lia|]; split;
      [apply (Hk (fun k => _ = false) 2); cbn; auto|];
      split; [left; reflexivity|]; split; [auto|];
      rewrite <- ?app_assoc; reflexivity
    | exists 4, base; split; [lia|]; split;
      [apply (Hk (fun k => _ = false) 3); cbn; auto|];
      split; [left; reflexivity|]; split; [auto|];
      rewrite <- ?app_assoc; reflexivity ].
Qed.

(** A failure at the create-commit step: the tree has been created, no
    commit has, and the branch is where it was. *)
Lemma pushFiles_commit_failure (files : list GitHubFile) (g : GitHub)
    (base : string) (status : nat) (rest : list (option nat)) :
  faults g = None :: None :: Some status :: rest ->
  refs g !! ("heads/" +:+ githubBranch config) = Some base ->
  exists g' tree message,
    pushFiles config files g
      = (Throw (PlainError "Failed to push files to GitHub"), g') /\
    refs g' = refs g /\
    commits g' = commits g /\
    log g' = log g ++
      [GetRef ("heads/" +:+ githubBranch config); CreateTree tree base;
       CreateCommit message (object_name (created g)) [base]].
Proof.
  intros Hf Hb. run_requests. rewrite Hf.
  cbn -[object_name toISOString String.append]. rewrite Hb.
  cbn -[object_name toISOString String.append].
  do 3 eexists. split; [reflexivity|]. cbn. rewrite <- !app_assoc.
  repeat split; reflexivity.
Qed.





Lemma grows_try_catch {A} (m : M A) (h : Error -> M A) :
  grows m -> (forall e, grows (h e)) -> grows (try_catch m h).
Proof.
  intros Hm Hh g. unfold try_catch. destruct (Hm g) as [more Hg].
  destruct (m g) as [[a|e] g1]; cbn in *.
  - eauto.
  - destruct (Hh e g1) as [more' Hg']. exists (more ++ more').
    rewrite Hg', Hg, app_assoc. reflexivity.
Qed.







(** With no failure to come and the branch present, the push goes through. *)
Lemma pushFiles_succeeds (files : list GitHubFile) (g : GitHub) (base : string) :
  faults g = [] ->
  refs g !! ("heads/" +:+ githubBranch config) = Some base ->
  exists g' tree,
    pushFiles config files g = (Ok tt, g') /\
    CreateTree tree base ∈ log g' /\
    map TreeEntry.path tree = map GitHubFile.path files /\
    map TreeEntry.content tree = map GitHubFile.content files.
Proof.
  intros Hf Hb. run_requests. rewrite Hf.
  cbn -[object_name toISOString String.append]. rewrite Hb.
  cbn -[object_name toISOString String.append]. rewrite Hb.
  eexists. eexists. split; [reflexivity|]. cbn. split.
  - rewrite !elem_of_app, !list_elem_of_singleton. auto.
  - rewrite !map_map. split; reflexivity.
Qed.

Lemma validateRepository_true (g : GitHub) :
  faults g = [] ->
  accessible g = true ->
  exists g',
    validateRepository g = (Ok true, g') /\
    faults g' = [] /\ refs g' = refs g.
Proof.
  intros Hf Ha. run_requests. rewrite Hf. cbn. rewrite Ha.
  eexists. split; [reflexivity|]. split; reflexivity.
Qed.

(** A path with nothing at it: the lookup answers 404, and the write is
    sent without a sha. *)
Lemma createOrUpdateFile_creates (filePath content message : string)
    (g : GitHub) :
  faults g = [] ->
  contents g !! (githubBranch config, filePath) = None ->
  exists g',
    createOrUpdateFile config filePath content message g = (Ok tt, g') /\
    log g' = log g ++
      [GetContent filePath (githubBranch config);
       CreateOrUpdateFileContents filePath message content None
         (githubBranch config)].
Proof.
  intros Hf Hc. run_requests. rewrite Hf. cbn -[object_name String.append].
  rewrite Hc. cbn -[object_name String.append]. rewrite Hc.
  eexists. split; [reflexivity|]. cbn. rewrite <- app_assoc. reflexivity.
Qed.

(** A file with some text in it: its sha is fetched by a second lookup and
    sent with the write. *)
Lemma createOrUpdateFile_updates (filePath content message : string)
    (g : GitHub) (text sha : string) :
  faults g = [] ->
  contents g !! (githubBranch config, filePath) = Some (File text sha) ->
  text <> "" ->
  exists g',
    createOrUpdateFile config filePath content message g = (Ok tt, g') /\
    log g' = log g ++
      [GetContent filePath (githubBranch config);
       GetContent filePath (githubBranch config);
       CreateOrUpdateFileContents filePath message content (Some sha)
         (githubBranch config)].
Proof.
  intros Hf Hc Ht. run_requests. rewrite Hf. cbn -[object_name String.append].
  rewrite Hc. cbn -[object_name String.append].
  assert (Js.truthy text = true) as ->
    by (unfold Js.truthy; apply negb_true_iff, String.eqb_neq, Ht).
  cbn -[object_name String.append]. rewrite Hc.
  cbn -[object_name String.append]. rewrite Hc, String.eqb_refl.
  eexists. split; [reflexivity|]. cbn. rewrite <- !app_assoc. reflexivity.
Qed.

(** A lookup that fails with another status than 404 ends the call: no
    write is sent. *)
Lemma createOrUpdateFile_lookup_failure (filePath content message : string)
    (g : GitHub) (status : nat) (rest : list (option nat)) :
  faults g = Some status :: rest ->
  status <> 404 ->
  exists g',
    createOrUpdateFile config filePath content message g
      = (Throw (PlainError ("Failed to create/update file: " +:+ filePath)),
         g') /\
    log g' = log g ++ [GetContent filePath (githubBranch config)] /\
    contents g' = contents g.
Proof.
  intros Hf Hs. run_requests. rewrite Hf. cbn -[object_name String.append].
  unfold status_is. cbn -[object_name String.append Nat.eqb].
  apply Nat.eqb_neq in Hs. rewrite Hs.
  eexists. split; [reflexivity|]. split; reflexivity.
Qed.

(** A file that exists and is empty: its text is falsy, so the code takes
    the branch for a new file and sends the write without the sha. *)
Lemma createOrUpdateFile_empty_file (filePath content message : string)
    (g : GitHub) (sha : string) :
  faults g = [] ->
  contents g !! (githubBranch config, filePath) = Some (File "" sha) ->
  exists g',
    createOrUpdateFile config filePath content message g
      = (Throw (PlainError ("Failed to create/update file: " +:+ filePath)),
         g') /\
    log g' = log g ++
      [GetContent filePath (githubBranch config);
       CreateOrUpdateFileContents filePath message content None
         (githubBranch config)] /\
    contents g' = contents g.
Proof.
  intros Hf Hc. run_requests. rewrite Hf. cbn -[object_name String.append].
  rewrite Hc. cbn -[object_name String.append]. rewrite Hc.
  eexists. split; [reflexivity|]. cbn. rewrite <- app_assoc.
  split; reflexivity.
Qed.

End GitHubFacts.

(** C8 at a file that exists and is empty. The file
    [content/posts/empty.mdx] is on the branch with blob sha [b0]; the
    write that [createOrUpdateFile] sends for it carries no sha, there is
    no second lookup, the service refuses the write and the file stays as
    it was. *)
Theorem createOrUpdateFile_empty_file_omits_sha :
  contents Sample.github !! ("main", "content/posts/empty.mdx")
    = Some (File "" "b0") /\
  exists g',
    @createOrUpdateFile Sample.config "content/posts/empty.mdx" "new text"
      "Update Empty from Notion" Sample.github
    = (Throw (PlainError
                "Failed to create/update file: content/posts/empty.mdx"),
       g') /\
    log g'
      = [GetContent "content/posts/empty.mdx" "main";
         CreateOrUpdateFileContents "content/posts/empty.mdx"
           "Update Empty from Notion" "new text" None "main"] /\
    contents g' = contents Sample.github.
Proof.
  assert (Hfile : contents Sample.github
                    !! (githubBranch Sample.config, "content/posts/empty.mdx")
                  = Some (File "" "b0")) by (vm_compute; reflexivity).
  split; [exact Hfile|].
  apply (createOrUpdateFile_empty_file Sample.config
           "content/posts/empty.mdx" "new text" "Update Empty from Notion"
           Sample.github "b0" eq_refl Hfile).
Qed.

(** * Facts about the document *)

Section DocumentFacts.
Context `{Runtime}.







(** [substring(0, n)] is a prefix, of [n] characters when there are as
    many. *)
Lemma substring0_prefix (n : nat) (s : string) :
  exists rest, s = Js.substring0 n s +:+ rest.
Proof.
  revert s. induction n as [|n IH]; intros [|c r]; simpl; eauto.
  destruct (IH r) as [rest Hr]. exists rest. rewrite <- Hr. reflexivity.
Qed.

Lemma substring0_length (n : nat) (s : string) :
  n <= String.length s -> String.length (Js.substring0 n s) = n.
Proof.
  revert s. induction n as [|n IH]; intros [|c r]; simpl; try lia.
  intros Hn. rewrite IH; lia.
Qed.



Lemma startsWith_append (sep b : string) :
  Js.startsWith sep (sep +:+ b) = true.
Proof.
  induction sep as [|c r IH]; simpl; [reflexivity|].
  rewrite Ascii.eqb_refl. exact IH.
Qed.

(** No occurrence of the separator starts before [split(sep)[0]] ends. *)
Lemma split_head_first (sep a b : string) :
  String.length (Js.split_head sep (a +:+ sep +:+ b)) <= String.length a.
Proof.
  induction a as [|c r IH].
  - simpl. destruct (sep +:+ b) eqn:E; simpl;
      [destruct (Js.startsWith sep ""); simpl; lia|].
    rewrite <- E, startsWith_append. simpl. lia.
  - change (String c r +:+ sep +:+ b) with (String c (r +:+ sep +:+ b)).
    cbn [Js.split_head]. destruct (Js.startsWith sep _); simpl; lia.
Qed.







End DocumentFacts.

(** * Facts about the sample runtime *)

Section SampleFacts.





End SampleFacts.


(** * Facts about the converter *)

Section ConverterFacts.
Context `{Runtime}.
Variable notion : Notion.
Variable config : ConversionConfig.

(** Pages with a readable timestamp all become files, in order, and leave
    no error. *)
Lemma convertPages_datable (pages : list NotionPage) :
  forallb datable pages = true ->
  forall files errors,
    convertPages config pages files errors
      = (files ++ map (fileOf config) pages, errors).
Proof.
  induction pages as [|page rest IH]; simpl; intros Hd files errors.
  - rewrite app_nil_r. reflexivity.
  - apply andb_prop in Hd as [Hp Hrest]. unfold datable in Hp.
    unfold fileOf at 1. unfold convertToMDX, Date_toISOString.
    destruct (Date_parse (NotionPage.lastEditedTime page)); [|discriminate].
    cbn [rbind Ok]. rewrite (IH Hrest), <- app_assoc. reflexivity.
Qed.

(** A page whose blocks cannot be fetched has the empty body. *)
Lemma getPageContent_unreadable (pageId : string) :
  children notion !! pageId = None -> getPageContent notion pageId = "".
Proof. intros Hc. unfold getPageContent. rewrite Hc. reflexivity. Qed.

(** C7, as the code has it. In a full-database sync of three pages with
    readable timestamps where the block fetch of the second fails, against
    a repository that answers every request, the result reports success,
    three files processed and no errors: the second page is not skipped, it
    is pushed under the path of its title with an empty body. *)
Theorem three_pages_one_unreadable (g : GitHub) (r1 r2 r3 : QueryResult)
    (p1 p2 p3 : Properties) (base : string) :
  databases notion !! notionDatabaseId config = Some [r1; r2; r3] ->
  page_properties r1 = Some p1 ->
  page_properties r2 = Some p2 ->
  page_properties r3 = Some p3 ->
  children notion !! page_id r2 = None ->
  forallb datable (collectPages notion [r1; r2; r3]) = true ->
  accessible g = true ->
  faults g = [] ->
  refs g !! ("heads/" +:+ githubBranch config) = Some base ->
  exists g' second tree,
    convertAndPush notion config g
      = (Ok {| success := true;
               message :=
                 "Successfully converted and pushed 3 pages to GitHub";
               filesProcessed := Some 3;
               errors := None |}, g') /\
    collectPages notion [r1; r2; r3] !! 1 = Some second /\
    NotionPage.title second = extractTitle p2 /\
    NotionPage.content second = "" /\
    CreateTree tree base ∈ log g' /\
    length tree = 3 /\
    map TreeEntry.path tree !! 1 = Some (filePathOf config (extractTitle p2)).
Proof.
  intros Hdb Hp1 Hp2 Hp3 Hc Hd Ha Hf Hb.
  destruct (validateRepository_true g Hf Ha) as (g1 & Hv & Hf1 & Hr1).
  remember (collectPages notion [r1; r2; r3]) as pages eqn:Hpages.
  assert (Hshape : exists a b c, pages = [a; b; c] /\
            NotionPage.title b = extractTitle p2 /\
            NotionPage.content b = "").
  { subst pages. cbn [collectPages]. rewrite Hp1, Hp2, Hp3.
    do 3 eexists. split; [reflexivity|]. split; [reflexivity|].
    apply getPageContent_unreadable, Hc. }
  destruct Hshape as (a & b & c & -> & Htitle & Hbody).
  rewrite <- Hr1 in Hb.
  destruct (pushFiles_succeeds config (map (fileOf config) [a; b; c]) g1 base
              Hf1 Hb) as (g' & tree & Hpush & Hlog & Hpaths & _).
  exists g', b, tree.
  split; [|split; [reflexivity|split; [exact Htitle|split; [exact Hbody|]]]].
  - unfold convertAndPush, try_catch, bind, lift, getPagesFromDatabase.
    rewrite Hv. cbn [negb]. rewrite Hdb, <- Hpages.
    cbn [length Nat.eqb Ok].
    rewrite (convertPages_datable [a; b; c] Hd). cbn [app].
    cbn [length map Nat.eqb negb]. cbn [map] in Hpush. rewrite Hpush.
    reflexivity.
  - split; [exact Hlog|].
    split.
    + rewrite <- (length_map TreeEntry.path), Hpaths, length_map. reflexivity.
    + rewrite Hpaths. cbn. rewrite Htitle. reflexivity.
Qed.




End ConverterFacts.

Lemma three_pages_one_unreadable_witness :
  exists g' second tree,
    @convertAndPush Sample.runtime Sample.notion Sample.config Sample.github
      = (Ok {| success := true;
               message :=
                 "Successfully converted and pushed 3 pages to GitHub";
               filesProcessed := Some 3;
               errors := None |}, g') /\
    @collectPages Sample.runtime Sample.notion
      [Sample.listed "p1" "First"; Sample.listed "p2" "Second";
       Sample.listed "p3" "Third"] !! 1 = Some second /\
    NotionPage.title second = extractTitle (Sample.titled "Second") /\
    NotionPage.content second = "" /\
    CreateTree tree "c0" ∈ log g' /\
    length tree = 3 /\
    map TreeEntry.path tree !! 1
      = Some (filePathOf Sample.config
                (extractTitle (Sample.titled "Second"))).
Proof.
  apply (@three_pages_one_unreadable Sample.runtime Sample.notion
           Sample.config Sample.github
           (Sample.listed "p1" "First") (Sample.listed "p2" "Second")
           (Sample.listed "p3" "Third")
           (Sample.titled "First") (Sample.titled "Second")
           (Sample.titled "Third") "c0");
    reflexivity.
Defined.

(** C7 fails as stated on the sample database, whose second page has
    blocks that cannot be fetched: three files are processed, not two, and
    no error is reported. *)
Lemma unreadable_page_is_not_skipped :
  children Sample.notion !! "p2" = None /\
  exists result,
    fst (@convertAndPush Sample.runtime Sample.notion Sample.config
           Sample.github) = Ok result /\
    success result = true /\
    filesProcessed result = Some 3 /\
    filesProcessed result <> Some 2 /\
    errors result = None.
Proof.
  split; [reflexivity|]. eexists. split; [vm_compute; reflexivity|].
  cbn. repeat split; congruence.
Qed.



(** * Further facts: the filename derivation *)

Section MoreSlugFacts.

Ltac by_units c :=
  destruct c as [[] [] [] [] [] [] [] []]; vm_compute; congruence.

Lemma lower_unit_idempotent (c : ascii) :
  Js.lower_unit (Js.lower_unit c) = Js.lower_unit c.
Proof. by_units c. Qed.

Lemma map_units_append (f : ascii -> ascii) (a b : string) :
  Js.map_units f (a +:+ b) = Js.map_units f a +:+ Js.map_units f b.
Proof. induction a as [|c r IH]; simpl; [|rewrite IH]; reflexivity. Qed.

Lemma filter_units_append (P : ascii -> bool) (a b : string) :
  Js.filter_units P (a +:+ b) = Js.filter_units P a +:+ Js.filter_units P b.
Proof.
  induction a as [|c r IH]; simpl; [reflexivity|].
  rewrite IH. destruct (P c); reflexivity.
Qed.

Lemma length_map_units (f : ascii -> ascii) (s : string) :
  String.length (Js.map_units f s) = String.length s.
Proof. induction s as [|c r IH]; simpl; [|rewrite IH]; reflexivity. Qed.

Lemma length_filter_units (P : ascii -> bool) (s : string) :
  String.length (Js.filter_units P s) <= String.length s.
Proof.
  induction s as [|c r IH]; simpl; [lia|]. destruct (P c); simpl; lia.
Qed.

Lemma length_replace_runs (X : ascii -> bool) (rep : ascii) (s : string)
    (b : bool) :
  String.length (Js.replace_runs X rep b s) <= String.length s.
Proof.
  revert b. induction s as [|c r IH]; intros b; simpl; [lia|].
  pose proof (IH true). pose proof (IH false).
  destruct (X c); [destruct b|]; simpl; lia.
Qed.

(** X1. Every derived filename is made of lower-case letters, digits and
    hyphens, has no two hyphens side by side, and is no longer than the
    title it is derived from. *)
Theorem generateFileName_shape (title : string) :
  Js.all_units slug_unit (generateFileName title) = true /\
  Js.run_free Js.is_hyphen false (generateFileName title) = true /\
  String.length (generateFileName title) <= String.length title.
Proof.
  rewrite generateFileName_trim_idle.
  split; [apply hyphenated_units|]. split; [apply hyphenated_run_free|].
  unfold hyphenated, Js.toLowerCase.
  pose proof (length_replace_runs Js.is_hyphen "-"
                (Js.replace_runs Js.is_space "-" false
                   (Js.filter_units slug_keep
                      (Js.map_units Js.lower_unit title))) false).
  pose proof (length_replace_runs Js.is_space "-"
                (Js.filter_units slug_keep
                   (Js.map_units Js.lower_unit title)) false).
  pose proof (length_filter_units slug_keep
                (Js.map_units Js.lower_unit title)).
  pose proof (length_map_units Js.lower_unit title).
  lia.
Qed.

(** X2. The derivation does not see the case of the title: a title and
    its lower-case form get the same filename, and so the same path. *)
Theorem generateFileName_ignores_case (title : string) :
  generateFileName (Js.toLowerCase title) = generateFileName title /\
  forall config,
    filePathOf config (Js.toLowerCase title) = filePathOf config title.
Proof.
  assert (Hname : generateFileName (Js.toLowerCase title)
                  = generateFileName title).
  { unfold generateFileName. f_equal. f_equal. f_equal. f_equal.
    unfold Js.toLowerCase.
    induction title as [|c r IH]; simpl;
      [|rewrite lower_unit_idempotent, IH]; reflexivity. }
  split; [exact Hname|]. intros config. unfold filePathOf.
  rewrite Hname. reflexivity.
Qed.

(** X3. A character that the derivation strips (one that is not a letter,
    digit, white space or hyphen once lowercased) makes no difference
    wherever it stands: titles that differ by such a character collide on
    one filename. *)
Theorem generateFileName_ignores_stripped (a b : string) (c : ascii) :
  stripped c = true ->
  generateFileName (a +:+ String c b) = generateFileName (a +:+ b).
Proof.
  intros Hc. unfold stripped in Hc. apply negb_true_iff in Hc.
  unfold generateFileName, Js.toLowerCase. do 3 f_equal.
  rewrite !map_units_append, !filter_units_append. simpl. rewrite Hc.
  reflexivity.
Qed.

Lemma generateFileName_ignores_stripped_witness :
  generateFileName ("Hello" +:+ String "!" " World")
    = generateFileName ("Hello" +:+ " World").
Proof.
  apply (generateFileName_ignores_stripped "Hello" " World" "!").
  reflexivity.
Defined.

End MoreSlugFacts.

(** * Further facts: the Notion service *)

Section MoreNotionFacts.
Context `{Runtime}.
Variable notion : Notion.

Lemma convertBlocksFrom_acc (blocks : list Block) (markdown : string) :
  convertBlocksFrom markdown blocks
    = match convertBlocksFrom "" blocks with
      | inl s => inl (markdown +:+ s)
      | inr e => inr e
      end.
Proof.
  revert markdown. induction blocks as [|block rest IH]; intros markdown.
  - simpl. rewrite append_nil_r. reflexivity.
  - cbn [convertBlocksFrom]. destruct (convertBlockToMarkdown block) as [s|e].
    + cbn [rbind]. rewrite (IH (markdown +:+ s)), (IH ("" +:+ s)).
      destruct (convertBlocksFrom "" rest); [|reflexivity].
      simpl. rewrite append_assoc. reflexivity.
    + reflexivity.
Qed.

Lemma convertBlocksFrom_app (a b : list Block) (markdown : string) :
  convertBlocksFrom markdown (a ++ b)
    = match convertBlocksFrom markdown a with
      | inl m => convertBlocksFrom m b
      | inr e => inr e
      end.
Proof.
  revert markdown. induction a as [|block rest IH]; intros markdown.
  - reflexivity.
  - cbn [app convertBlocksFrom].
    destruct (convertBlockToMarkdown block) as [s|e]; [apply IH|reflexivity].
Qed.

(** X4. Rendering distributes over concatenation of block lists: when two
    lists render, their concatenation renders to the concatenation of the
    two texts. *)
Theorem convertBlocksToMarkdown_app (a b : list Block) (x y : string) :
  convertBlocksToMarkdown a = Ok x ->
  convertBlocksToMarkdown b = Ok y ->
  convertBlocksToMarkdown (a ++ b) = Ok (x +:+ y).
Proof.
  unfold convertBlocksToMarkdown. intros Ha Hb.
  rewrite convertBlocksFrom_app, Ha. unfold Ok. cbv iota beta.
  rewrite convertBlocksFrom_acc, Hb. reflexivity.
Qed.

Lemma convertBlocksToMarkdown_app_witness :
  convertBlocksToMarkdown ([Sample.paragraph "one"] ++ [Sample.divider])
    = Ok (("one" +:+ Js.blank)
            +:+ (String Js.LF "---" +:+ Js.blank +:+ Js.blank)).
Proof.
  apply (convertBlocksToMarkdown_app [Sample.paragraph "one"]
           [Sample.divider]); reflexivity.
Defined.

Lemma convertBlocksFrom_raises (blocks : list Block) (bad : Block)
    (e : Error) :
  In bad blocks ->
  blockContent bad = Throw e ->
  forall markdown, exists e', convertBlocksFrom markdown blocks = Throw e'.
Proof.
  intros Hin Hbad. induction blocks as [|block rest IH]; [destruct Hin|].
  intros markdown. cbn [convertBlocksFrom].
  destruct (convertBlockToMarkdown block) as [s|e'] eqn:Hb.
  - destruct Hin as [->|Hin].
    + unfold convertBlockToMarkdown in Hb. rewrite Hbad in Hb. discriminate.
    + apply (IH Hin).
  - eexists. reflexivity.
Qed.

(** X5. One block that makes rendering raise blanks the whole page: the
    content fetched for the page is the empty text, whatever its other
    blocks hold, and no error is reported. *)
Theorem getPageContent_blank_on_raise (pageId : string)
    (blocks : list Block) (bad : Block) (e : Error) :
  children notion !! pageId = Some blocks ->
  In bad blocks ->
  blockContent bad = Throw e ->
  getPageContent notion pageId = "".
Proof.
  intros Hc Hin Hbad. unfold getPageContent, convertBlocksToMarkdown.
  rewrite Hc. destruct (convertBlocksFrom_raises blocks bad e Hin Hbad "")
    as [e' ->]. reflexivity.
Qed.

(** X6. The title of a page is the text of the first run of the first
    property that is a title with at least one run; later runs and later
    title properties are not read, and without such a property the title
    is [Untitled]. *)
Theorem extractTitle_first_title (pre : Properties) :
  Forall (fun kv => titled_by (snd kv) = None) pre ->
  extractTitle pre = "Untitled" /\
  forall k v t post,
    titled_by v = Some t -> extractTitle (pre ++ (k, v) :: post) = t.
Proof.
  unfold titled_by. induction 1 as [|[k0 v0] pre Hv0 Hpre IH]; simpl.
  - split; [reflexivity|]. intros k v t post Hv.
    destruct (Property.type v) as [ty|]; [|discriminate].
    destruct (Property.title v) as [[|first runs]|]; try discriminate.
    destruct (String.eqb ty "title"); congruence.
  - simpl in Hv0. destruct IH as [IH1 IH2].
    destruct (Property.type v0) as [ty|]; [|split; [exact IH1|exact IH2]].
    destruct (Property.title v0) as [[|first runs]|];
      try (split; [exact IH1|exact IH2]).
    destruct (String.eqb ty "title"); [discriminate|].
    split; [exact IH1|exact IH2].
Qed.

End MoreNotionFacts.

Lemma getPageContent_blank_on_raise_witness :
  getPageContent Fixture.broken "p1" = "".
Proof.
  apply (getPageContent_blank_on_raise Fixture.broken "p1"
           [Sample.paragraph "one"; Sample.hollow_paragraph;
            Sample.paragraph "three"]
           Sample.hollow_paragraph
           (TypeError
              "Cannot read properties of undefined (reading 'rich_text')")).
  - vm_compute. reflexivity.
  - simpl. auto.
  - reflexivity.
Defined.

Lemma extractTitle_first_title_witness :
  extractTitle [("Tags", Property.Build_t (Some "multi_select") None)]
    = "Untitled" /\
  forall k v t post,
    titled_by v = Some t ->
    extractTitle
      ([("Tags", Property.Build_t (Some "multi_select") None)]
         ++ (k, v) :: post) = t.
Proof.
  apply (extractTitle_first_title
           [("Tags", Property.Build_t (Some "multi_select") None)]).
  repeat constructor.
Defined.

(** * Further facts: pages and their summary *)

Section MorePageFacts.
Context `{Runtime}.
Variable notion : Notion.

(** X7. Once the database query has answered, listing the pages succeeds
    whatever the block fetches do: there is one page for every result that
    has properties, in the order of the results and under its id, titled
    by its properties, and results without properties are skipped. *)
Theorem getPagesFromDatabase_lists (databaseId : string)
    (results : list QueryResult) :
  databases notion !! databaseId = Some results ->
  exists pages,
    getPagesFromDatabase notion databaseId = Ok pages /\
    map NotionPage.id pages
      = map page_id
          (filter (fun r => is_Some (page_properties r)) results) /\
    map (fun page => Some (NotionPage.properties page)) pages
      = map page_properties
          (filter (fun r => is_Some (page_properties r)) results) /\
    Forall (fun page =>
              NotionPage.title page
                = extractTitle (NotionPage.properties page) /\
              NotionPage.content page
                = getPageContent notion (NotionPage.id page)) pages.
Proof.
  intros Hdb. exists (collectPages notion results).
  unfold getPagesFromDatabase. rewrite Hdb. split; [reflexivity|]. clear Hdb.
  induction results as [|r rest (IH1 & IH2 & IH3)];
    [split; [reflexivity|split; [reflexivity|constructor]]|].
  cbn [collectPages]. destruct (page_properties r) as [properties|] eqn:Hp.
  - rewrite filter_cons_True by (rewrite Hp; eauto).
    cbn [map NotionPage.id NotionPage.properties]. rewrite IH1, IH2, Hp.
    repeat split. constructor; [split; reflexivity|exact IH3].
  - rewrite filter_cons_False by (rewrite Hp; intros [? ?]; discriminate).
    repeat split; assumption.
Qed.

Lemma split_head_line (c rest : string) :
  Js.all_units (fun x => negb (Ascii.eqb Js.LF x)) c = true ->
  Js.split_head Js.blank (c +:+ Js.blank +:+ rest) = c.
Proof.
  induction c as [|x r IH]; [reflexivity|].
  cbn [Js.all_units]. intros [Hx Hr]%andb_prop. apply negb_true_iff in Hx.
  change (String x r +:+ Js.blank +:+ rest)
    with (String x (r +:+ Js.blank +:+ rest)).
  cbn [Js.split_head]. unfold Js.blank at 1. cbn [Js.startsWith].
  rewrite Hx. cbn [andb]. rewrite (IH Hr). reflexivity.
Qed.

(** X8. When the first block of a page renders to a single line of at most
    150 characters, that line, with its markup, is the summary of the
    page. *)
Theorem summary_is_first_block (block : Block) (rest : list Block)
    (c body : string) :
  blockContent block = Ok c ->
  Js.all_units (fun x => negb (Ascii.eqb Js.LF x)) c = true ->
  c <> "" ->
  String.length c <= 150 ->
  convertBlocksToMarkdown (block :: rest) = Ok body ->
  summarize body = c.
Proof.
  intros Hc Hline Hne Hlen. unfold convertBlocksToMarkdown.
  cbn [convertBlocksFrom]. unfold convertBlockToMarkdown. rewrite Hc.
  cbn [rbind Ok]. rewrite convertBlocksFrom_acc.
  destruct (convertBlocksFrom "" rest) as [t|e]; [|discriminate].
  intros [= <-]. unfold summarize.
  change ("" +:+ c +:+ Js.blank) with (c +:+ Js.blank).
  rewrite append_assoc, (split_head_line c t Hline).
  assert ((150 <? String.length c) = false) as -> by (apply Nat.ltb_ge; lia).
  unfold Js.truthy. apply String.eqb_neq in Hne. rewrite Hne. reflexivity.
Qed.

Lemma summary_is_first_block_witness :
  summarize
    ("# Release notes" +:+ Js.blank +:+ ("Body text." +:+ Js.blank))
    = "# Release notes".
Proof.
  apply (summary_is_first_block
           {| type := "heading_1";
              payload :=
                Some (Sample.text_payload [Sample.plain "Release notes"]) |}
           [Sample.paragraph "Body text."]);
    [reflexivity | reflexivity | discriminate | cbn; lia | reflexivity].
Defined.

(** X9. A summary is never empty and never longer than 153 characters. *)
Theorem summarize_bounded (content : string) :
  summarize content <> "" /\ String.length (summarize content) <= 153.
Proof.
  unfold summarize. set (first := Js.split_head Js.blank content).
  destruct (150 <? String.length first) eqn:Hlong.
  - apply Nat.ltb_lt in Hlong. split.
    + destruct first as [|x r]; [simpl in Hlong; lia|]. discriminate.
    + rewrite length_append, substring0_length by lia. simpl. lia.
  - apply Nat.ltb_ge in Hlong. unfold Js.truthy.
    destruct (String.eqb_spec first "") as [_|Hne]; simpl.
    + split; [discriminate|lia].
    + split; [exact Hne|lia].
Qed.

End MorePageFacts.

Lemma getPagesFromDatabase_lists_witness :
  exists pages,
    @getPagesFromDatabase Sample.runtime Sample.notion "db" = Ok pages /\
    map NotionPage.id pages = ["p1"; "p2"; "p3"].
Proof.
  destruct (@getPagesFromDatabase_lists Sample.runtime Sample.notion "db"
              [Sample.listed "p1" "First"; Sample.listed "p2" "Second";
               Sample.listed "p3" "Third"])
    as (pages & Hok & Hids & _).
  - vm_compute. reflexivity.
  - exists pages. split; [exact Hok|]. rewrite Hids. reflexivity.
Defined.

(** * Further facts: the hosting-service code *)

Section MoreGitHubFacts.
Variable config : ConversionConfig.

Lemma request_run {A} (r : Request) (serve : GitHub -> Result A * GitHub)
    (g : GitHub) :
  Octokit.request r serve g
    = match fault_of g with
      | Some status => (Throw (RequestError status), received r g)
      | None => serve (received r g)
      end.
Proof.
  unfold Octokit.request, fault_of, received.
  destruct (faults g) as [|[status|] rest]; reflexivity.
Qed.

Lemma getContent_run (path ref : string) (g : GitHub) :
  Octokit.getContent path ref g
    = (match fault_of g with
       | Some status => Throw (RequestError status)
       | None =>
           match contents g !! (ref, path) with
           | Some e => Ok e
           | None => Throw (RequestError 404)
           end
       end, received (GetContent path ref) g).
Proof.
  unfold Octokit.getContent. rewrite request_run.
  destruct (fault_of g); [reflexivity|]. cbn [contents received].
  destruct (contents g !! (ref, path)); reflexivity.
Qed.

(** X10. [checkFileExists] answers [true] when something is at the path,
    be it a file, an empty file or a directory, and [false] when the lookup
    answers 404; any other failure of the lookup is thrown on as it is. It
    sends one request and changes nothing in the repository. *)
Theorem checkFileExists_answers (filePath : string) (g : GitHub) :
  checkFileExists config filePath g
    = (match fault_of g with
       | Some status =>
           if status =? 404 then Ok false else Throw (RequestError status)
       | None =>
           Ok (bool_decide (is_Some
                 (contents g !! (githubBranch config, filePath))))
       end, received (GetContent filePath (githubBranch config)) g).
Proof.
  unfold checkFileExists, try_catch, bind, ret, throw.
  rewrite getContent_run. destruct (fault_of g) as [status|].
  - unfold status_is. cbn -[Nat.eqb received Js.of_nat].
    destruct (status =? 404); reflexivity.
  - destruct (contents g !! (githubBranch config, filePath)); reflexivity.
Qed.

(** X11. [getFileContent] gives the text of a file, and [null] for a
    directory and for a lookup that answers 404; any other failure of the
    lookup is thrown on as it is. It sends one request and changes nothing
    in the repository. *)
Theorem getFileContent_answers (filePath : string) (g : GitHub) :
  getFileContent config filePath g
    = (match fault_of g with
       | Some status =>
           if status =? 404 then Ok None else Throw (RequestError status)
       | None =>
           match contents g !! (githubBranch config, filePath) with
           | Some (File text _) => Ok (Some text)
           | Some Dir => Ok None
           | None => Ok None
           end
       end, received (GetContent filePath (githubBranch config)) g).
Proof.
  unfold getFileContent, try_catch, bind, ret, throw.
  rewrite getContent_run. destruct (fault_of g) as [status|].
  - unfold status_is. cbn -[Nat.eqb received Js.of_nat].
    destruct (status =? 404); reflexivity.
  - destruct (contents g !! (githubBranch config, filePath)) as [[text sha|]|];
      reflexivity.
Qed.

End MoreGitHubFacts.

(** * Further facts: what the hosting-service code sends *)

Section Frames.
Context `{Runtime}.
Variable config : ConversionConfig.

Ltac run_file :=
  unfold createOrUpdateFile, getFileContent, getFileSha, try_catch, bind,
    ret, throw, Octokit.getContent, Octokit.createOrUpdateFileContents,
    Octokit.request;
  cbn -[object_name String.append].

(** [createOrUpdateFile] sends at most three requests, all of them to
    the contents interface. *)
Lemma createOrUpdateFile_contents_only (filePath content message : string)
    (g : GitHub) :
  exists sent,
    log (snd (createOrUpdateFile config filePath content message g))
      = log g ++ sent /\
    forallb contents_request sent = true /\
    length sent <= 3.
Proof.
  run_file.
  destruct (faults g) as [|[s1|] [|[s2|] [|[s3|] fs]]];
    cbn -[object_name String.append];
    try destruct (s1 =? 404);
    cbn -[object_name String.append];
    destruct (contents g !! (githubBranch config, filePath))
      as [[text sha|]|] eqn:Hc;
    cbn -[object_name String.append];
    try destruct (Js.truthy text);
    cbn -[object_name String.append];
    repeat (progress (rewrite ?Hc, ?String.eqb_refl;
                      cbn -[object_name String.append]));
    rewrite <- ?app_assoc;
    (eexists; split; [reflexivity|]; split; [reflexivity|cbn; lia]).
Qed.


End Frames.

(** * Further facts: runs against a service that answers *)

Section MoreGitHubRuns.
Context `{Runtime}.
Variable config : ConversionConfig.

Ltac run :=
  unfold pushFiles, createOrUpdateFile, getFileContent, getFileSha,
    validateRepository, createTree, try_catch, bind, ret, throw,
    Octokit.getRef, Octokit.createTree, Octokit.createCommit,
    Octokit.updateRef, Octokit.getContent,
    Octokit.createOrUpdateFileContents, Octokit.get, Octokit.request;
  cbn -[object_name toISOString String.append].

(** X13. What [createOrUpdateFile] writes is what [getFileContent] reads
    back: on a service that answers, a write to a path that is free, or
    that holds a file with some text, succeeds, and a read of the path
    afterwards gives the text written. *)
Theorem write_then_read (filePath content message : string) (g : GitHub) :
  faults g = [] ->
  (contents g !! (githubBranch config, filePath) = None \/
   exists text sha,
     contents g !! (githubBranch config, filePath) = Some (File text sha) /\
     text <> "") ->
  exists g1 g2,
    createOrUpdateFile config filePath content message g = (Ok tt, g1) /\
    getFileContent config filePath g1 = (Ok (Some content), g2).
Proof.
  intros Hf [Hc|(text & sha & Hc & Ht)]; run; rewrite Hf;
    cbn -[object_name String.append]; rewrite Hc;
    cbn -[object_name String.append].
  - rewrite Hc. do 2 eexists. split; [reflexivity|].
    cbn -[object_name String.append]. rewrite lookup_insert_eq. reflexivity.
  - assert (Js.truthy text = true) as ->
      by (unfold Js.truthy; apply negb_true_iff, String.eqb_neq, Ht).
    cbn -[object_name String.append]. rewrite Hc.
    cbn -[object_name String.append]. rewrite Hc, String.eqb_refl.
    do 2 eexists. split; [reflexivity|].
    cbn -[object_name String.append]. rewrite lookup_insert_eq. reflexivity.
Qed.

(** A push against a service that answers, in full. *)
Lemma pushFiles_healthy (files : list GitHubFile) (g : GitHub)
    (base : string) :
  faults g = [] ->
  refs g !! ("heads/" +:+ githubBranch config) = Some base ->
  exists g1,
    pushFiles config files g = (Ok tt, g1) /\
    faults g1 = [] /\
    accessible g1 = accessible g /\
    contents g1 = contents g /\
    created g1 = S (S (created g)) /\
    refs g1
      = <["heads/" +:+ githubBranch config := object_name (S (created g))]>
          (refs g) /\
    commits g1
      = <[object_name (S (created g)) :=
            Commit.Build_t
              ("Update MDX files from Notion - " +:+ toISOString Date_now)
              (object_name (created g)) [base]]> (commits g) /\
    log g1 = log g ++
      [GetRef ("heads/" +:+ githubBranch config);
       CreateTree
         (map (fun file =>
                 TreeEntry.Build_t (GitHubFile.path file) "100644" "blob"
                   (GitHubFile.content file)) files) base;
       CreateCommit
         ("Update MDX files from Notion - " +:+ toISOString Date_now)
         (object_name (created g)) [base];
       UpdateRef ("heads/" +:+ githubBranch config)
         (object_name (S (created g)))].
Proof.
  intros Hf Hb. run. rewrite Hf. cbn -[object_name toISOString String.append].
  rewrite Hb. cbn -[object_name toISOString String.append]. rewrite Hb.
  eexists. split; [reflexivity|]. cbn -[object_name toISOString String.append].
  rewrite <- !app_assoc. repeat split; reflexivity.
Qed.

(** X14. Two pushes in a row build a line of history: on a service that
    answers, the commit of the first push is where the branch points when
    the second push starts, and is the only parent of the commit the branch
    points to when the second push is done. *)
Theorem pushFiles_twice (files1 files2 : list GitHubFile) (g : GitHub)
    (base : string) :
  faults g = [] ->
  refs g !! ("heads/" +:+ githubBranch config) = Some base ->
  exists g1 g2 c1 c2 message tree,
    pushFiles config files1 g = (Ok tt, g1) /\
    pushFiles config files2 g1 = (Ok tt, g2) /\
    refs g1 !! ("heads/" +:+ githubBranch config) = Some c1 /\
    is_Some (commits g1 !! c1) /\
    refs g2 !! ("heads/" +:+ githubBranch config) = Some c2 /\
    commits g2 !! c2 = Some (Commit.Build_t message tree [c1]).
Proof.
  intros Hf Hb.
  destruct (pushFiles_healthy files1 g base Hf Hb)
    as (g1 & Hrun1 & Hf1 & _ & _ & _ & Hrefs1 & Hcommits1 & _).
  assert (Hb1 : refs g1 !! ("heads/" +:+ githubBranch config)
                = Some (object_name (S (created g))))
    by (rewrite Hrefs1; apply lookup_insert_eq).
  destruct (pushFiles_healthy files2 g1 _ Hf1 Hb1)
    as (g2 & Hrun2 & _ & _ & _ & _ & Hrefs2 & Hcommits2 & _).
  exists g1, g2. do 4 eexists.
  split; [exact Hrun1|]. split; [exact Hrun2|]. split; [exact Hb1|].
  split; [rewrite Hcommits1, lookup_insert_eq; eauto|].
  split; [rewrite Hrefs2; apply lookup_insert_eq|].
  rewrite Hcommits2. apply lookup_insert_eq.
Qed.

Lemma pushFiles_missing_branch_run (files : list GitHubFile) (g : GitHub) :
  faults g = [] ->
  refs g !! ("heads/" +:+ githubBranch config) = None ->
  pushFiles config files g
    = (Throw (PlainError "Failed to push files to GitHub"),
       received (GetRef ("heads/" +:+ githubBranch config)) g).
Proof.
  intros Hf Hb. run. rewrite Hf. cbn -[object_name toISOString String.append].
  rewrite Hb. unfold received. rewrite Hf. reflexivity.
Qed.

(** X15. A push to a branch that does not exist stops at the first
    request: it throws, no tree and no commit is created, and nothing but
    the log of the service has changed. *)
Theorem pushFiles_missing_branch (files : list GitHubFile) (g : GitHub) :
  faults g = [] ->
  refs g !! ("heads/" +:+ githubBranch config) = None ->
  exists g',
    pushFiles config files g
      = (Throw (PlainError "Failed to push files to GitHub"), g') /\
    log g' = log g ++ [GetRef ("heads/" +:+ githubBranch config)] /\
    trees g' = trees g /\ commits g' = commits g /\ refs g' = refs g /\
    created g' = created g.
Proof.
  intros Hf Hb. rewrite (pushFiles_missing_branch_run files g Hf Hb).
  eexists. split; [reflexivity|]. repeat split; reflexivity.
Qed.

(** X16. A push whose last request fails leaves what it had built behind:
    the branch is where it was, and the repository holds a tree and a
    commit that it did not hold before and that no ref points to. This is
    so in a repository where the names of objects to come are in use
    nowhere. *)
Theorem pushFiles_dangling_objects (files : list GitHubFile) (g : GitHub)
    (base : string) (status : nat) (rest : list (option nat)) :
  faults g = None :: None :: None :: Some status :: rest ->
  refs g !! ("heads/" +:+ githubBranch config) = Some base ->
  pristine g ->
  let tree := object_name (created g) in
  let commit := object_name (S (created g)) in
  exists g' message,
    pushFiles config files g
      = (Throw (PlainError "Failed to push files to GitHub"), g') /\
    refs g' = refs g /\
    created g' = created g + 2 /\
    trees g !! tree = None /\
    is_Some (trees g' !! tree) /\
    commits g !! commit = None /\
    commits g' !! commit = Some (Commit.Build_t message tree [base]) /\
    forall ref, refs g' !! ref <> Some tree /\ refs g' !! ref <> Some commit.
Proof.
  intros Hf Hb Hp tree commit. subst tree commit.
  destruct (Hp (created g) (Nat.le_refl _)) as (Ht & _ & Hrt).
  destruct (Hp (S (created g)) (Nat.le_succ_diag_r _)) as (_ & Hc & Hrc).
  run. rewrite Hf. cbn -[object_name toISOString String.append].
  rewrite Hb. cbn -[object_name toISOString String.append].
  do 2 eexists. split; [reflexivity|]. cbn -[object_name String.append].
  split; [reflexivity|]. split; [lia|].
  rewrite !lookup_insert_eq. split; [exact Ht|]. split; [eauto|].
  split; [exact Hc|]. split; [reflexivity|].
  intros ref. split; [apply Hrt|apply Hrc].
Qed.

(** [validateRepository] never throws: it answers whether [repos.get]
    found the repository, turning every failure of that request into
    [false], and changes nothing in the repository. *)
Lemma validateRepository_run (g : GitHub) :
  validateRepository g = (Ok (repo_reachable g), received ReposGet g).
Proof.
  unfold validateRepository, try_catch, bind, ret, Octokit.get.
  rewrite request_run. unfold repo_reachable.
  destruct (fault_of g); [reflexivity|]. cbn [accessible received].
  destruct (accessible g); reflexivity.
Qed.

End MoreGitHubRuns.

Lemma write_then_read_witness :
  exists g1 g2,
    createOrUpdateFile Sample.config "content/posts/old.mdx" "new text"
      "Update Old from Notion" Sample.github = (Ok tt, g1) /\
    getFileContent Sample.config "content/posts/old.mdx" g1
      = (Ok (Some "new text"), g2).
Proof.
  apply (write_then_read Sample.config "content/posts/old.mdx" "new text"
           "Update Old from Notion" Sample.github eq_refl).
  right. exists "old", "b1". split; [vm_compute; reflexivity|discriminate].
Defined.

Lemma pushFiles_twice_witness :
  exists g1 g2 c1 c2 message tree,
    @pushFiles Sample.runtime Sample.config [] Sample.github = (Ok tt, g1) /\
    @pushFiles Sample.runtime Sample.config [] g1 = (Ok tt, g2) /\
    refs g1 !! ("heads/" +:+ githubBranch Sample.config) = Some c1 /\
    is_Some (commits g1 !! c1) /\
    refs g2 !! ("heads/" +:+ githubBranch Sample.config) = Some c2 /\
    commits g2 !! c2 = Some (Commit.Build_t message tree [c1]).
Proof.
  apply (@pushFiles_twice Sample.runtime Sample.config [] [] Sample.github
           "c0" eq_refl).
  vm_compute. reflexivity.
Defined.

Lemma pushFiles_missing_branch_witness :
  exists g',
    @pushFiles Sample.runtime Sample.config [] Fixture.branchless
      = (Throw (PlainError "Failed to push files to GitHub"), g') /\
    log g' = log Fixture.branchless
               ++ [GetRef ("heads/" +:+ githubBranch Sample.config)] /\
    trees g' = trees Fixture.branchless /\
    commits g' = commits Fixture.branchless /\
    refs g' = refs Fixture.branchless /\
    created g' = created Fixture.branchless.
Proof.
  apply (@pushFiles_missing_branch Sample.runtime Sample.config []
           Fixture.branchless eq_refl).
  vm_compute. reflexivity.
Defined.

Lemma pushFiles_dangling_objects_witness :
  exists g' message,
    @pushFiles Sample.runtime Sample.config [] Fixture.flaky
      = (Throw (PlainError "Failed to push files to GitHub"), g') /\
    refs g' = refs Fixture.flaky /\
    created g' = created Fixture.flaky + 2 /\
    trees Fixture.flaky !! object_name 0 = None /\
    is_Some (trees g' !! object_name 0) /\
    commits Fixture.flaky !! object_name 1 = None /\
    commits g' !! object_name 1
      = Some (Commit.Build_t message (object_name 0) ["c0"]) /\
    forall ref,
      refs g' !! ref <> Some (object_name 0) /\
      refs g' !! ref <> Some (object_name 1).
Proof.
  apply (@pushFiles_dangling_objects Sample.runtime Sample.config []
           Fixture.flaky "c0" 500 [] eq_refl).
  - vm_compute. reflexivity.
  - intros n _. split; [apply lookup_empty|]. split; [apply lookup_empty|].
    intros ref Href. unfold Fixture.flaky in Href. cbn [refs] in Href.
    apply lookup_singleton_Some in Href as [_ Href]. discriminate Href.
Defined.

(** * Further facts: the converter *)

Section MoreConverterFacts.
Context `{Runtime}.
Variable notion : Notion.
Variable config : ConversionConfig.

Lemma convertToMDX_datable (page : NotionPage) :
  datable page = true ->
  convertToMDX page None = inl (GitHubFile.content (fileOf config page)).
Proof.
  unfold datable, fileOf, convertToMDX, Date_toISOString.
  destruct (Date_parse (NotionPage.lastEditedTime page)); [|discriminate].
  reflexivity.
Qed.

Lemma convertToMDX_undatable (page : NotionPage)
    (frontMatter : option Object) :
  datable page = false ->
  convertToMDX page frontMatter = Throw (RangeError "Invalid time value").
Proof.
  unfold datable, convertToMDX, Date_toISOString.
  destruct (Date_parse (NotionPage.lastEditedTime page)); [discriminate|].
  reflexivity.
Qed.

Lemma convertPages_split (pages : list NotionPage) :
  forall files errors,
    convertPages config pages files errors
      = (files ++ map (fileOf config) (List.filter datable pages),
         errors
           ++ map conversionError
                (List.filter (fun page => negb (datable page)) pages)).
Proof.
  induction pages as [|page rest IH]; intros files errors.
  - cbn. rewrite !app_nil_r. reflexivity.
  - cbn [convertPages List.filter]. destruct (datable page) eqn:Hd.
    + rewrite (convertToMDX_datable page Hd). cbv iota beta.
      rewrite IH, <- app_assoc. reflexivity.
    + rewrite (convertToMDX_undatable page None Hd). unfold Throw.
      cbv iota beta. rewrite IH, <- app_assoc. reflexivity.
Qed.

Lemma filter_none_all {A} (f : A -> bool) (l : list A) :
  List.filter f l = [] -> List.filter (fun x => negb (f x)) l = l.
Proof.
  induction l as [|x r IH]; cbn; [reflexivity|].
  destruct (f x); [discriminate|]. intros Hr. cbn. rewrite (IH Hr).
  reflexivity.
Qed.

Lemma filter_split_length {A} (f : A -> bool) (l : list A) :
  length (List.filter f l) + length (List.filter (fun x => negb (f x)) l)
    = length l.
Proof.
  induction l as [|x r IH]; cbn; [reflexivity|].
  destruct (f x); cbn; lia.
Qed.

(** X17. The loop of the full sync gives every page exactly one outcome:
    the pages with a readable timestamp become files, in order, and each of
    the others leaves one error that names its title; files and errors
    together are as many as the pages, and what the loop was entered with
    is kept in front. *)
Theorem convertPages_accounts (pages : list NotionPage)
    (files : list GitHubFile) (errors : list string) :
  let result := convertPages config pages files errors in
  fst result = files ++ map (fileOf config) (List.filter datable pages) /\
  snd result
    = errors
        ++ map conversionError
             (List.filter (fun page => negb (datable page)) pages) /\
  length (fst result) + length (snd result)
    = length files + length errors + length pages.
Proof.
  cbn zeta. rewrite convertPages_split. cbn [fst snd].
  split; [reflexivity|]. split; [reflexivity|].
  rewrite !length_app, !length_map.
  pose proof (filter_split_length datable pages). lia.
Qed.

Lemma ensures_ret {A} (Q : A -> Prop) (a : A) : Q a -> ensures Q (ret a).
Proof. intros Ha g a' g' [= <- _]. exact Ha. Qed.

Lemma ensures_throw {A} (Q : A -> Prop) (e : Error) : ensures Q (throw e).
Proof. intros g a g' [=]. Qed.

Lemma ensures_bind {A B} (Q : B -> Prop) (m : M A) (k : A -> M B) :
  (forall a, ensures Q (k a)) -> ensures Q (bind m k).
Proof.
  intros Hk g b g'. unfold bind. destruct (m g) as [[a|e] g1].
  - apply Hk.
  - intros [=].
Qed.

Lemma ensures_try_catch {A} (Q : A -> Prop) (m : M A) (h : Error -> M A) :
  ensures Q m -> (forall e, ensures Q (h e)) -> ensures Q (try_catch m h).
Proof.
  intros Hm Hh g a g'. unfold try_catch.
  destruct (m g) as [[a1|e] g1] eqn:Hrun.
  - intros [= <- <-]. apply (Hm g a1 g1 Hrun).
  - apply Hh.
Qed.

Lemma returns_try_catch {A} (m : M A) (h : Error -> M A) :
  (forall e, returns (h e)) -> returns (try_catch m h).
Proof.
  intros Hh g. unfold try_catch. destruct (m g) as [[a|e] g1].
  - exists a. reflexivity.
  - apply Hh.
Qed.

Lemma returns_ret {A} (a : A) : returns (ret a).
Proof. intros g. exists a. reflexivity. Qed.

(** X18. A full sync never throws, whatever the two services do: it
    returns a result that either reports success with the number of files
    pushed, which is at least one, or reports failure with no count and at
    least one error. *)
Theorem convertAndPush_result (g : GitHub) :
  exists r g',
    convertAndPush notion config g = (Ok r, g') /\ well_shaped r.
Proof.
  assert (Hret : returns (convertAndPush notion config))
    by (apply returns_try_catch; intros e; apply returns_ret).
  destruct (Hret g) as [r Hr].
  destruct (convertAndPush notion config g) as [res g'] eqn:Hrun.
  cbn in Hr. subst res. exists r, g'. split; [reflexivity|].
  revert g r g' Hrun. change (ensures well_shaped (convertAndPush notion config)).
  unfold convertAndPush. apply ensures_try_catch.
  - apply ensures_bind. intros isValidRepo. destruct isValidRepo; cbn [negb].
    2:{ apply ensures_ret. right. cbn. eauto. }
    apply ensures_bind. intros pages.
    destruct (length pages =? 0) eqn:Hlen.
    { apply ensures_ret. right. cbn. eauto. }
    rewrite convertPages_split. cbn [app].
    destruct (List.filter datable pages) as [|page rest] eqn:Hfiles.
    + cbn [map length Nat.eqb]. apply ensures_ret. right. cbn.
      rewrite (filter_none_all datable pages Hfiles).
      destruct pages as [|p ps]; [discriminate|]. cbn. eauto.
    + cbn [map length Nat.eqb]. apply ensures_bind. intros _.
      apply ensures_ret. left. cbn. split; [reflexivity|].
      eexists. split; [reflexivity|]. lia.
  - intros e. apply ensures_ret. right. cbn. eauto.
Qed.

Ltac run_push :=
  unfold pushFiles, createTree, try_catch, bind, ret, throw,
    Octokit.getRef, Octokit.createTree, Octokit.createCommit,
    Octokit.updateRef, Octokit.request;
  cbn -[object_name toISOString String.append].

(** What a push does to the branch, whatever fails. *)
Lemma pushFiles_outcome (files : list GitHubFile) (g : GitHub) :
  match fst (pushFiles config files g) with
  | inl _ =>
      exists base message,
        refs g !! ("heads/" +:+ githubBranch config) = Some base /\
        commits (snd (pushFiles config files g))
          !! object_name (S (created g))
          = Some (Commit.Build_t message (object_name (created g)) [base]) /\
        refs (snd (pushFiles config files g))
          = <["heads/" +:+ githubBranch config :=
                object_name (S (created g))]> (refs g)
  | inr e =>
      e = PlainError "Failed to push files to GitHub" /\
      refs (snd (pushFiles config files g)) = refs g
  end.
Proof.
  run_push. set (ref := "heads/" +:+ githubBranch config).
  destruct (refs g !! ref) as [base|] eqn:Hb.
  2:{ destruct (faults g) as [|[st|] fs];
        cbn -[object_name String.append]; rewrite ?Hb; auto. }
  destruct (faults g) as [|[s1|] [|[s2|] [|[s3|] [|[s4|] fs]]]];
    cbn -[object_name String.append]; rewrite ?Hb;
    cbn -[object_name String.append]; rewrite ?Hb;
    cbn -[object_name String.append]; auto;
    do 2 eexists; (split; [reflexivity|]);
    rewrite lookup_insert_eq; split; reflexivity.
Qed.

(** X19. A full sync moves the branch exactly when it reports success:
    with a result of failure the refs are as they were found; with a
    result of success the branch, and no other ref, has moved, from the
    commit it was at to a commit that the repository did not hold before
    and whose only parent is the commit the branch was at. This is so in a
    repository where the names of objects to come are in use nowhere. *)
Theorem convertAndPush_moves_branch_on_success (g g' : GitHub)
    (r : ConversionResult) :
  convertAndPush notion config g = (Ok r, g') ->
  pristine g ->
  (success r = false -> refs g' = refs g) /\
  (success r = true ->
   exists base c message tree,
     refs g !! ("heads/" +:+ githubBranch config) = Some base /\
     c <> base /\
     commits g !! c = None /\
     commits g' !! c = Some (Commit.Build_t message tree [base]) /\
     refs g' = <["heads/" +:+ githubBranch config := c]> (refs g)).
Proof.
  unfold convertAndPush, try_catch, bind, lift.
  rewrite validateRepository_run.
  destruct (repo_reachable g); unfold Ok, Throw; cbn [negb].
  2:{ intros [= <- <-] _. cbn.
      split; [intros _; reflexivity|discriminate]. }
  destruct (getPagesFromDatabase notion (notionDatabaseId config))
    as [pages|e].
  2:{ intros [= <- <-] _. cbn.
      split; [intros _; reflexivity|discriminate]. }
  unfold Ok, Throw; cbn [negb]. destruct (length pages =? 0).
  { intros [= <- <-] _. cbn.
      split; [intros _; reflexivity|discriminate]. }
  destruct (convertPages config pages [] []) as [files errors].
  unfold Ok, Throw; cbn [negb]. destruct (length files =? 0).
  { intros [= <- <-] _. cbn.
      split; [intros _; reflexivity|discriminate]. }
  unfold Ok, Throw; cbn [negb].
  pose proof (pushFiles_outcome files (received ReposGet g)) as Hr.
  destruct (pushFiles config files (received ReposGet g)) as [[u|e] g2].
  - cbn in Hr. destruct Hr as (base & message & Hb & Hc & Hr).
    intros [= <- <-] Hp. cbn. split; [discriminate|]. intros _.
    destruct (Hp (S (created g)) (Nat.le_succ_diag_r _)) as (_ & Hnew & Hfree).
    exists base, (object_name (S (created g))), message,
      (object_name (created g)).
    split; [exact Hb|]. split; [intros Heq; apply (Hfree _ (eq_trans Hb (f_equal Some (eq_sym Heq))))|].
    split; [exact Hnew|]. split; [exact Hc|exact Hr].
  - cbn in Hr. destruct Hr as [_ Hr]. intros [= <- <-] _. cbn.
    split; [intros _; exact Hr|discriminate].
Qed.

(** X20. With nothing to push, a full sync sends the repository check and
    no other request: when the repository is not reachable, or the query
    fails, lists no page, or lists only pages whose timestamp cannot be
    read, the result is a failure and the service has received [repos.get]
    alone. *)
Theorem convertAndPush_nothing_to_push (g : GitHub) :
  repo_reachable g = false \/ convertible notion config = [] ->
  exists r,
    convertAndPush notion config g = (Ok r, received ReposGet g) /\
    success r = false /\
    filesProcessed r = None.
Proof.
  unfold convertible, convertAndPush, try_catch, bind, lift.
  rewrite validateRepository_run. intros Hnothing.
  destruct (repo_reachable g); unfold Ok, Throw; cbn [negb].
  2:{ eexists. split; [reflexivity|]. split; reflexivity. }
  destruct Hnothing as [Hr|Hnone]; [discriminate|].
  destruct (getPagesFromDatabase notion (notionDatabaseId config))
    as [pages|e].
  2:{ eexists. split; [reflexivity|]. split; reflexivity. }
  destruct (length pages =? 0).
  { eexists. split; [reflexivity|]. split; reflexivity. }
  rewrite convertPages_split, Hnone. cbn [app map length Nat.eqb].
  eexists. split; [reflexivity|]. split; reflexivity.
Qed.

(** X21. Partial success. Against a service that answers, with the branch
    in place and at least one page whose timestamp can be read, a full sync
    reports success, counts the pages with a readable timestamp, pushes
    their files in order in one tree, and lists one error for each of the
    other pages, or no error list when there is none. *)
Theorem convertAndPush_partial_success (g : GitHub) (base : string) :
  faults g = [] ->
  accessible g = true ->
  refs g !! ("heads/" +:+ githubBranch config) = Some base ->
  convertible notion config <> [] ->
  exists g' tree,
    convertAndPush notion config g
      = (Ok {| success := true;
               message :=
                 "Successfully converted and pushed "
                   +:+ Js.of_nat (length (convertible notion config))
                   +:+ " pages to GitHub";
               filesProcessed := Some (length (convertible notion config));
               errors :=
                 match inconvertible notion config with
                 | [] => None
                 | failed => Some (map conversionError failed)
                 end |}, g') /\
    CreateTree tree base ∈ log g' /\
    map TreeEntry.path tree
      = map (fun page => filePathOf config (NotionPage.title page))
          (convertible notion config) /\
    map TreeEntry.content tree
      = map (fun page => GitHubFile.content (fileOf config page))
          (convertible notion config).
Proof.
  intros Hf Ha Hb. unfold convertible, inconvertible.
  destruct (getPagesFromDatabase notion (notionDatabaseId config))
    as [pages|e] eqn:Hpages; [|congruence].
  intros Hsome.
  assert (Hreach : repo_reachable g = true)
    by (unfold repo_reachable, fault_of; rewrite Hf; exact Ha).
  assert (Hf1 : faults (received ReposGet g) = [])
    by (unfold received; cbn; rewrite Hf; reflexivity).
  destruct (pushFiles_healthy config
              (map (fileOf config) (List.filter datable pages))
              (received ReposGet g) base Hf1 Hb)
    as (g1 & Hrun & _ & _ & _ & _ & _ & _ & Hlog).
  exists g1. eexists.
  split; [|split; [rewrite Hlog, !elem_of_app; right;
                  rewrite !elem_of_cons; right; left; reflexivity|]].
  - unfold convertAndPush, try_catch, bind, lift.
    rewrite validateRepository_run, Hreach, Hpages. unfold Ok, Throw; cbn [negb].
    destruct (length pages =? 0) eqn:Hlen.
    { destruct pages; [contradiction Hsome; reflexivity|discriminate]. }
    rewrite convertPages_split. cbn [app].
    destruct (List.filter datable pages) as [|page rest] eqn:Hfiles;
      [contradiction Hsome; reflexivity|].
    rewrite <- Hfiles in *. rewrite length_map.
    assert ((length (List.filter datable pages) =? 0) = false) as ->
      by (rewrite Hfiles; reflexivity).
    rewrite Hrun. rewrite length_map.
    destruct (List.filter (fun page => negb (datable page)) pages);
      reflexivity.
  - rewrite !map_map. split; reflexivity.
Qed.

(** X22. When the push fails, the errors of the pages are lost: against a
    service that answers but has no such branch, a full sync with at least
    one convertible page reports the failure of the push as its only error,
    however many pages could not be converted, and sends two requests. *)
Theorem convertAndPush_push_failure (g : GitHub) :
  faults g = [] ->
  accessible g = true ->
  refs g !! ("heads/" +:+ githubBranch config) = None ->
  convertible notion config <> [] ->
  convertAndPush notion config g
    = (Ok {| success := false;
             message := "Conversion process failed";
             filesProcessed := None;
             errors := Some ["Failed to push files to GitHub"] |},
       received (GetRef ("heads/" +:+ githubBranch config))
         (received ReposGet g)).
Proof.
  intros Hf Ha Hb. unfold convertible.
  destruct (getPagesFromDatabase notion (notionDatabaseId config))
    as [pages|e] eqn:Hpages; [|congruence].
  intros Hsome.
  assert (Hreach : repo_reachable g = true)
    by (unfold repo_reachable, fault_of; rewrite Hf; exact Ha).
  assert (Hf1 : faults (received ReposGet g) = [])
    by (unfold received; cbn; rewrite Hf; reflexivity).
  unfold convertAndPush, try_catch, bind, lift.
  rewrite validateRepository_run, Hreach, Hpages. unfold Ok, Throw; cbn [negb].
  destruct (length pages =? 0) eqn:Hlen.
  { destruct pages; [contradiction Hsome; reflexivity|discriminate]. }
  rewrite convertPages_split. cbn [app].
  destruct (List.filter datable pages) as [|page rest] eqn:Hfiles;
    [contradiction Hsome; reflexivity|].
  cbn [map length Nat.eqb].
  rewrite (pushFiles_missing_branch_run config _ (received ReposGet g) Hf1 Hb).
  reflexivity.
Qed.

Ltac run_write :=
  unfold createOrUpdateFile, getFileContent, getFileSha, try_catch, bind,
    ret, throw, Octokit.getContent, Octokit.createOrUpdateFileContents,
    Octokit.request;
  cbn -[object_name String.append].

(** A write to a free path against a service that answers, in full. *)
Lemma createOrUpdateFile_creates_run (filePath content message : string)
    (g : GitHub) :
  faults g = [] ->
  contents g !! (githubBranch config, filePath) = None ->
  exists g',
    createOrUpdateFile config filePath content message g = (Ok tt, g') /\
    contents g'
      = <[(githubBranch config, filePath) :=
            File content (object_name (created g))]> (contents g) /\
    log g' = log g ++
      [GetContent filePath (githubBranch config);
       CreateOrUpdateFileContents filePath message content None
         (githubBranch config)].
Proof.
  intros Hf Hc. run_write. rewrite Hf. cbn -[object_name String.append].
  rewrite Hc. cbn -[object_name String.append]. rewrite Hc.
  eexists. split; [reflexivity|]. cbn -[object_name String.append].
  rewrite <- app_assoc. split; reflexivity.
Qed.

(** A single-page sync that has no page to write sends nothing. *)
Lemma convertSinglePage_idle (pageId : string) (g : GitHub) :
  match targetOf notion config pageId with
  | Some page => datable page = false
  | None => True
  end ->
  convertSinglePage notion config pageId g
    = (Ok {| success := false;
             message :=
               match getPagesFromDatabase notion (notionDatabaseId config),
                     targetOf notion config pageId with
               | inl _, None => "Page not found"
               | _, _ => "Single page conversion failed"
               end;
             filesProcessed := None;
             errors :=
               Some [match getPagesFromDatabase notion
                             (notionDatabaseId config),
                           targetOf notion config pageId with
                     | inr e, _ => err_message e
                     | inl _, None =>
                         "Page with ID " +:+ pageId
                           +:+ " not found in database"
                     | inl _, Some _ => "Invalid time value"
                     end] |}, g).
Proof.
  unfold targetOf, convertSinglePage, try_catch, bind, lift.
  destruct (getPagesFromDatabase notion (notionDatabaseId config))
    as [pages|e]; [|reflexivity].
  destruct (find _ pages) as [page|]; [|reflexivity].
  intros Hd. rewrite (convertToMDX_undatable page None Hd). reflexivity.
Qed.

(** X23. A single-page sync whose query fails, whose page id is not in the
    listing, or whose page has a timestamp that cannot be read reports
    failure with one error that says which, and sends no request to the
    repository, which is exactly as it was found. *)
Theorem convertSinglePage_sends_nothing (pageId : string) (g : GitHub) :
  match targetOf notion config pageId with
  | Some page => datable page = false
  | None => True
  end ->
  exists r,
    convertSinglePage notion config pageId g = (Ok r, g) /\
    success r = false /\
    filesProcessed r = None /\
    errors r
      = Some [match getPagesFromDatabase notion (notionDatabaseId config),
                    targetOf notion config pageId with
              | inr e, _ => err_message e
              | inl _, None =>
                  "Page with ID " +:+ pageId +:+ " not found in database"
              | inl _, Some _ => "Invalid time value"
              end].
Proof.
  intros Hidle. rewrite (convertSinglePage_idle pageId g Hidle).
  eexists. split; [reflexivity|]. repeat split; reflexivity.
Qed.

(** X24. A single-page sync never throws, whatever the two services do:
    it returns a result that reports success with the count one, or failure
    with exactly one error. Every request it sends, at most three, goes to
    the contents interface: it sends no request to the git data interface
    and no repository check. *)
Theorem convertSinglePage_result (pageId : string) (g : GitHub) :
  exists r g' sent,
    convertSinglePage notion config pageId g = (Ok r, g') /\
    single_shaped r /\
    log g' = log g ++ sent /\
    forallb contents_request sent = true /\
    length sent <= 3.
Proof.
  unfold convertSinglePage, try_catch, bind, lift, ret.
  destruct (getPagesFromDatabase notion (notionDatabaseId config))
    as [pages|e].
  2:{ do 2 eexists. exists []. split; [reflexivity|].
      split; [right; cbn; eauto|]. rewrite app_nil_r. cbn. auto with lia. }
  destruct (find _ pages) as [page|].
  2:{ do 2 eexists. exists []. split; [reflexivity|].
      split; [right; cbn; eauto|]. rewrite app_nil_r. cbn. auto with lia. }
  destruct (convertToMDX page None) as [mdx|e].
  2:{ do 2 eexists. exists []. split; [reflexivity|].
      split; [right; cbn; eauto|]. rewrite app_nil_r. cbn. auto with lia. }
  destruct (createOrUpdateFile_contents_only config
              (filePathOf config (NotionPage.title page)) mdx
              ("Update " +:+ NotionPage.title page +:+ " from Notion") g)
    as (sent & Hlog & Hsent & Hlen).
  destruct (createOrUpdateFile config _ mdx _ g) as [[u|e] g1];
    cbn [snd] in Hlog; do 2 eexists; exists sent;
    (split; [reflexivity|]); (split; [|auto]).
  - left. cbn. auto.
  - right. cbn. eauto.
Qed.

(** X25. A single-page sync puts the document of the page at the path of
    its title: against a service that answers, for a page that is listed,
    has a readable timestamp and whose path is free, the sync reports
    success with the count one, the file at the path then holds exactly
    what [convertToMDX] gives for the page, and two requests were sent, the
    lookup and the write without a sha. *)
Theorem convertSinglePage_writes_document (pageId : string) (g : GitHub)
    (page : NotionPage) :
  faults g = [] ->
  targetOf notion config pageId = Some page ->
  datable page = true ->
  contents g
    !! (githubBranch config, filePathOf config (NotionPage.title page))
    = None ->
  exists g' mdx sha,
    convertToMDX page None = Ok mdx /\
    convertSinglePage notion config pageId g
      = (Ok {| success := true;
               message :=
                 "Successfully converted and pushed " +:+ Js.quote
                   +:+ NotionPage.title page +:+ Js.quote +:+ " to GitHub";
               filesProcessed := Some 1;
               errors := None |}, g') /\
    contents g'
      !! (githubBranch config, filePathOf config (NotionPage.title page))
      = Some (File mdx sha) /\
    log g' = log g ++
      [GetContent (filePathOf config (NotionPage.title page))
         (githubBranch config);
       CreateOrUpdateFileContents
         (filePathOf config (NotionPage.title page))
         ("Update " +:+ NotionPage.title page +:+ " from Notion") mdx None
         (githubBranch config)].
Proof.
  intros Hf Ht Hd Hfree. unfold targetOf in Ht.
  destruct (getPagesFromDatabase notion (notionDatabaseId config))
    as [pages|e] eqn:Hpages; [|discriminate].
  destruct (createOrUpdateFile_creates_run
              (filePathOf config (NotionPage.title page))
              (GitHubFile.content (fileOf config page))
              ("Update " +:+ NotionPage.title page +:+ " from Notion")
              g Hf Hfree) as (g' & Hrun & Hcontents & Hlog).
  exists g', (GitHubFile.content (fileOf config page)). eexists.
  split; [apply (convertToMDX_datable page Hd)|].
  split; [|split; [rewrite Hcontents; apply lookup_insert_eq|exact Hlog]].
  unfold convertSinglePage, try_catch, bind, lift.
  rewrite Hpages. unfold Ok at 1. cbv beta iota. rewrite Ht.
  rewrite (convertToMDX_datable page Hd). cbv beta iota. rewrite Hrun.
  reflexivity.
Qed.

End MoreConverterFacts.

Lemma convertSinglePage_sends_nothing_witness :
  exists r,
    @convertSinglePage Sample.runtime Fixture.notion Sample.config "p2"
      Sample.github = (Ok r, Sample.github) /\
    success r = false /\
    filesProcessed r = None /\
    errors r = Some ["Invalid time value"].
Proof.
  apply (@convertSinglePage_sends_nothing Sample.runtime Fixture.notion
           Sample.config "p2" Sample.github).
  vm_compute. reflexivity.
Defined.

Lemma convertSinglePage_writes_document_witness :
  exists page g' mdx sha,
    @targetOf Sample.runtime Sample.notion Sample.config "p1" = Some page /\
    @convertToMDX Sample.runtime page None = Ok mdx /\
    fst (@convertSinglePage Sample.runtime Sample.notion Sample.config "p1"
           Sample.github)
      = Ok {| success := true;
              message :=
                "Successfully converted and pushed " +:+ Js.quote
                  +:+ "First" +:+ Js.quote +:+ " to GitHub";
              filesProcessed := Some 1;
              errors := None |} /\
    g' = snd (@convertSinglePage Sample.runtime Sample.notion Sample.config
                "p1" Sample.github) /\
    contents g' !! ("main", "content/posts/first.mdx") = Some (File mdx sha).
Proof.
  pose (page :=
    NotionPage.Build_t "p1" "First"
      ("one" +:+ String Js.LF (String Js.LF EmptyString))
      (Sample.titled "First") "2024-03-05T10:00:00Z"
      "https://notion.example/p1").
  destruct (@convertSinglePage_writes_document Sample.runtime Sample.notion
              Sample.config "p1" Sample.github page eq_refl)
    as (g' & mdx & sha & Hmdx & Hrun & Hfile & _).
  - vm_compute. reflexivity.
  - vm_compute. reflexivity.
  - vm_compute. reflexivity.
  - exists page, g', mdx, sha. rewrite Hrun.
    split; [vm_compute; reflexivity|]. split; [exact Hmdx|].
    split; [reflexivity|]. split; [reflexivity|]. exact Hfile.
Defined.

Lemma convertAndPush_moves_branch_on_success_witness :
  exists r g',
    @convertAndPush Sample.runtime Fixture.notion Sample.config
      Sample.github = (Ok r, g') /\
    (success r = false -> refs g' = refs Sample.github) /\
    (success r = true ->
     exists base c message tree,
       refs Sample.github !! ("heads/" +:+ githubBranch Sample.config)
         = Some base /\
       c <> base /\
       commits Sample.github !! c = None /\
       commits g' !! c = Some (Commit.Build_t message tree [base]) /\
       refs g'
         = <["heads/" +:+ githubBranch Sample.config := c]>
             (refs Sample.github)).
Proof.
  destruct (@convertAndPush Sample.runtime Fixture.notion Sample.config
              Sample.github) as [[r|e] g'] eqn:Hrun.
  - exists r, g'. split; [reflexivity|].
    apply (@convertAndPush_moves_branch_on_success Sample.runtime
             Fixture.notion Sample.config Sample.github g' r Hrun).
    intros n _. split; [apply lookup_empty|]. split; [apply lookup_empty|].
    intros ref Href. unfold Sample.github in Href. cbn [refs] in Href.
    apply lookup_singleton_Some in Href as [_ Href]. discriminate Href.
  - exfalso.
    assert (Hret : returns (@convertAndPush Sample.runtime Fixture.notion
                              Sample.config))
      by (apply returns_try_catch; intros e'; apply returns_ret).
    destruct (Hret Sample.github) as [a Ha]. rewrite Hrun in Ha.
    discriminate Ha.
Defined.

Lemma convertAndPush_nothing_to_push_witness :
  exists r,
    @convertAndPush Sample.runtime Sample.notion Sample.config
      Fixture.hidden = (Ok r, received ReposGet Fixture.hidden) /\
    success r = false /\
    filesProcessed r = None.
Proof.
  apply (@convertAndPush_nothing_to_push Sample.runtime Sample.notion
           Sample.config Fixture.hidden).
  left. reflexivity.
Defined.

Lemma convertAndPush_partial_success_witness :
  exists g' tree,
    @convertAndPush Sample.runtime Fixture.notion Sample.config
      Sample.github
      = (Ok {| success := true;
               message := "Successfully converted and pushed 2 pages to GitHub";
               filesProcessed := Some 2;
               errors :=
                 Some ["Failed to convert page " +:+ Js.quote +:+ "Second"
                         +:+ Js.quote
                         +:+ ": RangeError: Invalid time value"] |}, g') /\
    CreateTree tree "c0" ∈ log g' /\
    map TreeEntry.path tree
      = ["content/posts/first.mdx"; "content/posts/third.mdx"].
Proof.
  destruct (@convertAndPush_partial_success Sample.runtime Fixture.notion
              Sample.config Sample.github "c0" eq_refl eq_refl)
    as (g' & tree & Hrun & Hlog & Hpaths & _).
  - vm_compute. reflexivity.
  - vm_compute. discriminate.
  - exists g', tree. rewrite Hrun, Hpaths.
    split; [|split; [exact Hlog|vm_compute; reflexivity]].
    repeat f_equal; vm_compute; reflexivity.
Defined.

Lemma convertAndPush_push_failure_witness :
  @convertAndPush Sample.runtime Fixture.notion Sample.config
    Fixture.branchless
    = (Ok {| success := false;
             message := "Conversion process failed";
             filesProcessed := None;
             errors := Some ["Failed to push files to GitHub"] |},
       received (GetRef ("heads/" +:+ githubBranch Sample.config))
         (received ReposGet Fixture.branchless)).
Proof.
  apply (@convertAndPush_push_failure Sample.runtime Fixture.notion
           Sample.config Fixture.branchless eq_refl eq_refl).
  - vm_compute. reflexivity.
  - vm_compute. discriminate.
Defined.

(** * Facts about the configuration check *)

(** X26. [validateConfiguration] accepts a configuration exactly when each
    of its five fields is a non-empty string; it lists one error for each
    empty field and no other, so the configuration is valid exactly when
    the list is empty. *)
Theorem validateConfiguration_counts (config : ConversionConfig) :
  let fields :=
    [notionDatabaseId config; githubRepoOwner config; githubRepoName config;
     githubBranch config; outputPath config] in
  Validation.isValid (validateConfiguration config)
    = forallb Js.truthy fields /\
  length (Validation.errors (validateConfiguration config))
    = length (List.filter (fun field => negb (Js.truthy field)) fields) /\
  (Validation.isValid (validateConfiguration config) = true <->
   Validation.errors (validateConfiguration config) = []).
Proof.
  unfold validateConfiguration, required. cbn [forallb List.filter].
  destruct (Js.truthy (notionDatabaseId config)),
    (Js.truthy (githubRepoOwner config)),
    (Js.truthy (githubRepoName config)),
    (Js.truthy (githubBranch config)),
    (Js.truthy (outputPath config));
    cbn; (split; [reflexivity|split; [reflexivity|]]);
    split; (reflexivity || discriminate).
Qed.

(** * Facts about the webhook *)

Section ServerFacts.
Context `{Runtime}.
Variable notion : Notion.
Variable env : Env.

(** A full sync whose query fails sends the repository check alone. *)
Lemma convertAndPush_unlisted (config : ConversionConfig) (g : GitHub)
    (e : Error) :
  getPagesFromDatabase notion (notionDatabaseId config) = inr e ->
  exists r,
    convertAndPush notion config g = (Ok r, received ReposGet g) /\
    success r = false /\ filesProcessed r = None.
Proof.
  intros He. unfold convertAndPush, try_catch, bind, lift.
  rewrite validateRepository_run, He.
  destruct (repo_reachable g); unfold Ok, Throw; cbn [negb];
    eexists; (split; [reflexivity|split; reflexivity]).
Qed.

(** A single-page sync whose query fails sends nothing. *)
Lemma convertSinglePage_unlisted (config : ConversionConfig)
    (pageId : string) (g : GitHub) (e : Error) :
  getPagesFromDatabase notion (notionDatabaseId config) = inr e ->
  exists r,
    convertSinglePage notion config pageId g = (Ok r, g) /\
    success r = false /\ filesProcessed r = None.
Proof.
  intros He. unfold convertSinglePage, try_catch, bind, lift. rewrite He.
  eexists. split; [reflexivity|split; reflexivity].
Qed.

(** The test of the secret, by cases on what the environment holds. *)
Lemma secret_test (header : option string) :
  negb (Js.truthy (Js.or_default (WEBHOOK_SECRET env) ""))
    || negb (String.eqb (Js.or_default header "")
               (Js.or_default (WEBHOOK_SECRET env) ""))
  = match WEBHOOK_SECRET env with
    | Some s =>
        negb (Js.truthy s)
          || negb (if decide (header = Some s) then true else false)
    | None => true
    end.
Proof.
  destruct (WEBHOOK_SECRET env) as [s|]; [|reflexivity].
  unfold Js.or_default, Js.truthy.
  destruct (String.eqb s "") eqn:Es; [reflexivity|].
  cbn [negb orb]. rewrite Es. cbn [negb orb].
  apply String.eqb_neq in Es.
  destruct (decide (header = Some s)) as [->|Hne].
  - apply String.eqb_neq in Es. rewrite Es. cbn [negb].
    rewrite String.eqb_refl. reflexivity.
  - destruct header as [h|].
    + destruct (String.eqb h "") eqn:Eh; cbn [negb].
      * apply not_eq_sym, String.eqb_neq in Es. rewrite Es. reflexivity.
      * assert (h <> s) as Hhs by congruence.
        apply String.eqb_neq in Hhs. rewrite Hhs. reflexivity.
    + apply not_eq_sym, String.eqb_neq in Es. rewrite Es. reflexivity.
Qed.

(** X27. The webhook answers 401 and does nothing unless the environment
    sets a non-empty secret and the header carries exactly that secret:
    without a configured secret every request is refused, also one that
    sends no header or an empty one; and a refused request sends nothing
    to the repository. *)
Theorem notionWebhook_unauthorized (header : option string)
    (reqBody : option Json) (g : GitHub) :
  (forall s, WEBHOOK_SECRET env = Some s -> s = "" \/ header <> Some s) ->
  notionWebhook notion env header reqBody g
    = (Ok {| Response.status := 401;
             Response.body :=
               {| success := false; message := "Unauthorized";
                  filesProcessed := None; errors := None |} |}, g).
Proof.
  intros Hsecret. unfold notionWebhook. rewrite secret_test.
  destruct (WEBHOOK_SECRET env) as [s|]; [|reflexivity].
  destruct (Hsecret s eq_refl) as [->|Hne]; [reflexivity|].
  destruct (decide (header = Some s)); [contradiction|].
  rewrite orb_true_r. reflexivity.
Qed.

(** X28. An authorized webhook cannot sync. The converter of the route is
    built with the empty string as database id, and both sync modes start
    from the listing of that database; when the workspace has no database
    with the empty id, every authorized request, whatever its payload, is
    answered with status 500 and a failure, and the repository has received
    at most the repository check: nothing is written. *)
Theorem notionWebhook_without_database (s : string) (reqBody : option Json)
    (g : GitHub) :
  WEBHOOK_SECRET env = Some s ->
  s <> "" ->
  databases notion !! "" = None ->
  exists r g',
    notionWebhook notion env (Some s) reqBody g = (Ok r, g') /\
    Response.status r = 500 /\
    success (Response.body r) = false /\
    filesProcessed (Response.body r) = None /\
    (g' = g \/ g' = received ReposGet g).
Proof.
  intros Hs Hne Hdb. unfold notionWebhook. rewrite secret_test, Hs.
  assert (Js.truthy s = true) as ->
    by (unfold Js.truthy; destruct (String.eqb_spec s "");
        [contradiction|reflexivity]).
  destruct (decide (Some s = Some s)); [|contradiction]. cbn [negb orb].
  assert (Hq : getPagesFromDatabase notion
                 (notionDatabaseId (buildConverterFromEnv env))
               = inr (PlainError "Failed to fetch pages from Notion"))
    by (unfold getPagesFromDatabase; cbn [notionDatabaseId
          buildConverterFromEnv]; rewrite Hdb; reflexivity).
  unfold try_catch, bind.
  match goal with
  | |- context [if ?b then _ else _] => destruct b
  end.
  - match goal with
    | |- context [convertSinglePage _ _ ?id g] =>
        destruct (convertSinglePage_unlisted _ id g _ Hq)
          as (r & -> & Hr & Hn)
    end.
    unfold Ok, ret. cbv beta iota. rewrite Hr.
    eexists _, g. split; [reflexivity|]. cbn. auto.
  - destruct (convertAndPush_unlisted _ g _ Hq) as (r & -> & Hr & Hn).
    unfold Ok, ret. cbv beta iota. rewrite Hr.
    eexists _, _. split; [reflexivity|]. cbn. auto.
Qed.

(** X29. The webhook never throws, and its status follows its body: it
    answers 401, 200 or 500, and 200 exactly when the body reports
    success. *)
Theorem notionWebhook_status (header : option string)
    (reqBody : option Json) (g : GitHub) :
  exists r g',
    notionWebhook notion env header reqBody g = (Ok r, g') /\
    (Response.status r = 401 \/ Response.status r = 200 \/
     Response.status r = 500) /\
    (Response.status r = 200 <-> success (Response.body r) = true).
Proof.
  assert (Hret : returns (notionWebhook notion env header reqBody))
    by (apply returns_try_catch; intros e; apply returns_ret).
  destruct (Hret g) as [r Hr].
  destruct (notionWebhook notion env header reqBody g) as [res g'] eqn:Hrun.
  cbn in Hr. subst res. exists r, g'. split; [reflexivity|].
  clear Hret. revert g r g' Hrun.
  change (ensures
            (fun r =>
               (Response.status r = 401 \/ Response.status r = 200 \/
                Response.status r = 500) /\
               (Response.status r = 200 <-> success (Response.body r) = true))
            (notionWebhook notion env header reqBody)).
  unfold notionWebhook. apply ensures_try_catch.
  - match goal with
    | |- context [if ?b then _ else _] => destruct b
    end.
    { apply ensures_ret. cbn. split; [auto|]. split; discriminate. }
    match goal with
    | |- context [if ?b then _ else _] => destruct b
    end; apply ensures_bind; intros result; apply ensures_ret;
      cbn; destruct (success result); (split; [auto|]);
      split; intros Hx; first [reflexivity | discriminate Hx].
  - intros e. apply ensures_ret. cbn. split; [auto|]. split; discriminate.
Qed.

End ServerFacts.

Lemma notionWebhook_unauthorized_witness :
  @notionWebhook Sample.runtime Sample.notion Fixture.env (Some "guess")
    (Some (JObj [("pageId", JStr "p1")])) Sample.github
    = (Ok {| Response.status := 401;
             Response.body :=
               {| success := false; message := "Unauthorized";
                  filesProcessed := None; errors := None |} |},
       Sample.github).
Proof.
  apply (@notionWebhook_unauthorized Sample.runtime Sample.notion
           Fixture.env (Some "guess") _ Sample.github).
  intros s [= <-]. right. discriminate.
Defined.

Lemma notionWebhook_without_database_witness :
  exists r g',
    @notionWebhook Sample.runtime Sample.notion Fixture.env (Some "s3cret")
      (Some (JObj [("pageId", JStr "p1")])) Sample.github = (Ok r, g') /\
    Response.status r = 500 /\
    success (Response.body r) = false /\
    filesProcessed (Response.body r) = None /\
    (g' = Sample.github \/ g' = received ReposGet Sample.github).
Proof.
  apply (@notionWebhook_without_database Sample.runtime Sample.notion
           Fixture.env "s3cret" _ Sample.github eq_refl).
  - discriminate.
  - vm_compute. reflexivity.
Defined.
